(** * Streaming tool-calling orchestration engine of src/src/App.tsx

    A shallow embedding of the stream decoder ([readStream]), the tool-call
    resolver and the tool round of [handleSendMessage], the tool executor
    ([executeMcpTool]), the registry poller ([syncTools]) and the workflow
    sequencer ([handleRunWorkflow]), with the properties of spec.md stated
    over them; and of the code around them: the manifest fetch
    ([fetchAllMcpTools]), the registration of an endpoint
    ([registerMcpServer]), the chat sessions ([createNewSession],
    [deleteSession]), the memory round ([getEmbedding], [searchQdrant],
    [upsertToQdrant]), the whole of [handleSendMessage] with its report
    ([logToMlflow]), the rendering of the reasoning block and the move of a
    step in the workflow editor, with properties read off the code.

    The program is TypeScript whose wire data is typed [any]; the embedding
    therefore works on JavaScript values ([JS.value]) and writes out the
    coercions the source performs (truthiness, property reads, [ToString],
    [ToNumber], [JSON.parse], [JSON.stringify]).  Text is modelled as the
    UTF-8 bytes of the JavaScript string ([string]); numbers are IEEE 754
    binary64 ([spec_float] at precision 53). *)

From Stdlib Require Import List String Ascii ZArith NArith Bool Lia SpecFloat.
From Stdlib Require Import Permutation.
From Stdlib Require Import Numbers.DecimalString.
Import ListNotations.

Set Warnings "-register-all,-abstract-large-number".

Local Open Scope string_scope.
Local Open Scope list_scope.

Infix "+++" := String.append (at level 60, right associativity).

(* ===================================================================== *)
(** * Characters and text *)
(* ===================================================================== *)

Module Text.

Definition code (c : ascii) : N := N_of_ascii c.
Definition chr (n : N) : ascii := ascii_of_N n.

Definition in_range (lo hi : N) (c : ascii) : bool :=
  (lo <=? code c)%N && (code c <=? hi)%N.

Definition is_digit (c : ascii) : bool := in_range 48 57 c.
Definition is_lower (c : ascii) : bool := in_range 97 122 c.
Definition is_upper (c : ascii) : bool := in_range 65 90 c.
(** The class [[a-zA-Z0-9_]] of the bracket pattern. *)
Definition is_word (c : ascii) : bool :=
  is_lower c || is_upper c || is_digit c || (code c =? 95)%N.

Definition LF : ascii := chr 10.
Definition CR : ascii := chr 13.
Definition newline : string := String LF "".

Definition is_empty (s : string) : bool :=
  match s with EmptyString => true | String _ _ => false end.

(** White space of [String.prototype.trim] and of [StringToNumber]
    (WhiteSpace and LineTerminator code points), by UTF-8 length. *)
Definition ws1 (c : ascii) : bool := in_range 9 13 c || (code c =? 32)%N.
Definition ws2 (c d : ascii) : bool := (code c =? 194)%N && (code d =? 160)%N.
Definition ws3 (c d e : ascii) : bool :=
  let '(x, y, z) := (code c, code d, code e) in
  ((x =? 225) && (y =? 154) && (z =? 128))%N                   (* U+1680 *)
  || ((x =? 226) && (y =? 128) &&
        ((z <=? 138) && (128 <=? z) || (z =? 168) || (z =? 169) || (z =? 175)))%N
                                     (* U+2000..U+200A, U+2028, U+2029, U+202F *)
  || ((x =? 226) && (y =? 129) && (z =? 159))%N                (* U+205F *)
  || ((x =? 227) && (y =? 128) && (z =? 128))%N                (* U+3000 *)
  || ((x =? 239) && (y =? 187) && (z =? 191))%N.               (* U+FEFF *)

Fixpoint trimStart (s : string) : string :=
  match s with
  | EmptyString => EmptyString
  | String c r =>
      if ws1 c then trimStart r
      else match r with
           | String d (String e r3 as r2) =>
               if ws2 c d then trimStart r2
               else if ws3 c d e then trimStart r3 else s
           | String d EmptyString => if ws2 c d then EmptyString else s
           | EmptyString => s
           end
  end.

Definition blank (s : string) : bool := is_empty (trimStart s).

Fixpoint trimEnd (s : string) : string :=
  match s with
  | EmptyString => EmptyString
  | String c r => if blank s then EmptyString else String c (trimEnd r)
  end.

(** [s.trim()] *)
Definition trim (s : string) : string := trimEnd (trimStart s).

(** [s.split('\n')]: never empty; ["a\n"] gives [["a"; ""]]. *)
Fixpoint split_lines (s : string) : list string :=
  match s with
  | EmptyString => [EmptyString]
  | String c r =>
      if Ascii.eqb c LF then EmptyString :: split_lines r
      else match split_lines r with
           | l :: ls => String c l :: ls
           | [] => [String c EmptyString]
           end
  end.

(** [s.includes(sub)] *)
Fixpoint includes (s sub : string) : bool :=
  String.prefix sub s
  || match s with
     | EmptyString => false
     | String _ r => includes r sub
     end.

Fixpoint drop (n : nat) (s : string) : string :=
  match n, s with
  | O, _ => s
  | S n', String _ r => drop n' r
  | S _, EmptyString => EmptyString
  end.

(** [s.replace(pat, "")] with a string pattern: the first occurrence of
    [pat] is removed, or nothing when there is none. *)
Fixpoint remove_first (pat s : string) : string :=
  if String.prefix pat s then drop (String.length pat) s
  else match s with
       | EmptyString => EmptyString
       | String c r => String c (remove_first pat r)
       end.

(** Decimal rendering of an integer. *)
Definition of_Z (z : Z) : string := NilZero.string_of_int (Z.to_int z).

Fixpoint repeat0 (n : nat) : string :=
  match n with O => "" | S n' => String "0" (repeat0 n') end.

Fixpoint take (n : nat) (s : string) : string :=
  match n, s with
  | S n', String c r => String c (take n' r)
  | _, _ => EmptyString
  end.

Fixpoint join (sep : string) (l : list string) : string :=
  match l with
  | [] => ""
  | [x] => x
  | x :: r => x +++ sep +++ join sep r
  end.

(** The code points of a string, each as a string (string iteration):
    a byte that is not a UTF-8 continuation byte starts a new one. *)
Definition is_cont (c : ascii) : bool := in_range 128 191 c.

Fixpoint code_points (s : string) : list string :=
  match s with
  | EmptyString => []
  | String c r =>
      match code_points r with
      | [] => [String c ""]
      | p :: ps =>
          match p with
          | String d _ => if is_cont d then String c p :: ps
                          else String c "" :: p :: ps
          | EmptyString => String c "" :: ps
          end
      end
  end.

(** Number of UTF-16 code units ([s.length]). *)
Fixpoint utf16_length (s : string) : Z :=
  match s with
  | EmptyString => 0
  | String c r =>
      ((if is_cont c then 0 else if (240 <=? code c)%N then 2 else 1)
       + utf16_length r)%Z
  end.

End Text.

(* ===================================================================== *)
(** * JavaScript values and the coercions the source relies on *)
(* ===================================================================== *)

Module JS.

(** ** Numbers *)

Definition number := spec_float.
Definition prec : Z := 53.
Definition emax : Z := 1024.

Definition NaN : number := S754_nan.
Definition Infinity : number := S754_infinity false.
Definition of_Z (z : Z) : number := binary_normalize prec emax z 0 false.
Definition num_div : number -> number -> number := SFdiv prec emax.
Definition num_eqb : number -> number -> bool := SFeqb.

(** The number nearest to [(-1)^neg * m * 10^e10] (ties to even), the
    value of a decimal literal with digits [m] and exponent [e10]. *)
Definition of_decimal (neg : bool) (m : Z) (e10 : Z) : number :=
  match m with
  | Zpos p =>
      if (0 <=? e10)%Z
      then binary_round prec emax neg (Z.to_pos (Zpos p * 10 ^ e10)) 0
      else SFdiv prec emax (S754_finite neg p 0)
                           (S754_finite false (Z.to_pos (10 ^ (- e10))) 0)
  | _ => S754_zero neg
  end.

Definition is_NaN (x : number) : bool :=
  match x with S754_nan => true | _ => false end.

(** *** Number::toString (radix 10): the shortest digits that read back *)

Definition digits10 (z : Z) : Z := Z.of_nat (String.length (Text.of_Z z)).

(** The exact value [num/den] of the positive number [m * 2^e]. *)
Definition ratio (m : positive) (e : Z) : Z * Z :=
  if (0 <=? e)%Z then (Zpos m * 2 ^ e, 1)%Z else (Zpos m, 2 ^ (- e))%Z.

(** [n] with [10^(n-1) <= num/den < 10^n]. *)
Definition decimal_exponent (num den : Z) : Z :=
  if (den <=? num)%Z then digits10 (num / den)
  else let d := digits10 (den / num) in
       if (num * 10 ^ (d - 1) =? den)%Z then (2 - d)%Z else (1 - d)%Z.

Definition scale (num den p : Z) : Z * Z :=
  if (0 <=? p)%Z then (num * 10 ^ p, den)%Z else (num, den * 10 ^ (- p))%Z.

(** A [k]-digit integer [s] with [s * 10^(n-k)] reading back as [x], the
    one nearest to [x] (the even one on a tie), if there is one. *)
Definition shortest_at (x : number) (num den n k : Z) : option (Z * Z) :=
  let '(a, b) := scale num den (k - n) in
  let lo := (a / b)%Z in
  let hi := (lo + 1)%Z in
  let ok s := num_eqb (of_decimal false s (n - k)) x in
  let up := if (hi =? 10 ^ k)%Z then (10 ^ (k - 1), n + 1)%Z else (hi, n) in
  match ok lo, ok hi with
  | true, true =>
      match (2 * a ?= (2 * lo + 1) * b)%Z with
      | Lt => Some (lo, n)
      | Gt => Some up
      | Eq => if Z.even lo then Some (lo, n) else Some up
      end
  | true, false => Some (lo, n)
  | false, true => Some up
  | false, false => None
  end.

Fixpoint shortest (fuel : nat) (x : number) (num den n k : Z) : Z * Z :=
  match fuel with
  | O => ((fst (scale num den (k - n)) / snd (scale num den (k - n)))%Z, n)
  | S fuel' =>
      match shortest_at x num den n k with
      | Some r => r
      | None => shortest fuel' x num den n (k + 1)
      end
  end.

Definition format_decimal (s n : Z) : string :=
  let D := Text.of_Z s in
  let k := Z.of_nat (String.length D) in
  if ((k <=? n) && (n <=? 21))%Z then D +++ Text.repeat0 (Z.to_nat (n - k))
  else if ((0 <? n) && (n <=? 21))%Z
  then Text.take (Z.to_nat n) D +++ "." +++ Text.drop (Z.to_nat n) D
  else if ((-6 <? n) && (n <=? 0))%Z
  then "0." +++ Text.repeat0 (Z.to_nat (- n)) +++ D
  else
    let e := (n - 1)%Z in
    let es := (if (0 <=? e)%Z then "+" else "-") +++ Text.of_Z (Z.abs e) in
    if (k =? 1)%Z then D +++ "e" +++ es
    else Text.take 1 D +++ "." +++ Text.drop 1 D +++ "e" +++ es.

Definition num_to_string (x : number) : string :=
  match x with
  | S754_nan => "NaN"
  | S754_zero _ => "0"
  | S754_infinity s => if s then "-Infinity" else "Infinity"
  | S754_finite s m e =>
      let '(num, den) := ratio m e in
      let n := decimal_exponent num den in
      let '(d, n') := shortest 17 (S754_finite false m e) num den n 1 in
      (if s then "-" else "") +++ format_decimal d n'
  end.

(** *** StringToNumber *)

Fixpoint digits (base : Z) (dig : ascii -> option Z) (acc cnt : Z) (s : string)
  : Z * Z * string :=
  match s with
  | EmptyString => (acc, cnt, s)
  | String c r =>
      match dig c with
      | Some d => digits base dig (acc * base + d)%Z (cnt + 1)%Z r
      | None => (acc, cnt, s)
      end
  end.

Definition dec_digit (c : ascii) : option Z :=
  if Text.is_digit c then Some (Z.of_N (Text.code c) - 48)%Z else None.

Definition hex_digit (c : ascii) : option Z :=
  if Text.is_digit c then Some (Z.of_N (Text.code c) - 48)%Z
  else if Text.in_range 97 102 c then Some (Z.of_N (Text.code c) - 87)%Z
  else if Text.in_range 65 70 c then Some (Z.of_N (Text.code c) - 55)%Z
  else None.

Definition oct_digit (c : ascii) : option Z :=
  if Text.in_range 48 55 c then Some (Z.of_N (Text.code c) - 48)%Z else None.

Definition bin_digit (c : ascii) : option Z :=
  if Text.in_range 48 49 c then Some (Z.of_N (Text.code c) - 48)%Z else None.

(** An optional exponent part [[eE][+-]?digits]; [None] when an [e] is
    there but no digits follow. *)
Definition exponent_part (s : string) : option (Z * string) :=
  match s with
  | String c r =>
      if Ascii.eqb c "e" || Ascii.eqb c "E" then
        let '(neg, r1) :=
          match r with
          | String sg r' =>
              if Ascii.eqb sg "-" then (true, r')
              else if Ascii.eqb sg "+" then (false, r') else (false, r)
          | EmptyString => (false, r)
          end in
        let '(e, cnt, r2) := digits 10 dec_digit 0 0 r1 in
        if (cnt =? 0)%Z then None else Some (if neg then (- e)%Z else e, r2)
      else Some (0%Z, s)
  | EmptyString => Some (0%Z, s)
  end.

(** StrUnsignedDecimalLiteral without the [Infinity] case:
    [digits . digits? exp?], [. digits exp?] or [digits exp?]. *)
Definition unsigned_decimal (neg : bool) (s : string) : option (number * string) :=
  let '(ip, icnt, s1) := digits 10 dec_digit 0 0 s in
  let '(m, fcnt, s2) :=
    match s1 with
    | String c r =>
        if Ascii.eqb c "." then
          let '(m, fcnt, r') := digits 10 dec_digit ip 0 r in (m, fcnt, r')
        else (ip, 0%Z, s1)
    | EmptyString => (ip, 0%Z, s1)
    end in
  if ((icnt =? 0) && (fcnt =? 0))%Z then None
  else match exponent_part s2 with
       | Some (e, s3) => Some (of_decimal neg m (e - fcnt), s3)
       | None => None
       end.

Definition radix_literal (s : string) : option number :=
  match s with
  | String z (String x r) =>
      if Ascii.eqb z "0" then
        let go base dig :=
          let '(v, cnt, rest) := digits base dig 0 0 r in
          if (0 <? cnt)%Z && Text.is_empty rest then Some (of_Z v) else None in
        if Ascii.eqb x "x" || Ascii.eqb x "X" then go 16%Z hex_digit
        else if Ascii.eqb x "o" || Ascii.eqb x "O" then go 8%Z oct_digit
        else if Ascii.eqb x "b" || Ascii.eqb x "B" then go 2%Z bin_digit
        else None
      else None
  | _ => None
  end.

Definition string_to_number (s : string) : number :=
  let t := Text.trim s in
  if Text.is_empty t then S754_zero false
  else match radix_literal t with
       | Some x => x
       | None =>
           let '(neg, u) :=
             match t with
             | String sg r =>
                 if Ascii.eqb sg "-" then (true, r)
                 else if Ascii.eqb sg "+" then (false, r) else (false, t)
             | EmptyString => (false, t)
             end in
           if String.eqb u "Infinity" then S754_infinity neg
           else match unsigned_decimal neg u with
                | Some (x, rest) => if Text.is_empty rest then x else NaN
                | None => NaN
                end
       end.

(** ** Values *)

Inductive value : Type :=
| undefined
| null
| boolean (b : bool)
| num (x : number)
| str (s : string)
| arr (elems : list value)
| obj (fields : list (string * value)).

(** Thrown values.  Every value thrown in the modelled code is an [Error]
    instance, so [e instanceof Error ? e.message : String(e)] is the
    message.  The text of the messages of engine-raised errors is
    implementation-defined; the model fixes one. *)
Inductive exn : Type :=
| TypeError (message : string)
| SyntaxError (message : string)
| Error (message : string).

Definition message (e : exn) : string :=
  match e with TypeError m | SyntaxError m | Error m => m end.

Inductive completion (A : Type) : Type :=
| Normal (a : A)
| Throw (e : exn).
Arguments Normal {A} a.
Arguments Throw {A} e.

Definition bind {A B} (c : completion A) (k : A -> completion B) : completion B :=
  match c with Normal a => k a | Throw e => Throw e end.

Definition is_zero (x : number) : bool :=
  match x with S754_zero _ => true | _ => false end.

(** ToBoolean *)
Definition truthy (v : value) : bool :=
  match v with
  | undefined | null => false
  | boolean b => b
  | num x => negb (is_zero x || is_NaN x)
  | str s => negb (Text.is_empty s)
  | arr _ | obj _ => true
  end.

(** [a || b] *)
Definition or_else (a b : value) : value := if truthy a then a else b.

Definition is_str (v : value) : bool :=
  match v with str _ => true | _ => false end.

Definition is_array (v : value) : bool :=
  match v with arr _ => true | _ => false end.

(** [a === b].  Arrays and objects compare by identity; wherever the
    source compares, the two sides come from different allocations, so
    they are never identical. *)
Definition strict_eq (a b : value) : bool :=
  match a, b with
  | undefined, undefined | null, null => true
  | boolean x, boolean y => Bool.eqb x y
  | num x, num y => num_eqb x y
  | str x, str y => String.eqb x y
  | _, _ => false
  end.

(** *** Objects as ordered fields *)

Fixpoint lookup (k : string) (fs : list (string * value)) : option value :=
  match fs with
  | [] => None
  | (k', v) :: r => if String.eqb k' k then Some v else lookup k r
  end.

(** A canonical array index: the decimal form of an integer below 2^32 - 1. *)
Definition array_index (k : string) : option Z :=
  let '(v, cnt, rest) := digits 10 dec_digit 0 0 k in
  if (0 <? cnt)%Z && Text.is_empty rest && String.eqb (Text.of_Z v) k
     && (v <? 4294967295)%Z
  then Some v else None.

(** Insertion of a new key in property order: integer keys ascending
    first, then the other keys in insertion order. *)
Fixpoint insert_new (k : string) (v : value) (fs : list (string * value))
  : list (string * value) :=
  match fs with
  | [] => [(k, v)]
  | (k', v') :: r =>
      match array_index k, array_index k' with
      | Some i, Some j => if (i <? j)%Z then (k, v) :: fs
                          else (k', v') :: insert_new k v r
      | Some _, None => (k, v) :: fs
      | None, _ => (k', v') :: insert_new k v r
      end
  end.

Fixpoint replace_field (k : string) (v : value) (fs : list (string * value))
  : list (string * value) :=
  match fs with
  | [] => []
  | (k', v') :: r =>
      if String.eqb k' k then (k', v) :: r else (k', v') :: replace_field k v r
  end.

(** [o[k] = v] on the fields of an object. *)
Definition set_field (k : string) (v : value) (fs : list (string * value))
  : list (string * value) :=
  match lookup k fs with
  | Some _ => replace_field k v fs
  | None => insert_new k v fs
  end.

(** *** Property reads

    [get v k] is [v.k] (or [v[k]]).  It is used with the names the source
    reads ([message], [content], [tool_calls], [done], [eval_count],
    [eval_duration], [name], [function], [arguments], [parameters],
    [params], [id], [result], [text], [tools], [length]) and with the index
    [0]; none of them is inherited from a prototype, except [length]. *)

Definition utf8_encode (cp : N) : string :=
  let b (n : N) := Text.chr n in
  (if cp <? 128 then String (b cp) ""
   else if cp <? 2048
   then String (b (192 + cp / 64)) (String (b (128 + cp mod 64)) "")
   else if cp <? 65536
   then String (b (224 + cp / 4096))
          (String (b (128 + (cp / 64) mod 64)) (String (b (128 + cp mod 64)) ""))
   else String (b (240 + cp / 262144))
          (String (b (128 + (cp / 4096) mod 64))
             (String (b (128 + (cp / 64) mod 64))
                (String (b (128 + cp mod 64)) ""))))%N.

(** The UTF-16 code units of one code point, each as a string (a
    surrogate is carried in generalized UTF-8). *)
Definition units_of_code_point (p : string) : list string :=
  match p with
  | String b0 (String b1 (String b2 (String b3 EmptyString))) =>
      let cp := ((Text.code b0 mod 8) * 262144 + (Text.code b1 mod 64) * 4096
                 + (Text.code b2 mod 64) * 64 + Text.code b3 mod 64)%N in
      let v := (cp - 65536)%N in
      [utf8_encode (55296 + v / 1024)%N; utf8_encode (56320 + v mod 1024)%N]
  | _ => [p]
  end.

Definition code_units (s : string) : list string :=
  flat_map units_of_code_point (Text.code_points s).

Definition get_own (v : value) (k : string) : value :=
  match v with
  | obj fs => match lookup k fs with Some x => x | None => undefined end
  | arr l =>
      if String.eqb k "length" then num (of_Z (Z.of_nat (List.length l)))
      else match array_index k with
           | Some i => nth (Z.to_nat i) l undefined
           | None => undefined
           end
  | str s =>
      if String.eqb k "length" then num (of_Z (Text.utf16_length s))
      else match array_index k with
           | Some i => match nth_error (code_units s) (Z.to_nat i) with
                       | Some u => str u
                       | None => undefined
                       end
           | None => undefined
           end
  | _ => undefined
  end.

Definition get (v : value) (k : string) : completion value :=
  match v with
  | undefined =>
      Throw (TypeError ("Cannot read properties of undefined (reading '" +++ k +++ "')"))
  | null =>
      Throw (TypeError ("Cannot read properties of null (reading '" +++ k +++ "')"))
  | _ => Normal (get_own v k)
  end.

(** [v?.k] *)
Definition get_opt (v : value) (k : string) : value :=
  match v with
  | undefined | null => undefined
  | _ => get_own v k
  end.

(** *** ToString and ToNumber

    An object parsed from JSON converts to ["[object Object]"] unless it
    has an own [toString] field, which is then not callable and makes the
    conversion throw; an array converts through [join]. *)

Definition cannot_convert : exn := TypeError "Cannot convert object to primitive value".

Fixpoint to_string (v : value) : completion string :=
  match v with
  | undefined => Normal "undefined"
  | null => Normal "null"
  | boolean b => Normal (if b then "true" else "false")
  | num x => Normal (num_to_string x)
  | str s => Normal s
  | arr l =>
      let fix go (l : list value) : completion (list string) :=
        match l with
        | [] => Normal []
        | v :: r =>
            bind (match v with
                  | undefined | null => Normal ""
                  | _ => to_string v
                  end) (fun s =>
            bind (go r) (fun ss => Normal (s :: ss)))
        end in
      bind (go l) (fun ss => Normal (Text.join "," ss))
  | obj fs =>
      match lookup "toString" fs with
      | Some _ => Throw cannot_convert
      | None => Normal "[object Object]"
      end
  end.

Definition to_number (v : value) : completion number :=
  match v with
  | undefined => Normal NaN
  | null => Normal (S754_zero false)
  | boolean b => Normal (if b then of_Z 1 else S754_zero false)
  | num x => Normal x
  | str s => Normal (string_to_number s)
  | arr _ | obj _ => bind (to_string v) (fun s => Normal (string_to_number s))
  end.

(** [a / b] *)
Definition div (a b : value) : completion value :=
  bind (to_number a) (fun x =>
  bind (to_number b) (fun y => Normal (num (num_div x y)))).

(** [a + b] with a string on the left ([s += v]) *)
Definition concat (s : string) (v : value) : completion string :=
  bind (to_string v) (fun t => Normal (s +++ t)).

End JS.

(* ===================================================================== *)
(** * JSON.parse and JSON.stringify *)
(* ===================================================================== *)

Module JSON.
Import JS.

Definition is_ws (c : ascii) : bool :=
  let n := Text.code c in ((n =? 32) || (n =? 9) || (n =? 10) || (n =? 13))%N.

Fixpoint skip_ws (s : string) : string :=
  match s with
  | String c r => if is_ws c then skip_ws r else s
  | EmptyString => s
  end.

Definition hex4 (a b c d : ascii) : option N :=
  match hex_digit a, hex_digit b, hex_digit c, hex_digit d with
  | Some x, Some y, Some z, Some w => Some (Z.to_N (((x * 16 + y) * 16 + z) * 16 + w))
  | _, _, _, _ => None
  end.

Definition simple_escape (c : ascii) : option ascii :=
  let n := Text.code c in
  (if n =? 34 then Some c            (* quote *)
   else if n =? 92 then Some c       (* backslash *)
   else if n =? 47 then Some c       (* slash *)
   else if n =? 98 then Some (Text.chr 8)
   else if n =? 102 then Some (Text.chr 12)
   else if n =? 110 then Some (Text.chr 10)
   else if n =? 114 then Some (Text.chr 13)
   else if n =? 116 then Some (Text.chr 9)
   else None)%N.

Definition is_high_surrogate (u : N) : bool := ((55296 <=? u) && (u <=? 56319))%N.
Definition is_low_surrogate (u : N) : bool := ((56320 <=? u) && (u <=? 57343))%N.

(** The text of a string literal after its opening quote, up to the
    closing quote: the decoded string and what follows the literal. *)
Fixpoint string_body (s : string) : option (string * string) :=
  match s with
  | EmptyString => None
  | String c r =>
      if (Text.code c =? 34)%N then Some ("", r)
      else if (Text.code c =? 92)%N then
        match r with
        | String e r1 =>
            if (Text.code e =? 117)%N then
              match r1 with
              | String h1 (String h2 (String h3 (String h4 r2))) =>
                  match hex4 h1 h2 h3 h4 with
                  | Some u =>
                      let single :=
                        match string_body r2 with
                        | Some (t, rest) => Some (utf8_encode u +++ t, rest)
                        | None => None
                        end in
                      if is_high_surrogate u then
                        match r2 with
                        | String b (String k (String l1 (String l2 (String l3 (String l4 r3))))) =>
                            if ((Text.code b =? 92) && (Text.code k =? 117))%N then
                              match hex4 l1 l2 l3 l4 with
                              | Some w =>
                                  if is_low_surrogate w then
                                    match string_body r3 with
                                    | Some (t, rest) =>
                                        Some (utf8_encode
                                                (65536 + (u - 55296) * 1024 + (w - 56320))%N
                                              +++ t, rest)
                                    | None => None
                                    end
                                  else single
                              | None => single
                              end
                            else single
                        | _ => single
                        end
                      else single
                  | None => None
                  end
              | _ => None
              end
            else
              match simple_escape e with
              | Some x =>
                  match string_body r1 with
                  | Some (t, rest) => Some (String x t, rest)
                  | None => None
                  end
              | None => None
              end
        | EmptyString => None
        end
      else if (Text.code c <? 32)%N then None
      else match string_body r with
           | Some (t, rest) => Some (String c t, rest)
           | None => None
           end
  end.

(** A JSON number: an optional minus, 0 or a digit string without a
    leading zero, an optional fraction (a dot and digits), an optional
    exponent. *)
Definition number_literal (s : string) : option (number * string) :=
  let '(neg, s0) :=
    match s with
    | String c r => if Ascii.eqb c "-" then (true, r) else (false, s)
    | EmptyString => (false, s)
    end in
  let int_part :=
    match s0 with
    | String c r =>
        if Ascii.eqb c "0" then Some (0%Z, r)
        else if Text.is_digit c
        then let '(v, _, r') := digits 10 dec_digit 0 0 s0 in Some (v, r')
        else None
    | EmptyString => None
    end in
  match int_part with
  | None => None
  | Some (ip, s1) =>
      let frac :=
        match s1 with
        | String c r =>
            if Ascii.eqb c "." then
              let '(m, cnt, r') := digits 10 dec_digit ip 0 r in
              if (cnt =? 0)%Z then None else Some (m, cnt, r')
            else Some (ip, 0%Z, s1)
        | EmptyString => Some (ip, 0%Z, s1)
        end in
      match frac with
      | None => None
      | Some (m, fcnt, s2) =>
          match exponent_part s2 with
          | Some (e, s3) => Some (of_decimal neg m (e - fcnt), s3)
          | None => None
          end
      end
  end.

Definition literal (word : string) (v : value) (s : string) : option (value * string) :=
  if String.prefix word s then Some (v, Text.drop (String.length word) s) else None.

Fixpoint parse_value (fuel : nat) (s : string) : option (value * string) :=
  match fuel with
  | O => None
  | S fuel' =>
      match skip_ws s with
      | EmptyString => None
      | String c r as t =>
          let n := Text.code c in
          if (n =? 123)%N then                                   (* { *)
            match skip_ws r with
            | String d r' =>
                if (Text.code d =? 125)%N then Some (obj [], r')
                else parse_members fuel' [] r
            | EmptyString => None
            end
          else if (n =? 91)%N then                               (* [ *)
            match skip_ws r with
            | String d r' =>
                if (Text.code d =? 93)%N then Some (arr [], r')
                else parse_elements fuel' [] r
            | EmptyString => None
            end
          else if (n =? 34)%N then
            match string_body r with
            | Some (x, rest) => Some (str x, rest)
            | None => None
            end
          else if (n =? 116)%N then literal "true" (boolean true) t
          else if (n =? 102)%N then literal "false" (boolean false) t
          else if (n =? 110)%N then literal "null" null t
          else match number_literal t with
               | Some (x, rest) => Some (num x, rest)
               | None => None
               end
      end
  end
with parse_elements (fuel : nat) (acc : list value) (s : string)
  : option (value * string) :=
  match fuel with
  | O => None
  | S fuel' =>
      match parse_value fuel' s with
      | Some (v, r) =>
          match skip_ws r with
          | String c r' =>
              if (Text.code c =? 44)%N then parse_elements fuel' (v :: acc) r'
              else if (Text.code c =? 93)%N then Some (arr (rev (v :: acc)), r')
              else None
          | EmptyString => None
          end
      | None => None
      end
  end
with parse_members (fuel : nat) (acc : list (string * value)) (s : string)
  : option (value * string) :=
  match fuel with
  | O => None
  | S fuel' =>
      match skip_ws s with
      | String q r =>
          if (Text.code q =? 34)%N then
            match string_body r with
            | Some (k, r1) =>
                match skip_ws r1 with
                | String c r2 =>
                    if (Text.code c =? 58)%N then
                      match parse_value fuel' r2 with
                      | Some (v, r3) =>
                          match skip_ws r3 with
                          | String d r4 =>
                              if (Text.code d =? 44)%N
                              then parse_members fuel' (set_field k v acc) r4
                              else if (Text.code d =? 125)%N
                              then Some (obj (set_field k v acc), r4)
                              else None
                          | EmptyString => None
                          end
                      | None => None
                      end
                    else None
                | EmptyString => None
                end
            | None => None
            end
          else None
      | EmptyString => None
      end
  end.

(** [JSON.parse(text)]: a value, or a [SyntaxError].  The recursion is
    bounded by twice the length of the text, which no nesting exceeds. *)
Definition parse (text : string) : completion value :=
  match parse_value (2 * String.length text + 2) text with
  | Some (v, rest) =>
      if Text.is_empty (skip_ws rest) then Normal v
      else Throw (SyntaxError "Unexpected non-whitespace character after JSON")
  | None => Throw (SyntaxError "Unexpected token in JSON")
  end.

(** *** JSON.stringify *)

Definition hex_char (n : N) : ascii :=
  if (n <? 10)%N then Text.chr (48 + n) else Text.chr (87 + n).

Definition u_escape (u : N) : string :=
  String (Text.chr 92) "u" +++ String (hex_char (u / 4096)) (String (hex_char ((u / 256) mod 16))
            (String (hex_char ((u / 16) mod 16)) (String (hex_char (u mod 16)) ""))).

Definition backslash : ascii := Text.chr 92.
Definition dquote : ascii := Text.chr 34.

(** QuoteJSONString, without the enclosing quotes. *)
Fixpoint quote_body (s : string) : string :=
  match s with
  | EmptyString => ""
  | String c r =>
      let n := Text.code c in
      let esc (x : ascii) := String backslash (String x (quote_body r)) in
      if (n =? 34)%N then esc dquote
      else if (n =? 92)%N then esc backslash
      else if (n =? 8)%N then esc "b"%char
      else if (n =? 12)%N then esc "f"%char
      else if (n =? 10)%N then esc "n"%char
      else if (n =? 13)%N then esc "r"%char
      else if (n =? 9)%N then esc "t"%char
      else if (n <? 32)%N then u_escape n +++ quote_body r
      else
        (* a lone surrogate (generalized UTF-8: ED A0..BF xx) is escaped *)
        match r with
        | String d (String e r') =>
            if ((n =? 237) && (160 <=? Text.code d))%N
            then u_escape (53248 + (Text.code d mod 64) * 64 + Text.code e mod 64)%N
                 +++ quote_body r'
            else String c (quote_body r)
        | _ => String c (quote_body r)
        end
  end.

Definition quote (s : string) : string :=
  String dquote (quote_body s +++ String dquote "").

(** [JSON.stringify(v)]; [None] is the result [undefined]. *)
Fixpoint stringify (v : value) : option string :=
  match v with
  | undefined => None
  | null => Some "null"
  | boolean b => Some (if b then "true" else "false")
  | num x =>
      match x with
      | S754_nan | S754_infinity _ => Some "null"
      | _ => Some (num_to_string x)
      end
  | str s => Some (quote s)
  | arr l =>
      Some ("[" +++ Text.join ","
                      (map (fun e => match stringify e with
                                     | Some t => t
                                     | None => "null"
                                     end) l) +++ "]")
  | obj fs =>
      let fix members (fs : list (string * value)) : list string :=
        match fs with
        | [] => []
        | (k, e) :: r =>
            match stringify e with
            | Some t => (quote k +++ ":" +++ t) :: members r
            | None => members r
            end
        end in
      Some ("{" +++ Text.join "," (members fs) +++ "}")
  end.

(** JSON text is written in this development with ['] for the quote
    character: [text "{'a':1}"] is the text [{"a":1}]. *)
Fixpoint text (s : string) : string :=
  match s with
  | EmptyString => ""
  | String c r => String (if (Text.code c =? 39)%N then dquote else c) (text r)
  end.

End JSON.

(* ===================================================================== *)
(** * Session messages ([updateAssistantMessage]) *)
(* ===================================================================== *)

Module Session.
Import JS.

(** The messages of the session a turn writes to.  A message is the
    JavaScript object the source builds ([role], [content], [stats],
    [sources], [tool_call_id], [tool_calls]); the other sessions of the
    [sessions] state are left alone by every [setSessions] below. *)
Definition messages := list value.

(** [{...v}] *)
Definition spread (v : value) : list (string * value) :=
  match v with
  | obj fs => fs
  | arr l =>
      snd (fold_left (fun '(i, acc) e => (i + 1, acc ++ [(Text.of_Z i, e)])%Z)
                     l (0%Z, []))
  | str s =>
      snd (fold_left (fun '(i, acc) u => (i + 1, acc ++ [(Text.of_Z i, str u)])%Z)
                     (code_units s) (0%Z, []))
  | _ => []
  end.

(** [msgs[msgs.length - 1]?.role !== 'assistant'] *)
Definition last_not_assistant (msgs : messages) : bool :=
  negb (strict_eq (get_opt (last msgs undefined) "role") (str "assistant")).

Definition updateAssistantMessage
  (content : string) (stats sources : value) (msgs : messages) : messages :=
  if last_not_assistant msgs then
    msgs ++ [obj [("role", str "assistant"); ("content", str content);
                  ("stats", stats); ("sources", sources)]]
  else
    let m := last msgs undefined in
    removelast msgs ++
      [obj (set_field "sources" (or_else sources (get_own m "sources"))
             (set_field "stats" (or_else stats (get_own m "stats"))
                (set_field "content" (str content) (spread m))))].

End Session.

(* ===================================================================== *)
(** * Stream decoder ([readStream]) *)
(* ===================================================================== *)

Module Decoder.
Import JS.

Record state : Type := {
  assistantMessageContent : string;
  toolCalls : list value;
  fullMessage : value;
  session : Session.messages
}.

(** The body of the [try] block runs in a state-and-exception monad: a
    throw leaves the assignments made before it in place. *)
Definition M (A : Type) : Type := state -> state * completion A.

Definition ret {A} (a : A) : M A := fun st => (st, Normal a).
Definition lift {A} (c : completion A) : M A := fun st => (st, c).
Definition seq {A B} (m : M A) (k : A -> M B) : M B :=
  fun st => match m st with
            | (st', Normal a) => k a st'
            | (st', Throw e) => (st', Throw e)
            end.

Notation "x <- m ;; k" := (seq m (fun x => k))
  (at level 61, m at next level, right associativity).
Notation "m ;;; k" := (seq m (fun _ => k))
  (at level 61, right associativity).

Definition when (b : bool) (m : M unit) : M unit := if b then m else ret tt.

Definition set_fullMessage (m : value) : M unit :=
  fun st => ({| assistantMessageContent := assistantMessageContent st;
                toolCalls := toolCalls st;
                fullMessage := m;
                session := session st |}, Normal tt).

(** [assistantMessageContent += v] *)
Definition append_content (v : value) : M unit :=
  fun st =>
    match concat (assistantMessageContent st) v with
    | Normal s => ({| assistantMessageContent := s;
                      toolCalls := toolCalls st;
                      fullMessage := fullMessage st;
                      session := session st |}, Normal tt)
    | Throw e => (st, Throw e)
    end.

(** The elements [...v] spreads: those of an array, the code points of a
    string; anything else is not iterable. *)
Definition iterate (v : value) : completion (list value) :=
  match v with
  | arr l => Normal l
  | str s => Normal (map str (Text.code_points s))
  | _ => Throw (TypeError "Spread syntax requires ...iterable[Symbol.iterator] to be a function")
  end.

(** [toolCalls.push(...v)] *)
Definition push_toolCalls (v : value) : M unit :=
  fun st =>
    match iterate v with
    | Normal l => ({| assistantMessageContent := assistantMessageContent st;
                      toolCalls := toolCalls st ++ l;
                      fullMessage := fullMessage st;
                      session := session st |}, Normal tt)
    | Throw e => (st, Throw e)
    end.

(** [if (data.message) { ... }] *)
Definition on_message (data : value) : M unit :=
  message <- lift (get data "message") ;;
  when (truthy message) (
    set_fullMessage message ;;;
    content <- lift (get message "content") ;;
    when (truthy content) (append_content content) ;;;
    tool_calls <- lift (get message "tool_calls") ;;
    when (truthy tool_calls) (push_toolCalls tool_calls)).

Definition e9 : value := num (of_Z 1000000000).

(** [data.done ? { totalTokens: data.eval_count,
                   tokensPerSecond: data.eval_count / (data.eval_duration / 1e9) }
              : undefined] *)
Definition stats_of (data : value) : completion value :=
  bind (get data "done") (fun done =>
  if truthy done then
    bind (get data "eval_count") (fun eval_count =>
    bind (get data "eval_duration") (fun eval_duration =>
    bind (div eval_duration e9) (fun seconds =>
    bind (div eval_count seconds) (fun rate =>
    Normal (obj [("totalTokens", eval_count); ("tokensPerSecond", rate)])))))
  else Normal undefined).

(** [updateAssistantMessage(sessionId, assistantMessageContent, stats, sources)] *)
Definition surface (stats sources : value) : M unit :=
  fun st =>
    ({| assistantMessageContent := assistantMessageContent st;
        toolCalls := toolCalls st;
        fullMessage := fullMessage st;
        session := Session.updateAssistantMessage
                     (assistantMessageContent st) stats sources (session st) |},
     Normal tt).

Definition on_object (sources data : value) : M unit :=
  on_message data ;;;
  stats <- lift (stats_of data) ;;
  surface stats sources.

(** One iteration of [for (const line of lines)]: a blank line is skipped;
    a line that does not parse, or whose handling throws, is logged and
    the loop goes on with what was assigned so far. *)
Definition process_line (sources : value) (st : state) (line : string) : state :=
  if Text.is_empty (Text.trim line) then st
  else match JSON.parse line with
       | Normal data => fst (on_object sources data st)
       | Throw _ => st
       end.

(** One iteration of [while (true)]: a chunk is split on its own. *)
Definition process_chunk (sources : value) (st : state) (chunk : string) : state :=
  fold_left (process_line sources) (Text.split_lines chunk) st.

(** The state before the loop; the [setSessions] call appends an empty
    assistant message unless the last message is one. *)
Definition start (sources : value) (msgs : Session.messages) : state :=
  {| assistantMessageContent := "";
     toolCalls := [];
     fullMessage := null;
     session := if Session.last_not_assistant msgs
                then msgs ++ [obj [("role", str "assistant"); ("content", str "");
                                   ("sources", sources)]]
                else msgs |}.

(** [readStream(reader, sessionId, sources)].  The reader is the list of
    chunks it yields before [done], each already decoded to text
    ([TextDecoder.decode] with [stream: true] keeps a character cut by a
    chunk boundary for the next chunk, so the texts concatenate to the text
    of the whole body).  The final state holds the returned
    [{content, toolCalls, message}] and the session messages. *)
Definition readStream (chunks : list string) (sources : value)
  (msgs : Session.messages) : state :=
  fold_left (process_chunk sources) chunks (start sources msgs).

(** The single-shot decoding of the same body. *)
Definition decode_whole (chunks : list string) (sources : value)
  (msgs : Session.messages) : state :=
  readStream [String.concat "" chunks] sources msgs.

End Decoder.

(* ===================================================================== *)
(** * Tool manifest *)
(* ===================================================================== *)

Module Manifest.
Import JS.

(** An entry of the manifest [fetchAllMcpTools] returns:
    [{type: 'function', function: {name, description, parameters, serverUrl}}].
    The name is a string (the source builds it with a template literal). *)
Record ToolDef : Type := {
  name : string;
  description : value;
  parameters : value;
  serverUrl : string
}.

(** [mcpTools.find(t => t.function.name === toolName)] *)
Definition find_tool (mcpTools : list ToolDef) (toolName : value) : option ToolDef :=
  find (fun t => strict_eq (str (name t)) toolName) mcpTools.

(** [mcpTools.some(t => t.function.name === toolName)] *)
Definition in_manifest (mcpTools : list ToolDef) (toolName : value) : bool :=
  existsb (fun t => strict_eq (str (name t)) toolName) mcpTools.

End Manifest.

(* ===================================================================== *)
(** * Tool-call resolver (the "smart tool fallback" of [handleSendMessage]) *)
(* ===================================================================== *)

Module Resolver.
Import JS.
Import Manifest.

(** [[{ id, function: { name: toolName, arguments: toolArgs } }]] *)
Definition synthesized (id : string) (toolName toolArgs : value) : list value :=
  [obj [("id", str id);
        ("function", obj [("name", toolName); ("arguments", toolArgs)])]].

(** *** [content.match(/\{[\s\S]*\}/)]: from the first opening brace to
    the last closing brace after it. *)

Fixpoint from_first (c : ascii) (s : string) : option string :=
  match s with
  | EmptyString => None
  | String x r => if Ascii.eqb x c then Some s else from_first c r
  end.

Fixpoint up_to_last (c : ascii) (s : string) : option string :=
  match s with
  | EmptyString => None
  | String x r =>
      match up_to_last c r with
      | Some t => Some (String x t)
      | None => if Ascii.eqb x c then Some (String x "") else None
      end
  end.

Definition match_braces (content : string) : option string :=
  match from_first "{" content with
  | Some (String b r) =>
      match up_to_last "}" r with
      | Some t => Some (String b t)
      | None => None
      end
  | _ => None
  end.

(** [a || b] where [b] is only evaluated when [a] is falsy. *)
Definition or_get (a b : completion value) : completion value :=
  bind a (fun v => if truthy v then Normal v else b).

(** Fallback 1, JSON sniffing.  [Some] is an accepted call with the
    stripped content; [None] leaves [toolCalls] and [content] as they
    were (also when the [try] block throws). *)
Definition json_sniff (now : Z) (content : string) : option (list value * string) :=
  if Text.includes (Text.trim content) "{" then
    match match_braces content with
    | Some jsonMatch =>
        match
          bind (JSON.parse jsonMatch) (fun potentialTool =>
          bind (or_get (get potentialTool "name")
                       (get potentialTool "function")) (fun toolName =>
          bind (or_get (get potentialTool "arguments")
                  (or_get (get potentialTool "parameters")
                          (get potentialTool "params"))) (fun toolArgs =>
          Normal (toolName, toolArgs))))
        with
        | Normal (toolName, toolArgs) =>
            if truthy toolName && is_str toolName then
              let toolArgs :=
                if is_array toolArgs
                then or_else (get_own toolArgs "0") (obj [])
                else toolArgs in
              Some (synthesized ("call_fallback_json_" +++ Text.of_Z now)
                                toolName toolArgs,
                    Text.trim (Text.remove_first jsonMatch content))
            else None
        | Throw _ => None
        end
    | None => None
    end
  else None.

(** *** [content.match(/\[([a-zA-Z0-9_]+)(?:\((.*?)\))?\]/)] *)

Record bracket_match : Type := {
  span : string;            (* bracketMatch[0] *)
  ident : string;           (* bracketMatch[1] *)
  args : option string      (* bracketMatch[2], [None] when undefined *)
}.

(** The longest run of [[a-zA-Z0-9_]] and what follows it. *)
Fixpoint word_run (s : string) : string * string :=
  match s with
  | String c r =>
      if Text.is_word c then let '(w, rest) := word_run r in (String c w, rest)
      else (EmptyString, s)
  | EmptyString => (EmptyString, s)
  end.

(** [.] does not match a line terminator: LF, CR, U+2028, U+2029. *)
Definition line_terminator_at (s : string) : bool :=
  match s with
  | String c r =>
      Ascii.eqb c Text.LF || Ascii.eqb c Text.CR
      || match r with
         | String d (String e _) =>
             ((Text.code c =? 226) && (Text.code d =? 128)
              && ((Text.code e =? 168) || (Text.code e =? 169)))%N
         | _ => false
         end
  | EmptyString => false
  end.

(** After the opening parenthesis: the shortest [t] free of line
    terminators that is followed by [")]"], and what follows that. *)
Fixpoint lazy_args (s : string) : option (string * string) :=
  match s with
  | EmptyString => None
  | String c r =>
      if Ascii.eqb c ")" && String.prefix "]" r then Some (EmptyString, Text.drop 1 r)
      else if line_terminator_at s then None
      else match lazy_args r with
           | Some (t, rest) => Some (String c t, rest)
           | None => None
           end
  end.

(** A match that starts at the first character of [s]. *)
Definition bracket_at (s : string) : option bracket_match :=
  match s with
  | String b r =>
      if Ascii.eqb b "[" then
        let '(w, r1) := word_run r in
        if Text.is_empty w then None
        else match r1 with
             | String c r2 =>
                 if Ascii.eqb c "(" then
                   match lazy_args r2 with
                   | Some (t, _) =>
                       Some {| span := "[" +++ w +++ "(" +++ t +++ ")]";
                               ident := w; args := Some t |}
                   | None => None
                   end
                 else if Ascii.eqb c "]" then
                   Some {| span := "[" +++ w +++ "]"; ident := w; args := None |}
                 else None
             | EmptyString => None
             end
      else None
  | EmptyString => None
  end.

(** The leftmost match. *)
Fixpoint match_bracket (s : string) : option bracket_match :=
  match bracket_at s with
  | Some m => Some m
  | None => match s with
            | String _ r => match_bracket r
            | EmptyString => None
            end
  end.

(** The arguments of a bracket call: [{}] unless [bracketMatch[2]] is a
    non-empty string, which is parsed as JSON or, failing that, wrapped
    as [{input: ...}]. *)
Definition bracket_args (m : bracket_match) : value :=
  match args m with
  | Some a =>
      if truthy (str a) then
        match JSON.parse a with
        | Normal v => v
        | Throw _ => obj [("input", str a)]
        end
      else obj []
  | None => obj []
  end.

(** Fallback 2, bracket sniffing. *)
Definition bracket_sniff (now : Z) (mcpTools : list ToolDef) (content : string)
  : option (list value * string) :=
  if Text.includes content "[" && Text.includes content "]" then
    match match_bracket content with
    | Some bracketMatch =>
        let toolName := str (ident bracketMatch) in
        let toolArgs := bracket_args bracketMatch in
        if in_manifest mcpTools toolName then
          Some (synthesized ("call_fallback_bracket_" +++ Text.of_Z now)
                            toolName toolArgs,
                Text.trim (Text.remove_first (span bracketMatch) content))
        else None
    | None => None
    end
  else None.

Definition is_nil {A} (l : list A) : bool :=
  match l with [] => true | _ => false end.

(** Lines 917-970: the tool calls and the content after the fallbacks.
    [now] is the reading of [Date.now()]; at most one of the two
    fallbacks reads it. *)
Definition resolve (now : Z) (mcpTools : list ToolDef)
  (content : string) (toolCalls : list value) : list value * string :=
  if is_nil toolCalls then
    let '(toolCalls, content) :=
      match json_sniff now content with
      | Some r => r
      | None => (toolCalls, content)
      end in
    if is_nil toolCalls then
      match bracket_sniff now mcpTools content with
      | Some r => r
      | None => (toolCalls, content)
      end
    else (toolCalls, content)
  else (toolCalls, content).

End Resolver.

(* ===================================================================== *)
(** * Network replies *)
(* ===================================================================== *)

Module Net.
Import JS.

(** What [await fetch(...)] gives: a rejection (unreachable host, timeout,
    abort), or a response with its [ok] flag, status and body text. *)
Inductive reply : Type :=
| Rejected (e : exn)
| Response (ok : bool) (status : Z) (body : string).

(** A streamed response: the body arrives as decoded chunks. *)
Inductive stream_reply : Type :=
| StreamRejected (e : exn)
| StreamError (status : Z) (statusText errorText : string)   (* [!response.ok] *)
| Stream (chunks : list string).

(** The requests a run issues, in order.  A chat request is given by what
    varies within a run: the messages and the tools of its body (the
    address, the model and the options of a turn's chat requests are the
    same for the turn; [Turn.chat_post] has them). *)
Inductive request : Type :=
| ToolsCall (url : string) (name : string) (arguments : value) (id : Z)
| ChatStream (messages : list value) (tools : option (list Manifest.ToolDef))
| ChatOnce (model : string) (system user : string) (temperature : number).

End Net.

(* ===================================================================== *)
(** * Tool executor ([executeMcpTool]) *)
(* ===================================================================== *)

Module Executor.
Import JS.

(** [`Error: Tool execution failed. ${e instanceof Error ? e.message : String(e)}`] *)
Definition failure (e : exn) : value :=
  str ("Error: Tool execution failed. " +++ message e).

Definition stringified (v : value) : value :=
  match JSON.stringify v with Some s => str s | None => undefined end.

(** [data.result?.content?.[0]?.text || data.result?.text
     || JSON.stringify(data.result)] *)
Definition result_of (data : value) : completion value :=
  bind (get data "result") (fun result =>
  Normal (or_else (get_opt (get_opt (get_opt result "content") "0") "text")
            (or_else (get_opt result "text") (stringified result)))).

(** The [try] block, when the single [tools/call] request it issues is
    answered by [r]. *)
Definition attempt (r : Net.reply) : completion value :=
  match r with
  | Net.Rejected e => Throw e
  | Net.Response _ _ body =>
      bind (JSON.parse body) (fun data =>
      bind (result_of data) (fun result =>
      Normal (or_else result (str "Tool returned no data."))))
  end.

(** [executeMcpTool(toolName, args, serverUrl)]: the [catch] block turns
    whatever the [try] block throws into the failure text. *)
Definition executeMcpTool (r : Net.reply) : completion value :=
  match attempt r with
  | Normal result => Normal result
  | Throw e => Normal (failure e)
  end.

(** The requests one execution issues. *)
Definition requests (toolName : string) (args : value) (serverUrl : string) (now : Z)
  : list Net.request :=
  [Net.ToolsCall serverUrl toolName args now].

End Executor.

(* ===================================================================== *)
(** * Conversation loop: the tool round of [handleSendMessage] *)
(* ===================================================================== *)

Module Conversation.
Import JS.

(** The world a turn runs in: the replies to the two chat requests and
    to the [tools/call] request of the call at each index of [toolCalls],
    and the readings of [Date.now()] at its call sites (the fallback id,
    the request id and the response id of the call at each index). *)
Record World : Type := {
  first : Net.stream_reply;
  followup : Net.stream_reply;
  tool_reply : nat -> Net.reply;
  fallback_now : Z;
  request_now : nat -> Z;
  response_now : nat -> Z
}.

(** What a turn has done so far. *)
Record turn : Type := {
  history : list value;           (* the [messages] of the chat requests *)
  session : Session.messages;     (* the messages of the session *)
  mcpContext : list value;        (* the sources shown with the answer *)
  content : string;
  requests : list Net.request     (* issued so far, oldest first *)
}.

(** The state of the loop over [toolCalls]. *)
Record round : Type := {
  toolResponses : list value;
  sources : list value;
  issued : list Net.request
}.

(** [call.function.name] and [call.function.arguments] *)
Definition call_target (call : value) : completion (value * value) :=
  bind (get call "function") (fun f =>
  bind (get f "name") (fun toolName =>
  bind (get f "arguments") (fun toolArgs => Normal (toolName, toolArgs)))).

(** One iteration of [for (let idx = 0; idx < toolCalls.length; idx++)]:
    the state after it and the error it threw, if any.  A call whose
    name is not in the manifest is passed over. *)
Definition run_call (w : World) (mcpTools : list Manifest.ToolDef)
  (idx : nat) (call : value) (st : round) : round * option exn :=
  match call_target call with
  | Throw e => (st, Some e)
  | Normal (toolName, toolArgs) =>
      match Manifest.find_tool mcpTools toolName with
      | Some toolDef =>
          let st0 :=
            {| toolResponses := toolResponses st;
               sources := sources st;
               issued := issued st ++
                           Executor.requests (Manifest.name toolDef) toolArgs
                             (Manifest.serverUrl toolDef) (request_now w idx) |} in
          match Executor.executeMcpTool (tool_reply w idx) with
          | Throw e => (st0, Some e)
          | Normal result =>
              let st1 :=
                {| toolResponses := toolResponses st0;
                   sources := sources st0 ++
                                [obj [("type", str "tool"); ("name", toolName);
                                      ("server", str (Manifest.serverUrl toolDef))]];
                   issued := issued st0 |} in
              match to_string result with
              | Throw e => (st1, Some e)
              | Normal text =>
                  ({| toolResponses :=
                        toolResponses st1 ++
                          [obj [("role", str "tool"); ("content", str text);
                                ("tool_call_id",
                                 or_else (get_own call "id")
                                   (str ("call_" +++ Text.of_Z (response_now w idx)
                                         +++ "_" +++ Text.of_Z (Z.of_nat idx))))]];
                      sources := sources st1;
                      issued := issued st1 |}, None)
              end
          end
      | None => (st, None)
      end
  end.

Fixpoint run_calls (w : World) (mcpTools : list Manifest.ToolDef)
  (idx : nat) (calls : list value) (st : round) : round * option exn :=
  match calls with
  | [] => (st, None)
  | call :: rest =>
      match run_call w mcpTools idx call st with
      | (st', None) => run_calls w mcpTools (S idx) rest st'
      | (st', Some e) => (st', Some e)
      end
  end.

(** [{ ...message, content: content || "" }] *)
Definition toolCallMessage (message : value) (content : string) : value :=
  obj (set_field "content" (str content) (Session.spread message)).

(** [tools: (config.mcpEnabled && mcpTools.length > 0) ? ... : undefined] *)
Definition tools_param (mcpEnabled : bool) (mcpTools : list Manifest.ToolDef)
  : option (list Manifest.ToolDef) :=
  if mcpEnabled && negb (Resolver.is_nil mcpTools) then Some mcpTools else None.

(** The streamed chat request: the chunks of the body, or the error
    thrown. *)
Definition chat (r : Net.stream_reply) (is_first : bool) : completion (list string) :=
  match r with
  | Net.StreamRejected e => Throw e
  | Net.StreamError status statusText errorText =>
      Throw (Error
        (if is_first
         then "Ollama Error (" +++ Text.of_Z status +++ "): "
              +++ (if Text.is_empty errorText then statusText else errorText)
         else "Ollama Tool Result Error (" +++ Text.of_Z status +++ "): "
              +++ errorText))
  | Net.Stream chunks => Normal chunks
  end.

(** Lines 915-1044: from the stream of the first chat response to the end
    of the turn.  The result is the turn at its end, with the error the
    outer [catch] reports if one was thrown.

    [readStream] stores the array [mcpContext] itself in the assistant
    message (lines 551, 558 and 592), and the loop over the calls pushes
    the tool sources onto that same array (line 993): the message of the
    first response shows the array as it is after the pushes.  Nothing in
    [readStream] reads the array, so the session with the array in a later
    state is the session of the same stream read with that state
    ([shown]). *)
Definition after_first_response (w : World) (mcpEnabled : bool)
  (mcpTools : list Manifest.ToolDef) (chunks : list string) (t : turn)
  : turn * option exn :=
  let d := Decoder.readStream chunks (arr (mcpContext t)) (session t) in
  let shown (sources : list value) : Session.messages :=
    Decoder.session (Decoder.readStream chunks (arr sources) (session t)) in
  let '(toolCalls, content) :=
    Resolver.resolve (fallback_now w) mcpTools
      (Decoder.assistantMessageContent d) (Decoder.toolCalls d) in
  let t1 := {| history := history t; session := Decoder.session d;
               mcpContext := mcpContext t; content := content;
               requests := requests t |} in
  if Resolver.is_nil toolCalls then (t1, None)
  else
    let msg := toolCallMessage (Decoder.fullMessage d) content in
    match run_calls w mcpTools 0 toolCalls
            {| toolResponses := []; sources := mcpContext t;
               issued := requests t |} with
    | (r, Some e) =>
        ({| history := history t; session := shown (sources r);
            mcpContext := sources r; content := content;
            requests := issued r |}, Some e)
    | (r, None) =>
        let history' := history t ++ msg :: toolResponses r in
        let session' := shown (sources r) ++ msg :: toolResponses r in
        let t2 := {| history := history'; session := session';
                     mcpContext := sources r; content := content;
                     requests := issued r ++
                                 [Net.ChatStream history' (tools_param mcpEnabled mcpTools)] |} in
        match chat (followup w) false with
        | Throw e => (t2, Some e)
        | Normal finalChunks =>
            let f := Decoder.readStream finalChunks (arr (sources r)) session' in
            ({| history := history'; session := Decoder.session f;
                mcpContext := sources r;
                content := Decoder.assistantMessageContent f;
                requests := requests t2 |}, None)
        end
    end.

(** [handleSendMessage] from line 889 on.  Its preamble (lines 812-888)
    has appended the user message to the session, gathered the memory
    sources [mcpContext], fetched the manifest [mcpTools] and composed the
    system prompt; the report to the observability sink at the end is not
    part of the trace. *)
Definition handleSendMessage (w : World) (mcpEnabled : bool)
  (mcpTools : list Manifest.ToolDef) (finalSystemPrompt : string)
  (messages : Session.messages) (mcpContext : list value) : turn * option exn :=
  let history :=
    obj [("role", str "system"); ("content", str finalSystemPrompt)] :: messages in
  let t := {| history := history; session := messages; mcpContext := mcpContext;
              content := "";
              requests := [Net.ChatStream history (tools_param mcpEnabled mcpTools)] |} in
  match chat (first w) true with
  | Throw e => (t, Some e)
  | Normal chunks => after_first_response w mcpEnabled mcpTools chunks t
  end.

End Conversation.

(* ===================================================================== *)
(** * Tool registry and health poller ([syncTools]) *)
(* ===================================================================== *)

Module Registry.
Import JS.

Inductive Status : Type := online | offline.

(** An element of the [mcpServers] state.  [toolCount] and [tools] are
    optional in the source; an absent field is [undefined]. *)
Record McpServer : Type := {
  name : string;
  url : string;
  status : Status;
  toolCount : value;
  tools : value
}.

Definition is_offline (s : Status) : bool :=
  match s with offline => true | online => false end.

(** The [catch] block: an online endpoint goes offline and loses its
    tools, an offline one is returned as it is. *)
Definition on_failure (server : McpServer) : McpServer :=
  match status server with
  | online => {| name := name server; url := url server; status := offline;
                 toolCount := num (of_Z 0); tools := arr [] |}
  | offline => server
  end.

(** [{ ...server, status: 'online' }] *)
Definition mark_online (server : McpServer) : McpServer :=
  {| name := name server; url := url server; status := online;
     toolCount := toolCount server; tools := tools server |}.

(** [data.result?.tools || []] *)
Definition tools_of (data : value) : completion value :=
  bind (get data "result") (fun result =>
  Normal (or_else (get_opt result "tools") (arr []))).

(** [server.status === 'offline' || !server.tools
     || server.tools.length !== tools.length] *)
Definition needs_update (server : McpServer) (new_tools : value) : bool :=
  is_offline (status server)
  || negb (truthy (tools server))
  || negb (strict_eq (get_own (tools server) "length") (get_own new_tools "length")).

(** The callback of [mcpServers.map]: the endpoint after one probe
    answered by [r].  (The configuration a response may carry goes to the
    global configuration through [setConfig], not to the endpoint.) *)
Definition probe (server : McpServer) (r : Net.reply) : McpServer :=
  match r with
  | Net.Rejected _ => on_failure server
  | Net.Response ok _ body =>
      if ok then
        match bind (JSON.parse body) tools_of with
        | Throw _ => on_failure server
        | Normal new_tools =>
            if needs_update server new_tools
            then {| name := name server; url := url server; status := online;
                    toolCount := get_own new_tools "length"; tools := new_tools |}
            else mark_online server
        end
      else mark_online server
  end.

Fixpoint probe_all (i : nat) (replies : nat -> Net.reply) (servers : list McpServer)
  : list McpServer :=
  match servers with
  | [] => []
  | s :: rest => probe s (replies i) :: probe_all (S i) replies rest
  end.

Definition status_text (s : Status) : string :=
  match s with online => "online" | offline => "offline" end.

(** The object [JSON.stringify] sees for a server. *)
Definition server_value (s : McpServer) : value :=
  obj [("name", str (name s)); ("url", str (url s));
       ("status", str (status_text (status s)));
       ("toolCount", toolCount s); ("tools", tools s)].

Definition serialize (servers : list McpServer) : option string :=
  JSON.stringify (arr (map server_value servers)).

(** [JSON.stringify(updatedServers) !== JSON.stringify(mcpServers)] *)
Definition changed (updated servers : list McpServer) : bool :=
  match serialize updated, serialize servers with
  | Some a, Some b => negb (String.eqb a b)
  | _, _ => false
  end.

(** One poll: the [mcpServers] state after [syncTools], where [replies i]
    answers the probe of the endpoint at index [i]. *)
Definition syncTools (replies : nat -> Net.reply) (mcpServers : list McpServer)
  : list McpServer :=
  let updatedServers := probe_all 0 replies mcpServers in
  if changed updatedServers mcpServers then updatedServers else mcpServers.

End Registry.

(* ===================================================================== *)
(** * Workflow sequencer ([handleRunWorkflow]) *)
(* ===================================================================== *)

Module Agent.
Record t : Type := {
  id : string;
  name : string;
  role : string;
  model : string;
  systemPrompt : string;
  temperature : JS.number
}.
End Agent.

Module Step.
Record t : Type := {
  id : string;
  agentId : string;
  description : string
}.
End Step.

Module Log.
Inductive Status : Type := pending | running | completed | error.
Record t : Type := {
  stepId : string;
  agentName : string;
  output : JS.value;
  status : Status
}.
End Log.

Module Workflow.
Import JS.

Record t : Type := {
  id : string;
  name : string;
  steps : list Step.t;
  createdAt : Z
}.

(** [agents.find(a => a.id === step.agentId)] *)
Definition find_agent (agents : list Agent.t) (step : Step.t) : option Agent.t :=
  find (fun a => String.eqb (Agent.id a) (Step.agentId step)) agents.

(** The logs a run starts from: one pending log per step. *)
Definition initialLogs (agents : list Agent.t) (w : t) : list Log.t :=
  map (fun step =>
         {| Log.stepId := Step.id step;
            Log.agentName :=
              match find_agent agents step with
              | Some a => if Text.is_empty (Agent.name a) then "Unknown Agent"
                          else Agent.name a
              | None => "Unknown Agent"
              end;
            Log.output := str "";
            Log.status := Log.pending |}) (steps w).

(** [prev.map((log, idx) => idx === i ? f(log) : log)] *)
Fixpoint update_at (i : nat) (f : Log.t -> Log.t) (logs : list Log.t) : list Log.t :=
  match logs, i with
  | [], _ => []
  | l :: r, O => f l :: r
  | l :: r, S i' => l :: update_at i' f r
  end.

Definition set_running (l : Log.t) : Log.t :=
  {| Log.stepId := Log.stepId l; Log.agentName := Log.agentName l;
     Log.output := Log.output l; Log.status := Log.running |}.

Definition set_completed (result : value) (l : Log.t) : Log.t :=
  {| Log.stepId := Log.stepId l; Log.agentName := Log.agentName l;
     Log.output := result; Log.status := Log.completed |}.

(** The [catch] block: every running log becomes an error log. *)
Definition fail_running (e : exn) (l : Log.t) : Log.t :=
  match Log.status l with
  | Log.running =>
      {| Log.stepId := Log.stepId l; Log.agentName := Log.agentName l;
         Log.output := str ("Execution failed: " +++ message e);
         Log.status := Log.error |}
  | _ => l
  end.

(** The state of a run: the logs, the context threaded to the next step
    and the requests issued so far, each with the index of its step. *)
Record run : Type := {
  logs : list Log.t;
  currentContext : value;
  requests : list (nat * Net.request)
}.

Definition nl2 : string := Text.newline +++ Text.newline.

Definition persona_suffix : string :=
  nl2 +++ "You are part of a multi-agent workflow. Respond only with the requested analysis or transformation.".

(** What the step does with the reply: the [content] of the message of
    the parsed body, after the log line that reads its [length]. *)
Definition result_of (agent : Agent.t) (r : Net.reply) : completion value :=
  match r with
  | Net.Rejected e => Throw e
  | Net.Response ok _ body =>
      if ok then
        bind (JSON.parse body) (fun data =>
        bind (get data "message") (fun m =>
        bind (get m "content") (fun result =>
        bind (get result "length") (fun len =>
        bind (to_string len) (fun _ => Normal result)))))
      else Throw (Error ("Agent " +++ Agent.name agent +++ " failed: " +++ body))
  end.

(** The loop of the [try] block from step [i] on: the run when it stops
    and the error thrown, if any. *)
Fixpoint run_steps (reply : nat -> Net.reply) (agents : list Agent.t)
  (finalInput : string) (i : nat) (todo : list Step.t) (st : run)
  : run * option exn :=
  match todo with
  | [] => (st, None)
  | step :: rest =>
      match find_agent agents step with
      | None => run_steps reply agents finalInput (S i) rest st
      | Some agent =>
          let st1 := {| logs := update_at i set_running (logs st);
                        currentContext := currentContext st;
                        requests := requests st |} in
          match to_string (currentContext st) with
          | Throw e => (st1, Some e)
          | Normal context =>
              let prompt :=
                "Workflow Input: " +++ finalInput +++ nl2
                +++ "Context from previous agents: " +++ context +++ nl2
                +++ "Your specific instructions: " +++ Step.description step in
              let st2 :=
                {| logs := logs st1;
                   currentContext := currentContext st;
                   requests := requests st ++
                     [(i, Net.ChatOnce (Agent.model agent)
                            (Agent.systemPrompt agent +++ persona_suffix) prompt
                            (Agent.temperature agent))] |} in
              match result_of agent (reply i) with
              | Throw e => (st2, Some e)
              | Normal result =>
                  run_steps reply agents finalInput (S i) rest
                    {| logs := update_at i (set_completed result) (logs st2);
                       currentContext := result;
                       requests := requests st2 |}
              end
          end
      end
  end.

(** [handleRunWorkflow(workflow, overrideInput)]: the logs and the
    requests issued when it returns; [reply i] answers the request of the
    step at index [i].  A run does not start on blank input or while
    another run is in progress. *)
Definition handleRunWorkflow (reply : nat -> Net.reply) (agents : list Agent.t)
  (workflowInput : string) (isWFRunning : bool) (workflowLogs : list Log.t)
  (workflow : t) (overrideInput : option string)
  : list Log.t * list (nat * Net.request) :=
  let finalInput :=
    match overrideInput with Some s => s | None => workflowInput end in
  if Text.is_empty (Text.trim finalInput) || isWFRunning then (workflowLogs, [])
  else
    match run_steps reply agents finalInput 0 (steps workflow)
            {| logs := initialLogs agents workflow;
               currentContext := str finalInput;
               requests := [] |} with
    | (st, None) => (logs st, requests st)
    | (st, Some e) => (map (fail_running e) (logs st), requests st)
    end.

End Workflow.

(* ===================================================================== *)
(** * Manifest fetch ([fetchAllMcpTools]) *)
(* ===================================================================== *)

Module Tools.
Import JS.
Import Manifest.

(** A [tools/list] request: the endpoint it is posted to and its id. *)
Inductive request : Type :=
| ToolsList (url : string) (id : Z).

(** [{ ...t, name: `${t.name}`, serverUrl: server.url }] *)
Definition tagged (serverUrl name : string) (t : value) : value :=
  obj (set_field "serverUrl" (str serverUrl)
         (set_field "name" (str name) (Session.spread t))).

(** The manifest entry of a listed tool [t]: the tagged copy of [t], read
    by the final [allTools.map] as
    [{name: t.name, description: t.description, parameters: t.inputSchema,
      serverUrl: t.serverUrl}]; [name] and [serverUrl] are the two fields
    written after the spread. *)
Definition entry (serverUrl : string) (t : value) : completion ToolDef :=
  bind (get t "name") (fun n =>
  bind (to_string n) (fun name =>
  let withServer := tagged serverUrl name t in
  Normal {| name := name;
            description := get_own withServer "description";
            parameters := get_own withServer "inputSchema";
            serverUrl := serverUrl |})).

(** [data.result.tools.map(...)] on an array *)
Fixpoint entries (serverUrl : string) (l : list value) : completion (list ToolDef) :=
  match l with
  | [] => Normal []
  | t :: r =>
      bind (entry serverUrl t) (fun e =>
      bind (entries serverUrl r) (fun es => Normal (e :: es)))
  end.

Definition not_a_function : exn := TypeError "data.result.tools.map is not a function".

(** The [try] block for one endpoint whose request is answered by [r]:
    the entries pushed to [allTools].  The status of the response is not
    looked at. *)
Definition listed (server : Registry.McpServer) (r : Net.reply)
  : completion (list ToolDef) :=
  match r with
  | Net.Rejected e => Throw e
  | Net.Response _ _ body =>
      bind (JSON.parse body) (fun data =>
      bind (get data "result") (fun result =>
      let tools := get_opt result "tools" in
      if truthy tools then
        match tools with
        | arr l => entries (Registry.url server) l
        | _ => Throw not_a_function
        end
      else Normal []))
  end.

(** What an endpoint adds to [allTools]: nothing when the [try] block
    throws. *)
Definition contribution (server : Registry.McpServer) (r : Net.reply) : list ToolDef :=
  match listed server r with
  | Normal l => l
  | Throw _ => []
  end.

(** [for (const server of mcpServers)], from the endpoint at index [i]
    on: the entries gathered and the requests issued; [replies i] answers
    the request to the endpoint at index [i], [now i] is the reading of
    [Date.now()] for its id. *)
Fixpoint collect (i : nat) (replies : nat -> Net.reply) (now : nat -> Z)
  (servers : list Registry.McpServer) : list ToolDef * list request :=
  match servers with
  | [] => ([], [])
  | server :: rest =>
      let '(tools, reqs) := collect (S i) replies now rest in
      (contribution server (replies i) ++ tools,
       ToolsList (Registry.url server) (now i) :: reqs)
  end.

(** [fetchAllMcpTools()] *)
Definition fetchAllMcpTools (mcpEnabled : bool) (replies : nat -> Net.reply)
  (now : nat -> Z) (mcpServers : list Registry.McpServer)
  : list ToolDef * list request :=
  if mcpEnabled then collect 0 replies now mcpServers else ([], []).

End Tools.

(* ===================================================================== *)
(** * System prompt of a turn (lines 880-887 of [handleSendMessage]) *)
(* ===================================================================== *)

Module Prompt.
Import JS.
Import Manifest.

Definition offline_notice : string :=
  Workflow.nl2 +++ "--- CRITICAL OFFLINE STATUS ---" +++ Text.newline
  +++ "ALL REAL-TIME TOOLS ARE CURRENTLY OFFLINE. You are FORBIDDEN from providing any market data or financial metrics. Inform the user that the system is in restricted mode.".

(** [mcpTools.map(t => `${t.function.name}`).join(", ")] *)
Definition toolList (mcpTools : list ToolDef) : string :=
  Text.join ", " (map name mcpTools).

Definition tools_notice (mcpTools : list ToolDef) : string :=
  Workflow.nl2 +++ "--- VERIFIED TOOLS STATUS ---" +++ Text.newline
  +++ "ACTIVE TOOLS IN MANIFEST: [" +++ toolList mcpTools +++ "]" +++ Text.newline
  +++ "Ready for immediate deployment.".

(** Lines 881-887 *)
Definition finalSystemPrompt (systemPromptWithContext : string)
  (mcpTools : list ToolDef) : string :=
  if Resolver.is_nil mcpTools then systemPromptWithContext +++ offline_notice
  else systemPromptWithContext +++ tools_notice mcpTools.

End Prompt.

(* ===================================================================== *)
(** * Endpoint registration ([registerMcpServer]) *)
(* ===================================================================== *)

Module Registration.
Import JS.

(** An element of [mcpServers] as [registerMcpServer] builds it: the
    name is whatever the endpoint reported. *)
Record endpoint : Type := {
  name : value;
  url : string;
  status : Registry.Status;
  toolCount : value;
  tools : value
}.

(** [data.result?.tools || []], [data.result?.name || 'MCP Server'] and
    [tools.length] *)
Definition described (data : value) : completion (value * value * value) :=
  bind (get data "result") (fun result =>
  let tools := or_else (get_opt result "tools") (arr []) in
  let serverName := or_else (get_opt result "name") (str "MCP Server") in
  Normal (serverName, tools, get_own tools "length")).

(** The [try] block when the request is answered by [r]. *)
Definition attempt (r : Net.reply) : completion (value * value * value) :=
  match r with
  | Net.Rejected e => Throw e
  | Net.Response _ _ body => bind (JSON.parse body) described
  end.

(** [registerMcpServer()]: the [mcpServers] state after it, for the text
    [newMcpUrl] of the input field. *)
Definition registerMcpServer (newMcpUrl : string) (r : Net.reply)
  (mcpServers : list endpoint) : list endpoint :=
  if Text.is_empty newMcpUrl then mcpServers
  else
    match attempt r with
    | Normal (serverName, tools, toolCount) =>
        mcpServers ++ [{| name := serverName; url := newMcpUrl;
                          status := Registry.online;
                          toolCount := toolCount; tools := tools |}]
    | Throw _ =>
        mcpServers ++ [{| name := str "Unknown Server"; url := newMcpUrl;
                          status := Registry.offline;
                          toolCount := num (of_Z 0); tools := undefined |}]
    end.

(** The requests it issues. *)
Definition requests (newMcpUrl : string) (now : Z) : list Tools.request :=
  if Text.is_empty newMcpUrl then [] else [Tools.ToolsList newMcpUrl now].

End Registration.

(* ===================================================================== *)
(** * Chat sessions ([createNewSession], [deleteSession] and the opening
      of [handleSendMessage]) *)
(* ===================================================================== *)

Module Chat.
Import JS.

Record Config : Type := {
  systemPrompt : string;
  temperature : number;
  topK : number;
  model : string;
  embedModel : string;
  vectorDbUrl : string;
  collectionName : string;
  ollamaUrl : string;
  mcpEnabled : bool;
  showReasoning : bool
}.

Record ChatSession : Type := {
  id : string;
  title : string;
  messages : Session.messages;
  config : Config;
  createdAt : Z
}.

(** The value of a UTF-16 code unit carried as a string of one to three
    bytes. *)
Definition unit_value (u : string) : N :=
  match u with
  | String a EmptyString => Text.code a
  | String a (String b EmptyString) =>
      ((Text.code a mod 32) * 64 + Text.code b mod 64)%N
  | String a (String b (String c EmptyString)) =>
      ((Text.code a mod 16) * 4096 + (Text.code b mod 64) * 64 + Text.code c mod 64)%N
  | _ => 0%N
  end.

(** The string made of a sequence of code units: a high surrogate
    followed by a low surrogate is one code point. *)
Fixpoint of_code_units (us : list string) : string :=
  match us with
  | [] => ""
  | u :: r =>
      match r with
      | v :: r' =>
          if JSON.is_high_surrogate (unit_value u)
             && JSON.is_low_surrogate (unit_value v)
          then utf8_encode (65536 + (unit_value u - 55296) * 1024
                            + (unit_value v - 56320))%N
               +++ of_code_units r'
          else u +++ of_code_units r
      | [] => u
      end
  end.

(** [s.slice(0, n)] *)
Definition slice (n : nat) (s : string) : string :=
  of_code_units (firstn n (code_units s)).

(** [createNewSession()]: the [sessions] and [currentSessionId] states
    after it; [now_id] and [now_created] are its two readings of
    [Date.now()]. *)
Definition createNewSession (now_id now_created : Z) (config : Config)
  (sessions : list ChatSession) : list ChatSession * option string :=
  let newSession :=
    {| id := Text.of_Z now_id; title := "New Chat"; messages := [];
       config := config; createdAt := now_created |} in
  (newSession :: sessions, Some (id newSession)).

(** [deleteSession(id, e)] *)
Definition deleteSession (id' : string) (sessions : list ChatSession)
  (currentSessionId : option string) : list ChatSession * option string :=
  (filter (fun s => negb (String.eqb (id s) id')) sessions,
   match currentSessionId with
   | Some c => if String.eqb c id' then None else Some c
   | None => None
   end).

(** [input.slice(0, 30) + (input.length > 30 ? '...' : '')] *)
Definition opening_title (input : string) : string :=
  slice 30 input +++ (if (30 <? Text.utf16_length input)%Z then "..." else "").

Definition user_message (userInput : string) : value :=
  obj [("role", str "user"); ("content", str userInput)].

(** The callback of [currentSessions.map] at lines 834-843. *)
Definition with_user_message (userInput sessionId : string) (s : ChatSession)
  : ChatSession :=
  if String.eqb (id s) sessionId then
    {| id := id s;
       title := if Resolver.is_nil (messages s) then slice 30 userInput else title s;
       messages := messages s ++ [user_message userInput];
       config := config s;
       createdAt := createdAt s |}
  else s.

(** Lines 813-845 of [handleSendMessage]: nothing happens on blank input
    or while a turn is in progress; otherwise the result is the id of the
    session of the turn and the [sessions] state, a session being opened
    first when none is current. *)
Definition open_turn (input : string) (isLoading : bool)
  (currentSessionId : option string) (sessions : list ChatSession)
  (config : Config) (now_id now_created : Z)
  : option (string * list ChatSession) :=
  if Text.is_empty (Text.trim input) || isLoading then None
  else
    let newSession :=
      {| id := Text.of_Z now_id; title := opening_title input; messages := [];
         config := config; createdAt := now_created |} in
    let '(sessionId, currentSessions) :=
      match currentSessionId with
      | Some c => if Text.is_empty c then (id newSession, newSession :: sessions)
                  else (c, sessions)
      | None => (id newSession, newSession :: sessions)
      end in
    Some (sessionId, map (with_user_message input sessionId) currentSessions).

End Chat.

(* ===================================================================== *)
(** * Long-term memory ([getEmbedding], [initializeQdrantCollection],
      [searchQdrant], [upsertToQdrant] and lines 851-870 of
      [handleSendMessage]) *)
(* ===================================================================== *)

Module Memory.
Import JS.

(** The requests of the memory round, each with the address it is sent
    to: the embedding endpoint of [config.ollamaUrl], and the collection
    [config.collectionName] of the vector store at [config.vectorDbUrl]. *)
Inductive request : Type :=
| Embeddings (url model prompt : string)
| CollectionInfo (url : string)
| CreateCollection (url : string) (size : value)
| Search (url : string) (vector : value)
| Upsert (url : string) (id : Z) (vector : value) (content sessionId : string)
    (timestamp : Z).

(** [`${config.ollamaUrl}/api/embeddings`] *)
Definition embeddings_url (config : Chat.Config) : string :=
  Chat.ollamaUrl config +++ "/api/embeddings".

(** [`${config.vectorDbUrl}/collections/${config.collectionName}`] *)
Definition collection_url (config : Chat.Config) : string :=
  Chat.vectorDbUrl config +++ "/collections/" +++ Chat.collectionName config.

(** [`${config.vectorDbUrl}/collections/${config.collectionName}/points/search`] *)
Definition search_url (config : Chat.Config) : string :=
  collection_url config +++ "/points/search".

(** [`${config.vectorDbUrl}/collections/${config.collectionName}/points`] *)
Definition points_url (config : Chat.Config) : string :=
  collection_url config +++ "/points".

(** [getEmbedding(text)], answered by [r]: [null] on a response that is
    not ok and on any exception. *)
Definition getEmbedding (r : Net.reply) : value :=
  match r with
  | Net.Rejected _ => null
  | Net.Response ok _ body =>
      if ok then
        match bind (JSON.parse body) (fun data => get data "embedding") with
        | Normal embedding => embedding
        | Throw _ => null
        end
      else null
  end.

(** [initializeQdrantCollection(vectorSize)]: its result and the
    requests it issues; [check] answers the look-up of the collection and
    [create] the request that creates it. *)
Definition initializeQdrantCollection (config : Chat.Config)
  (check create : Net.reply) (vectorSize : value) : bool * list request :=
  match check with
  | Net.Rejected _ => (false, [CollectionInfo (collection_url config)])
  | Net.Response ok _ _ =>
      if ok then (true, [CollectionInfo (collection_url config)])
      else (match create with
            | Net.Rejected _ => false
            | Net.Response ok' _ _ => ok'
            end,
            [CollectionInfo (collection_url config);
             CreateCollection (collection_url config) vectorSize])
  end.

(** [searchQdrant(vector)], answered by [r]: [data.result || []], and
    [[]] on any exception. *)
Definition searchQdrant (r : Net.reply) : value :=
  match r with
  | Net.Rejected _ => arr []
  | Net.Response _ _ body =>
      match bind (JSON.parse body) (fun data => get data "result") with
      | Normal result => or_else result (arr [])
      | Throw _ => arr []
      end
  end.

(** The replies and clock readings of a memory round. *)
Record World : Type := {
  embedding : Net.reply;
  check : Net.reply;
  create : Net.reply;
  search : Net.reply;
  point_now : Z;
  stamp_now : Z
}.

(** [v > 0] *)
Definition positive (v : value) : completion bool :=
  bind (to_number v) (fun x => Normal (SFltb (S754_zero false) x)).

(** [`- ${r.payload.content}`] *)
Definition context_line (r : value) : completion string :=
  bind (get r "payload") (fun payload =>
  bind (get payload "content") (fun content =>
  bind (to_string content) (fun text => Normal ("- " +++ text)))).

Fixpoint context_lines (l : list value) : completion (list string) :=
  match l with
  | [] => Normal []
  | r :: rest =>
      bind (context_line r) (fun line =>
      bind (context_lines rest) (fun lines => Normal (line :: lines)))
  end.

Definition not_a_function : exn := TypeError "results.map is not a function".

Definition context_header : string :=
  Workflow.nl2 +++ "Relevant past context:" +++ Text.newline.

Definition memory_source : value :=
  obj [("type", str "memory"); ("name", str "Long-term Memory")].

(** Lines 858-864: the context string and the sources for the results
    of the search. *)
Definition recalled (results : value) : completion (string * list value) :=
  bind (positive (get_own results "length")) (fun some =>
  if some then
    match results with
    | arr l =>
        bind (context_lines l) (fun lines =>
        Normal (context_header +++ Text.join Text.newline lines, [memory_source]))
    | _ => Throw not_a_function
    end
  else Normal (EmptyString, [])).

(** What the memory round leaves: the context string, the sources and
    the requests issued. *)
Record recall : Type := {
  contextString : string;
  mcpContext : list value;
  requests : list request
}.

(** Lines 851-870 of [handleSendMessage]: the recall, and the error
    that ends the turn, if one is thrown.  [config] is the application
    settings: the memory round reads its addresses and the embedding model
    there, not in the session. *)
Definition remember (w : World) (config : Chat.Config)
  (userInput sessionId : string) : recall * option exn :=
  let vector := getEmbedding (embedding w) in
  let asked :=
    [Embeddings (embeddings_url config) (Chat.embedModel config) userInput] in
  if truthy vector then
    let looked :=
      asked ++ snd (initializeQdrantCollection config (check w) (create w)
                      (get_own vector "length"))
      ++ [Search (search_url config) vector] in
    match recalled (searchQdrant (search w)) with
    | Throw e =>
        ({| contextString := EmptyString; mcpContext := []; requests := looked |},
         Some e)
    | Normal (contextString, mcpContext) =>
        ({| contextString := contextString; mcpContext := mcpContext;
            requests := looked ++ [Upsert (points_url config) (point_now w) vector
                                     userInput sessionId (stamp_now w)] |}, None)
    end
  else ({| contextString := EmptyString; mcpContext := []; requests := asked |}, None).

End Memory.

(* ===================================================================== *)
(** * A whole turn ([handleSendMessage] and [logToMlflow]) *)
(* ===================================================================== *)

Module Turn.
Import JS.

(** The report of a turn to the observability sink of an endpoint. *)
Inductive report : Type :=
| LogChat (url input output sessionId model : string).

(** [logToMlflow(input, output, sessionId, model)]: the report goes
    through the first endpoint that is online. *)
Definition logToMlflow (mcpServers : list Registry.McpServer)
  (input output sessionId model : string) : list report :=
  match find (fun s => negb (Registry.is_offline (Registry.status s))) mcpServers with
  | Some mcpServer =>
      [LogChat (Registry.url mcpServer +++ "/log/chat") input output sessionId model]
  | None => []
  end.

(** Lines 877-1044 of [handleSendMessage]: the manifest is fetched, the
    system prompt is completed, and the conversation runs.  The result is
    the [tools/list] requests issued, and the turn with the error it
    ended on, if any. *)
Definition respond (w : Conversation.World) (replies : nat -> Net.reply)
  (now : nat -> Z) (mcpEnabled : bool) (mcpServers : list Registry.McpServer)
  (systemPromptWithContext : string) (messages : Session.messages)
  (mcpContext : list value)
  : list Tools.request * (Conversation.turn * option exn) :=
  let '(mcpTools, listing) := Tools.fetchAllMcpTools mcpEnabled replies now mcpServers in
  (listing,
   Conversation.handleSendMessage w mcpEnabled mcpTools
     (Prompt.finalSystemPrompt systemPromptWithContext mcpTools) messages mcpContext).

(** The world of a turn: the two clock readings of a session that is
    opened, and the worlds of the memory round, of the manifest fetch and
    of the conversation. *)
Record World : Type := {
  id_now : Z;
  created_now : Z;
  memory : Memory.World;
  list_reply : nat -> Net.reply;
  list_now : nat -> Z;
  chat : Conversation.World
}.

(** A chat request as it is posted (lines 894-908 and 1021-1035): the
    address is that of the application settings, the model and the
    sampling options are those of the session, and the body holds the
    messages and the tools of the [Net.ChatStream] request. *)
Record chat_post : Type := {
  post_address : string;
  post_model : string;
  post_temperature : number;
  post_top_k : number;
  post_messages : list value;
  post_tools : option (list Manifest.ToolDef)
}.

Definition post_of (config : Chat.Config) (session : Chat.ChatSession)
  (q : Net.request) : list chat_post :=
  match q with
  | Net.ChatStream messages tools =>
      [{| post_address := Chat.ollamaUrl config +++ "/api/chat";
          post_model := Chat.model (Chat.config session);
          post_temperature := Chat.temperature (Chat.config session);
          post_top_k := Chat.topK (Chat.config session);
          post_messages := messages;
          post_tools := tools |}]
  | _ => []
  end.

(** What a turn leaves: the id of its session ([None] when it did not
    start), the [sessions] state set at line 845, the requests of the
    memory round and of the manifest fetch, the conversation (with the
    messages of the session at its end), the chat requests as they were
    posted, the reports sent, and the error shown to the user, if any. *)
Record outcome : Type := {
  sessionId : option string;
  sessions : list Chat.ChatSession;
  recalled : list Memory.request;
  listing : list Tools.request;
  conversation : option Conversation.turn;
  chats : list chat_post;
  reports : list report;
  alert : option exn
}.

Definition no_session : exn :=
  TypeError "Cannot read properties of undefined (reading 'config')".

(** [handleSendMessage()] *)
Definition handleSendMessage (w : World) (input : string) (isLoading : bool)
  (currentSessionId : option string) (sessions : list Chat.ChatSession)
  (config : Chat.Config) (mcpServers : list Registry.McpServer) : outcome :=
  match Chat.open_turn input isLoading currentSessionId sessions config
          (id_now w) (created_now w) with
  | None =>
      {| sessionId := None; sessions := sessions; recalled := []; listing := [];
         conversation := None; chats := []; reports := []; alert := None |}
  | Some (sessionId, updatedSessions) =>
      match Memory.remember (memory w) config input sessionId with
      | (r, Some e) =>
          {| sessionId := Some sessionId; sessions := updatedSessions;
             recalled := Memory.requests r; listing := [];
             conversation := None; chats := []; reports := []; alert := Some e |}
      | (r, None) =>
          match find (fun s => String.eqb (Chat.id s) sessionId) updatedSessions with
          | None =>
              {| sessionId := Some sessionId; sessions := updatedSessions;
                 recalled := Memory.requests r; listing := [];
                 conversation := None; chats := []; reports := [];
                 alert := Some no_session |}
          | Some session =>
              let '(listing, (t, e)) :=
                respond (chat w) (list_reply w) (list_now w)
                  (Chat.mcpEnabled config) mcpServers
                  (Chat.systemPrompt (Chat.config session) +++ Memory.contextString r)
                  (Chat.messages session) (Memory.mcpContext r) in
              {| sessionId := Some sessionId; sessions := updatedSessions;
                 recalled := Memory.requests r; listing := listing;
                 conversation := Some t;
                 chats := flat_map (post_of config session) (Conversation.requests t);
                 reports :=
                   match e with
                   | None =>
                       logToMlflow mcpServers input (Conversation.content t) sessionId
                         (if Text.is_empty (Chat.model (Chat.config session))
                          then Chat.model config
                          else Chat.model (Chat.config session))
                   | Some _ => []
                   end;
                 alert := e |}
          end
      end
  end.

End Turn.

(* ===================================================================== *)
(** * Rendering of an assistant message: the reasoning block *)
(* ===================================================================== *)

Module Display.
Import JS.

(** [s.split(sep)] for a separator that is not empty; [skip] counts the
    characters of an occurrence of the separator still to pass. *)
Fixpoint split_from (sep : string) (skip : nat) (s : string) : list string :=
  match s with
  | EmptyString => [EmptyString]
  | String c r =>
      match skip with
      | S k => split_from sep k r
      | O =>
          if String.prefix sep s
          then EmptyString :: split_from sep (String.length sep - 1) r
          else match split_from sep 0 r with
               | l :: ls => String c l :: ls
               | [] => [String c EmptyString]
               end
      end
  end.

Definition split (sep s : string) : list string := split_from sep 0 s.

Definition open_tag : string := "<think>".
Definition close_tag : string := "</think>".

(** Lines 1259-1267: the reasoning and the text shown for the content of
    an assistant message. *)
Definition thought_parser (content : string) : string * string :=
  if Text.includes content open_tag then
    let parts := split open_tag content in
    let endParts := split close_tag (nth 1 parts EmptyString) in
    (nth 0 endParts EmptyString,
     Text.trim (nth 0 parts EmptyString +++ nth 1 endParts EmptyString))
  else (EmptyString, content).

End Display.

(* ===================================================================== *)
(** * Workflow editor: moving a step by drag and drop *)
(* ===================================================================== *)

Module Editor.

(** [newSteps.splice(start, 1)]: what is left, and the element removed,
    if any. *)
Definition splice_out {A} (start : nat) (l : list A) : list A * option A :=
  (firstn start l ++ skipn (S start) l, nth_error l start).

(** [newSteps.splice(start, 0, x)] *)
Definition splice_in {A} (start : nat) (x : A) (l : list A) : list A :=
  firstn start l ++ x :: skipn start l.

(** The [onDrop] handler of the step at index [sIdx], for the steps of
    its workflow: an element of the result is a step, or [undefined] when
    the index dragged from is not one of this list. *)
Definition onDrop {A} (draggedStepIndex : option nat) (sIdx : nat) (steps : list A)
  : list (option A) :=
  match draggedStepIndex with
  | None => map Some steps
  | Some from =>
      let '(newSteps, removed) := splice_out from (map Some steps) in
      splice_in sIdx (match removed with Some x => x | None => None end) newSteps
  end.

End Editor.

(* ===================================================================== *)
(** * Vocabulary of the properties, and example data *)
(* ===================================================================== *)

Module DecoderProps.
Import JS.
Import Decoder.

(** A chunk made of whole lines: empty, or ending in a newline. *)
Fixpoint complete_lines (c : string) : bool :=
  match c with
  | EmptyString => true
  | String x EmptyString => Ascii.eqb x Text.LF
  | String _ r => complete_lines r
  end.

(** A body is valid newline-delimited JSON when each of its lines that is
    not blank parses. *)
Definition valid_line (l : string) : bool :=
  Text.is_empty (Text.trim l)
  || match JSON.parse l with Normal _ => true | Throw _ => false end.

Definition valid_ndjson (body : string) : bool :=
  forallb valid_line (Text.split_lines body).

Definition hi_line : string :=
  JSON.text "{'message':{'role':'assistant','content':'hi'},'done':false}".

Definition is_finite (x : number) : bool :=
  match x with
  | S754_zero _ | S754_finite _ _ _ => true
  | S754_infinity _ | S754_nan => false
  end.

Definition stats (total rate : value) : value :=
  obj [("totalTokens", total); ("tokensPerSecond", rate)].

Definition giga : number := of_Z 1000000000.

Definition terminal_100 : value :=
  obj [("done", boolean true); ("eval_count", num (of_Z 100));
       ("eval_duration", num (of_Z 2000000000))].

End DecoderProps.

Module TextProps.
Import Text.

(** [c] does not occur in [s]. *)
Fixpoint lacks (c : ascii) (s : string) : bool :=
  match s with
  | EmptyString => true
  | String x r => negb (Ascii.eqb x c) && lacks c r
  end.

(** An ASCII character that is not white space. *)
Definition solid (c : ascii) : bool := (code c <? 128)%N && negb (ws1 c).

End TextProps.

Module ResolverProps.
Import JS.
Import Manifest.
Import Resolver.
Import TextProps.

(** The name an object offers: its [name] field when that is truthy,
    else its [function] field. *)
Definition offered_name (o : value) : value :=
  or_else (get_own o "name") (get_own o "function").

(** The arguments an object offers: the first truthy of its [arguments],
    [parameters] and [params] fields (else the last); of an array, the
    first element, or an empty object when that is falsy. *)
Definition offered_arguments (o : value) : value :=
  let given := or_else (get_own o "arguments")
                 (or_else (get_own o "parameters") (get_own o "params")) in
  if is_array given then or_else (get_own given "0") (obj []) else given.

Definition json_call_id (now : Z) : string := "call_fallback_json_" +++ Text.of_Z now.

Fixpoint all_word (s : string) : bool :=
  match s with
  | EmptyString => true
  | String c r => Text.is_word c && all_word r
  end.

(** The next character, if any, is not a word character. *)
Definition word_stop (r : string) : bool :=
  match r with
  | String c _ => negb (Text.is_word c)
  | EmptyString => true
  end.

Definition close : string := ")]".

(** A match is well formed when its span matches at its own start,
    whatever follows it. *)
Definition well_formed (m : bracket_match) : Prop :=
  forall rest, bracket_at (span m +++ rest) <> None.

Definition shape (m : bracket_match) : Prop :=
  ident m <> EmptyString /\ all_word (ident m) = true
  /\ match args m with
     | None => span m = "[" +++ ident m +++ "]"
     | Some a => span m = "[" +++ ident m +++ "(" +++ a +++ close
     end.

Definition bracket_call_id (now : Z) : string :=
  "call_fallback_bracket_" +++ Text.of_Z now.

Definition clock_tool : ToolDef :=
  {| name := "get_current_time"; description := undefined;
     parameters := undefined; serverUrl := "http://localhost:8000" |}.

End ResolverProps.

Ltac break_match_hyp H :=
  match type of H with
  | context [match ?x with _ => _ end] => destruct x eqn:?
  | context [if ?x then _ else _] => destruct x eqn:?
  end.

Module ExecutorProps.
Import JS.
Import Executor.

(** The first truthy value of a list, or a default. *)
Definition first_truthy (l : list value) (default : value) : value :=
  match find truthy l with Some v => v | None => default end.

Definition no_data : value := str "Tool returned no data.".

(** The three shapes a result is read through. *)
Definition content_text (result : value) : value :=
  get_opt (get_opt (get_opt result "content") "0") "text".
Definition flat_text (result : value) : value := get_opt result "text".

End ExecutorProps.

Module RegistryProps.
Import JS.
Import Registry.

(** The probe raised: the request was rejected (unreachable, timed out),
    or the body of a success response could not be read as an object
    (not JSON, or [null]). *)
Definition raised (r : Net.reply) : Prop :=
  match r with
  | Net.Rejected _ => True
  | Net.Response ok _ body =>
      ok = true /\ exists e, bind (JSON.parse body) tools_of = Throw e
  end.

(** The probe succeeded with the tool list [new_tools]. *)
Definition listed (r : Net.reply) (new_tools : value) : Prop :=
  exists status body,
    r = Net.Response true status body
    /\ bind (JSON.parse body) tools_of = Normal new_tools.

Definition same_length (a b : value) : bool :=
  strict_eq (get_own a "length") (get_own b "length").

Definition weather_tool : value := obj [("name", str "get_weather")].
Definition time_tool : value := obj [("name", str "get_current_time")].

Definition up : McpServer :=
  {| name := "Time & Weather"; url := "http://localhost:8000"; status := online;
     toolCount := num (of_Z 1); tools := arr [weather_tool] |}.

Definition down : McpServer :=
  {| name := "Time & Weather"; url := "http://localhost:8000"; status := offline;
     toolCount := num (of_Z 0); tools := arr [] |}.

Definition timeout : Net.reply := Net.Rejected (Error "The operation timed out.").

Definition lists_time : Net.reply :=
  Net.Response true 200 (JSON.text "{'result':{'tools':[{'name':'get_current_time'}]}}").

End RegistryProps.

Module WorkflowProps.
Import JS.
Import Workflow.


(** The step succeeded: its reply yields a result, which can be threaded
    into the next prompt. *)
Definition succeeds (agent : Agent.t) (r : Net.reply) : Prop :=
  exists result context,
    result_of agent r = Normal result /\ to_string result = Normal context.

Definition input_of (workflowInput : string) (overrideInput : option string) : string :=
  match overrideInput with Some s => s | None => workflowInput end.

(** A three-step workflow whose second step is answered with status 500. *)
Definition writer : Agent.t :=
  {| Agent.id := "a1"; Agent.name := "Writer"; Agent.role := "WRITER";
     Agent.model := "qwen2.5:1.5b"; Agent.systemPrompt := "You write.";
     Agent.temperature := JS.of_decimal false 7 (-1) |}.

Definition three_steps : t :=
  {| id := "w1"; name := "Draft, edit, check";
     steps := [ {| Step.id := "s1"; Step.agentId := "a1"; Step.description := "Draft" |};
                {| Step.id := "s2"; Step.agentId := "a1"; Step.description := "Edit" |};
                {| Step.id := "s3"; Step.agentId := "a1"; Step.description := "Check" |} ];
     createdAt := 0 |}.

Definition second_fails (i : nat) : Net.reply :=
  match i with
  | 1 => Net.Response false 500 "model not found"
  | _ => Net.Response true 200 (JSON.text "{'message':{'role':'assistant','content':'A draft.'}}")
  end.

Definition three_step_run : list Log.t * list (nat * Net.request) :=
  handleRunWorkflow second_fails [writer] "Write about tea" false [] three_steps None.

End WorkflowProps.

Module ConversationProps.
Import JS.
Import Manifest.
Import Conversation.

(** An invocation that names a tool the manifest does not have. *)
Definition unknown (mcpTools : list ToolDef) (call : value) : Prop :=
  exists toolName toolArgs,
    call_target call = Normal (toolName, toolArgs)
    /\ find_tool mcpTools toolName = None.

(** A turn resolved by JSON sniffing. *)
Definition weather : ToolDef :=
  {| name := "get_weather"; description := str "Weather of a city";
     parameters := obj [("type", str "object")];
     serverUrl := "http://localhost:8000" |}.

Definition sniffed_line : string :=
  JSON.text "{'message':{'role':'assistant','content':'{\'name\':\'get_weather\',\'arguments\':{\'city\':\'Rome\'}}'},'done':true,'eval_count':10,'eval_duration':1000000000}".

Definition answer_line : string :=
  JSON.text "{'message':{'role':'assistant','content':'It is sunny in Rome.'},'done':true,'eval_count':5,'eval_duration':1000000000}".

Definition sunny : Net.reply :=
  Net.Response true 200 (JSON.text "{'result':{'content':[{'type':'text','text':'Sunny'}]}}").

Definition sniffing_world : World :=
  {| first := Net.Stream [sniffed_line +++ Text.newline];
     followup := Net.Stream [answer_line +++ Text.newline];
     tool_reply := fun _ => sunny;
     fallback_now := 17; request_now := fun _ => 18%Z;
     response_now := fun _ => 19%Z |}.

Definition system_message : value :=
  obj [("role", str "system"); ("content", str "You are helpful.")].
Definition user_message : value :=
  obj [("role", str "user"); ("content", str "Weather in Rome?")].

Definition sniffing_turn (mcpTools : list ToolDef) : turn * option exn :=
  handleSendMessage sniffing_world true mcpTools "You are helpful."
    [user_message] [].

(** A stream with a native tool call that carries an id, followed by
    the closing message. *)
Definition native_line : string :=
  JSON.text "{'message':{'role':'assistant','content':'','tool_calls':[{'id':'call_1','function':{'name':'get_weather','arguments':{'city':'Rome'}}}]},'done':false}".

Definition done_line : string :=
  JSON.text "{'message':{'role':'assistant','content':''},'done':true,'eval_count':10,'eval_duration':1000000000}".

Definition native_world : World :=
  {| first := Net.Stream [native_line +++ Text.newline; done_line +++ Text.newline];
     followup := Net.Stream [answer_line +++ Text.newline];
     tool_reply := fun _ => sunny;
     fallback_now := 17; request_now := fun _ => 18%Z;
     response_now := fun _ => 19%Z |}.

End ConversationProps.

Module StreamProps.
Import JS.
Import Decoder.

(** A line the decoder passes over: blank, or not valid JSON. *)
Definition skipped (line : string) : Prop :=
  Text.is_empty (Text.trim line) = true \/ exists e, JSON.parse line = Throw e.

(** The content and the tool calls of [st'] are those of [st] with
    something appended. *)
Definition extends (st st' : state) : Prop :=
  (exists tail, assistantMessageContent st' = assistantMessageContent st +++ tail)
  /\ (exists calls, toolCalls st' = toolCalls st ++ calls).

Definition garbage : string := "data: [DONE]".

(** Two decoder states hold the same reading of the stream: they may
    differ in the session only. *)
Definition same_reading (a b : state) : Prop :=
  assistantMessageContent a = assistantMessageContent b
  /\ toolCalls a = toolCalls b
  /\ fullMessage a = fullMessage b.

End StreamProps.

Module SessionProps.
Import JS.

(** The message is an assistant message. *)
Definition is_assistant (m : value) : Prop := get_own m "role" = str "assistant".

(** The messages a stream leaves alone: all of them when the last one is
    not an assistant message, all but the last one otherwise. *)
Definition kept (msgs : Session.messages) : Session.messages :=
  if Session.last_not_assistant msgs then msgs else removelast msgs.

(** The session of a decoder state is [base] followed by one assistant
    message. *)
Definition settled (base : Session.messages) (st : Decoder.state) : Prop :=
  exists m, Decoder.session st = base ++ [m] /\ is_assistant m.

End SessionProps.

Module FallbackProps.
Import JS.
Import Resolver.
Import ResolverProps.

(** The call a fallback synthesizes: an id built from the clock reading,
    and a name that is a non-empty string. *)
Definition sniffed (now : Z) (mcpTools : list Manifest.ToolDef) (call : value) : Prop :=
  exists id n toolArgs,
    call = obj [("id", str id);
                ("function", obj [("name", str n); ("arguments", toolArgs)])]
    /\ n <> EmptyString
    /\ (id = json_call_id now
        \/ id = bracket_call_id now /\ Manifest.in_manifest mcpTools (str n) = true).

End FallbackProps.

Module ToolRoundProps.
Import JS.
Import Manifest.
Import Conversation.

(** The call names a tool of the manifest. *)
Definition known (mcpTools : list ToolDef) (call : value) : bool :=
  match call_target call with
  | Normal (toolName, _) => in_manifest mcpTools toolName
  | Throw _ => false
  end.

(** The request a call is answered through: it goes to the server of the
    first manifest entry with the name of the call, with the arguments of
    the call. *)
Definition routed (mcpTools : list ToolDef) (call : value) (q : Net.request) : Prop :=
  exists t toolArgs id,
    call_target call = Normal (str (name t), toolArgs)
    /\ find_tool mcpTools (str (name t)) = Some t
    /\ q = Net.ToolsCall (serverUrl t) (name t) toolArgs id.

(** The tool message that answers a call: it carries text, and the id of
    the call when the call has one. *)
Definition answers (call m : value) : Prop :=
  get_own m "role" = str "tool"
  /\ is_str (get_own m "content") = true
  /\ (truthy (get_own call "id") = true ->
      get_own m "tool_call_id" = get_own call "id").

Definition is_chat (q : Net.request) : Prop :=
  exists messages, q = Net.ChatStream messages None.

End ToolRoundProps.

Module ToolsProps.
Import JS.
Import Manifest.
Import Tools.

(** The endpoint at index [k] lists the entry [t]. *)
Definition lists (replies : nat -> Net.reply) (servers : list Registry.McpServer)
  (k : nat) (t : ToolDef) : Prop :=
  exists server l,
    nth_error servers k = Some server
    /\ listed server (replies k) = Normal l /\ In t l
    /\ serverUrl t = Registry.url server.

(** No entry of the list has the name [n]. *)
Definition unnamed (n : string) (l : list ToolDef) : Prop :=
  Forall (fun t => name t <> n) l.

(** The system message a turn opens its history with. *)
Definition opening_message (prompt : string) : value :=
  obj [("role", str "system"); ("content", str prompt)].

(** Two endpoints that list a tool of the same name; the first one is
    offline in the registry, and answers all the same. *)
Definition mirror : Registry.McpServer :=
  {| Registry.name := "Mirror"; Registry.url := "http://localhost:9000";
     Registry.status := Registry.online;
     Registry.toolCount := num (of_Z 1); Registry.tools := arr [] |}.

Definition both_list_weather (i : nat) : Net.reply :=
  Net.Response true 200
    (JSON.text "{'result':{'tools':[{'name':'get_weather','description':'Weather of a city'}]}}").

Definition weather_of (url : string) : ToolDef :=
  {| name := "get_weather"; description := str "Weather of a city";
     parameters := undefined; serverUrl := url |}.

Definition posted (q : request) : string := match q with ToolsList url _ => url end.

End ToolsProps.

Module RegistrationProps.
Import JS.
Import Registration.

(** The endpoint as the poller sees it, when its name is a string. *)
Definition as_server (e : endpoint) : option Registry.McpServer :=
  match name e with
  | str n => Some {| Registry.name := n; Registry.url := url e;
                     Registry.status := status e;
                     Registry.toolCount := toolCount e;
                     Registry.tools := tools e |}
  | _ => None
  end.

(** The reply has a body that is JSON, and not [null]. *)
Definition readable (r : Net.reply) : Prop :=
  exists ok status body data,
    r = Net.Response ok status body
    /\ JSON.parse body = Normal data /\ data <> null.

Definition unknown_server (newMcpUrl : string) : endpoint :=
  {| name := str "Unknown Server"; url := newMcpUrl; status := Registry.offline;
     toolCount := num (of_Z 0); tools := undefined |}.

End RegistrationProps.

Module RunProps.
Import JS.
Import Workflow.

(** The step of the log is not in progress. *)
Definition quiet (l : Log.t) : Prop := Log.status l <> Log.running.

(** The log of a step that was passed over. *)
Definition untouched (step : Step.t) : Log.t :=
  {| Log.stepId := Step.id step; Log.agentName := "Unknown Agent";
     Log.output := str ""; Log.status := Log.pending |}.

(** The context after the steps [done], the first of which has index
    [i], when it was [context] before them: the result of the last of them
    that has an agent and succeeded. *)
Fixpoint context_after (reply : nat -> Net.reply) (agents : list Agent.t)
  (i : nat) (context : value) (done : list Step.t) : value :=
  match done with
  | [] => context
  | step :: rest =>
      context_after reply agents (S i)
        (match find_agent agents step with
         | Some agent => match result_of agent (reply i) with
                         | Normal result => result
                         | Throw _ => context
                         end
         | None => context
         end) rest
  end.

(** The context the step at index [j] of a run is given. *)
Definition context_before (reply : nat -> Net.reply) (agents : list Agent.t)
  (finalInput : string) (steps : list Step.t) (j : nat) : value :=
  context_after reply agents 0 (str finalInput) (firstn j steps).

(** The request of a step: the persona of its agent, and a prompt made
    of the input of the run, the context and the instructions of the
    step. *)
Definition request_of (finalInput context : string) (step : Step.t)
  (agent : Agent.t) : Net.request :=
  Net.ChatOnce (Agent.model agent) (Agent.systemPrompt agent +++ persona_suffix)
    ("Workflow Input: " +++ finalInput +++ nl2
     +++ "Context from previous agents: " +++ context +++ nl2
     +++ "Your specific instructions: " +++ Step.description step)
    (Agent.temperature agent).

(** The request of the step at index [j], when the step has an agent
    and the context it is given converts to text. *)
Definition request_at (reply : nat -> Net.reply) (agents : list Agent.t)
  (finalInput : string) (steps : list Step.t) (j : nat)
  : list (nat * Net.request) :=
  match nth_error steps j with
  | Some step =>
      match find_agent agents step,
            to_string (context_before reply agents finalInput steps j) with
      | Some agent, Normal context =>
          [(j, request_of finalInput context step agent)]
      | _, _ => []
      end
  | None => []
  end.

Definition editor : Agent.t :=
  {| Agent.id := "a2"; Agent.name := "Editor"; Agent.role := "EDITOR";
     Agent.model := "qwen2.5:1.5b"; Agent.systemPrompt := "You edit.";
     Agent.temperature := JS.of_decimal false 7 (-1) |}.

Definition two_steps : t :=
  {| id := "w2"; name := "Draft and edit";
     steps := [ {| Step.id := "s1"; Step.agentId := "a1"; Step.description := "Draft" |};
                {| Step.id := "s2"; Step.agentId := "a2"; Step.description := "Edit" |} ];
     createdAt := 0 |}.

Definition drafts_then_edits (i : nat) : Net.reply :=
  match i with
  | 0 => Net.Response true 200
           (JSON.text "{'message':{'role':'assistant','content':'A draft.'}}")
  | _ => Net.Response true 200
           (JSON.text "{'message':{'role':'assistant','content':'An edited draft.'}}")
  end.

End RunProps.

Module ChatProps.
Import JS.
Import Chat.

(** No session of the list has the id [i]. *)
Definition fresh (i : string) (sessions : list ChatSession) : Prop :=
  Forall (fun s => id s <> i) sessions.

(** The session after the user message of a turn was added to it. *)
Definition sent (userInput : string) (s : ChatSession) : ChatSession :=
  {| id := id s;
     title := match messages s with [] => slice 30 userInput | _ => title s end;
     messages := messages s ++ [user_message userInput];
     config := config s;
     createdAt := createdAt s |}.

Definition defaults : Config :=
  {| systemPrompt := "You are helpful."; temperature := of_decimal false 7 (-1);
     topK := of_Z 40; model := "llama3.2"; embedModel := "nomic-embed-text";
     vectorDbUrl := "http://localhost:6333"; collectionName := "chat_memory";
     ollamaUrl := "http://localhost:11434"; mcpEnabled := true;
     showReasoning := true |}.

(** [after] is what the opening of a turn on the session [sessionId]
    makes of the session [before]: the session with the message added
    when it has that id, the session itself otherwise. *)
Definition turned (userInput sessionId : string) (before after : ChatSession)
  : Prop :=
  (id before = sessionId -> after = sent userInput before)
  /\ (id before <> sessionId -> after = before).

(** Three sessions of distinct ids: one with an exchange, one just
    created, one with a question. *)
Definition tea_chat : ChatSession :=
  {| id := "1699999990000"; title := "Is tea a herb?";
     messages := [user_message "Is tea a herb?";
                  obj [("role", str "assistant"); ("content", str "It is a shrub.")]];
     config := defaults; createdAt := 1699999990000 |}.

Definition new_chat : ChatSession :=
  {| id := "1699999995000"; title := "New Chat"; messages := [];
     config := defaults; createdAt := 1699999995000 |}.

Definition rice_chat : ChatSession :=
  {| id := "1699999980000"; title := "How long does rice cook?";
     messages := [user_message "How long does rice cook?"];
     config := defaults; createdAt := 1699999980001 |}.

End ChatProps.

Module DisplayProps.
Import Display.

(** The text [tail] is empty or starts with [tag]: a piece that precedes
    it ends at the end of the content or at the next [tag]. *)
Definition ends_at (tag tail : string) : Prop :=
  tail = EmptyString \/ exists rest, tail = tag +++ rest.

End DisplayProps.

Module MemoryProps.
Import JS.
Import Memory.

(** The reply gives no embedding: the request was rejected, the status
    is not a success, the body is not JSON, or what it holds under
    [embedding] is falsy. *)
Definition unavailable (r : Net.reply) : Prop :=
  match r with
  | Net.Rejected _ => True
  | Net.Response ok _ body =>
      ok = false
      \/ match JSON.parse body with
         | Normal data => truthy (get_own data "embedding") = false
         | Throw _ => True
         end
  end.

(** The search result [r] is an object whose payload is an object with
    the text [c] as its content. *)
Definition holds (r : value) (c : string) : Prop :=
  exists fs ps,
    r = obj fs /\ lookup "payload" fs = Some (obj ps)
    /\ lookup "content" ps = Some (str c).

(** The requests of a round up to the search, for the vector [vector]:
    the embedding is asked of [config.ollamaUrl], the collection is looked
    up (and created when the look-up is answered with a failure) and
    searched at [config.vectorDbUrl]. *)
Definition looked_up (w : World) (config : Chat.Config) (userInput : string)
  (vector : value) : list request :=
  Embeddings (Chat.ollamaUrl config +++ "/api/embeddings") (Chat.embedModel config)
    userInput
  :: snd (initializeQdrantCollection config (check w) (create w)
            (get_own vector "length"))
  ++ [Search (Chat.vectorDbUrl config +++ "/collections/"
              +++ Chat.collectionName config +++ "/points/search") vector].

Definition stored (w : World) (config : Chat.Config) (userInput sessionId : string)
  (vector : value) : request :=
  Upsert (Chat.vectorDbUrl config +++ "/collections/"
          +++ Chat.collectionName config +++ "/points")
    (point_now w) vector userInput sessionId (stamp_now w).

Definition tea_world : World :=
  {| embedding := Net.Response true 200 (JSON.text "{'embedding':[0.5,0.25]}");
     check := Net.Response true 200 "{}";
     create := Net.Rejected (Error "not asked");
     search := Net.Response true 200
       (JSON.text "{'result':[{'id':1,'score':0.9,'payload':{'content':'I like green tea'}},{'id':2,'score':0.8,'payload':{'content':'No sugar'}}]}");
     point_now := 21; stamp_now := 22 |}.

Definition no_payload_world : World :=
  {| embedding := embedding tea_world; check := check tea_world;
     create := create tea_world;
     search := Net.Response true 200
                 (JSON.text "{'result':[{'id':1,'score':0.9,'payload':null}]}");
     point_now := 21; stamp_now := 22 |}.

End MemoryProps.

Module TurnProps.
Import JS.

(** Two application settings that differ at most in the system prompt,
    the sampling options (temperature and top-k) and the display of the
    reasoning: they have the same addresses (Ollama, vector store and
    collection), the same models and the same tool switch. *)
Definition same_for_a_turn (a b : Chat.Config) : Prop :=
  Chat.embedModel a = Chat.embedModel b
  /\ Chat.mcpEnabled a = Chat.mcpEnabled b
  /\ Chat.model a = Chat.model b
  /\ Chat.ollamaUrl a = Chat.ollamaUrl b
  /\ Chat.vectorDbUrl a = Chat.vectorDbUrl b
  /\ Chat.collectionName a = Chat.collectionName b.

Definition is_online (s : Registry.McpServer) : Prop :=
  Registry.status s = Registry.online.

(** A turn answered in one stream, with two memories recalled. *)
Definition tea_turn : Turn.World :=
  {| Turn.id_now := 1700000000000; Turn.created_now := 1700000000001;
     Turn.memory := MemoryProps.tea_world;
     Turn.list_reply := fun _ => RegistryProps.lists_time;
     Turn.list_now := fun _ => 5%Z;
     Turn.chat :=
       {| Conversation.first :=
            Net.Stream [ConversationProps.answer_line +++ Text.newline];
          Conversation.followup := Net.StreamRejected (Error "not asked");
          Conversation.tool_reply := fun _ => Net.Rejected (Error "not asked");
          Conversation.fallback_now := 17;
          Conversation.request_now := fun _ => 18%Z;
          Conversation.response_now := fun _ => 19%Z |} |}.

Definition terse : Chat.Config :=
  {| Chat.systemPrompt := "Answer in one word.";
     Chat.temperature := of_Z 0; Chat.topK := of_Z 1;
     Chat.model := Chat.model ChatProps.defaults;
     Chat.embedModel := Chat.embedModel ChatProps.defaults;
     Chat.vectorDbUrl := Chat.vectorDbUrl ChatProps.defaults;
     Chat.collectionName := Chat.collectionName ChatProps.defaults;
     Chat.ollamaUrl := Chat.ollamaUrl ChatProps.defaults;
     Chat.mcpEnabled := Chat.mcpEnabled ChatProps.defaults;
     Chat.showReasoning := false |}.

(** The default settings with another Ollama address, and with tool use
    switched off. *)
Definition elsewhere : Chat.Config :=
  {| Chat.systemPrompt := Chat.systemPrompt ChatProps.defaults;
     Chat.temperature := Chat.temperature ChatProps.defaults;
     Chat.topK := Chat.topK ChatProps.defaults;
     Chat.model := Chat.model ChatProps.defaults;
     Chat.embedModel := Chat.embedModel ChatProps.defaults;
     Chat.vectorDbUrl := Chat.vectorDbUrl ChatProps.defaults;
     Chat.collectionName := Chat.collectionName ChatProps.defaults;
     Chat.ollamaUrl := "http://10.0.0.7:11434";
     Chat.mcpEnabled := Chat.mcpEnabled ChatProps.defaults;
     Chat.showReasoning := Chat.showReasoning ChatProps.defaults |}.

Definition without_tools : Chat.Config :=
  {| Chat.systemPrompt := Chat.systemPrompt ChatProps.defaults;
     Chat.temperature := Chat.temperature ChatProps.defaults;
     Chat.topK := Chat.topK ChatProps.defaults;
     Chat.model := Chat.model ChatProps.defaults;
     Chat.embedModel := Chat.embedModel ChatProps.defaults;
     Chat.vectorDbUrl := Chat.vectorDbUrl ChatProps.defaults;
     Chat.collectionName := Chat.collectionName ChatProps.defaults;
     Chat.ollamaUrl := Chat.ollamaUrl ChatProps.defaults;
     Chat.mcpEnabled := false;
     Chat.showReasoning := Chat.showReasoning ChatProps.defaults |}.

Definition tea_session : Chat.ChatSession :=
  {| Chat.id := "s1"; Chat.title := "Tea"; Chat.messages := [];
     Chat.config := ChatProps.defaults; Chat.createdAt := 0 |}.

(** The manifest entry of the tool the endpoint of [tea_turn] lists. *)
Definition current_time : Manifest.ToolDef :=
  {| Manifest.name := "get_current_time"; Manifest.description := undefined;
     Manifest.parameters := undefined;
     Manifest.serverUrl := "http://localhost:8000" |}.

End TurnProps.

Ltac destruct_inner :=
  match goal with
  | |- context [match ?x with _ => _ end] =>
      lazymatch x with
      | context [match _ with _ => _ end] => fail
      | _ => destruct x eqn:?
      end
  end.

Module Samples.
Import JS.

(** Parsing a text written with ['] for the quote character, printing
    what it parses to, and printing the number a literal denotes. *)
Definition reads (s : string) : completion value := JSON.parse (JSON.text s).

Definition prints (s : string) : option string :=
  match reads s with
  | Normal v => JSON.stringify v
  | Throw _ => None
  end.

Definition shows (literal : string) : string :=
  num_to_string (string_to_number literal).

End Samples.

(* ===================================================================== *)
(** * Properties of the stream decoder *)
(* ===================================================================== *)

Module DecoderFacts.
Import JS.
Import Decoder.
Import DecoderProps.

Lemma split_lines_not_nil (s : string) : Text.split_lines s <> [].
Proof.
  destruct s as [|c r]; simpl; [discriminate|].
  destruct (Ascii.eqb c Text.LF); [discriminate|].
  destruct (Text.split_lines r); discriminate.
Qed.

Lemma complete_lines_tail (x : ascii) (r : string) :
  complete_lines (String x r) = true -> complete_lines r = true.
Proof. destruct r; simpl; auto. Qed.

(** A non-empty chunk of whole lines splits into at least two pieces, the
    last of which is empty. *)
Lemma split_complete_two (s : string) :
  complete_lines s = true -> s <> EmptyString ->
  exists l l' ls, Text.split_lines s = l :: l' :: ls.
Proof.
  induction s as [|x r IH]; intros Hc Hne; [congruence|].
  destruct r as [|y r'].
  - simpl in Hc. simpl. rewrite Hc. eauto.
  - assert (Hr : complete_lines (String y r') = true) by exact Hc.
    destruct (IH Hr ltac:(discriminate)) as (l & l' & ls & E).
    change (Text.split_lines (String x (String y r')))
      with (if Ascii.eqb x Text.LF then EmptyString :: Text.split_lines (String y r')
            else match Text.split_lines (String y r') with
                 | l :: ls => String x l :: ls
                 | [] => [String x EmptyString]
                 end).
    rewrite E. destruct (Ascii.eqb x Text.LF); eauto.
Qed.

Lemma split_lines_cons (x : ascii) (r : string) :
  Text.split_lines (String x r) =
  if Ascii.eqb x Text.LF then EmptyString :: Text.split_lines r
  else match Text.split_lines r with
       | l :: ls => String x l :: ls
       | [] => [String x EmptyString]
       end.
Proof. reflexivity. Qed.

(** Splitting after a chunk of whole lines: the lines of the chunk, less
    its empty last piece, then the lines of what follows. *)
Lemma split_lines_app (a b : string) :
  complete_lines a = true ->
  Text.split_lines (a +++ b) = removelast (Text.split_lines a) ++ Text.split_lines b
  /\ last (Text.split_lines a) EmptyString = EmptyString.
Proof.
  induction a as [|x r IH]; intros Hc.
  - split; reflexivity.
  - pose proof (complete_lines_tail _ _ Hc) as Hr.
    destruct (IH Hr) as [IH1 IH2].
    change (String x r +++ b) with (String x (r +++ b)).
    rewrite !split_lines_cons, IH1.
    destruct (Ascii.eqb x Text.LF) eqn:Ex.
    + pose proof (split_lines_not_nil r) as Hn.
      destruct (Text.split_lines r) as [|l ls] eqn:E; [congruence|].
      split; [reflexivity| exact IH2].
    + assert (Hne : r <> EmptyString).
      { intros ->. simpl in Hc. congruence. }
      destruct (split_complete_two r Hr Hne) as (l & l' & ls & E).
      rewrite E in *. split; [reflexivity| exact IH2].
Qed.

Lemma process_line_empty (sources : value) (st : state) :
  process_line sources st EmptyString = st.
Proof. reflexivity. Qed.

Lemma fold_removelast (sources : value) (ls : list string) (st : state) :
  ls <> [] -> last ls EmptyString = EmptyString ->
  fold_left (process_line sources) ls st
  = fold_left (process_line sources) (removelast ls) st.
Proof.
  intros Hne Hl.
  rewrite (app_removelast_last EmptyString Hne) at 1.
  rewrite Hl, fold_left_app. reflexivity.
Qed.

(** Decoding a chunk of whole lines and then the rest is decoding the two
    at once. *)
Lemma process_chunk_app (sources : value) (a b : string) (st : state) :
  complete_lines a = true ->
  process_chunk sources st (a +++ b)
  = process_chunk sources (process_chunk sources st a) b.
Proof.
  intros Hc. unfold process_chunk.
  destruct (split_lines_app a b Hc) as [E L].
  rewrite E, fold_left_app.
  rewrite <- (fold_removelast sources _ st (split_lines_not_nil a) L).
  reflexivity.
Qed.

Lemma fold_chunks (sources : value) (chunks : list string) (st : state) :
  forallb complete_lines (removelast chunks) = true ->
  fold_left (process_chunk sources) chunks st
  = process_chunk sources st (String.concat "" chunks).
Proof.
  revert st. induction chunks as [|c cs IH]; intros st H.
  - reflexivity.
  - destruct cs as [|c' cs'].
    + reflexivity.
    + change (removelast (c :: c' :: cs')) with (c :: removelast (c' :: cs')) in H.
      simpl forallb in H. apply andb_prop in H. destruct H as [Hc Hrest].
      change (fold_left (process_chunk sources) (c :: c' :: cs') st)
        with (fold_left (process_chunk sources) (c' :: cs') (process_chunk sources st c)).
      rewrite (IH _ Hrest).
      change (String.concat "" (c :: c' :: cs'))
        with (c +++ "" +++ String.concat "" (c' :: cs')).
      change ("" +++ String.concat "" (c' :: cs')) with (String.concat "" (c' :: cs')).
      rewrite process_chunk_app by exact Hc. reflexivity.
Qed.

(** Whatever the chunks, the decoder handles the pieces of each chunk,
    split on its own, as the lines of the stream. *)
Lemma readStream_lines (chunks : list string) (sources : value)
  (msgs : Session.messages) :
  readStream chunks sources msgs
  = fold_left (process_line sources) (flat_map Text.split_lines chunks)
      (start sources msgs).
Proof.
  unfold readStream. generalize (start sources msgs).
  induction chunks as [|c cs IH]; intros st; simpl.
  - reflexivity.
  - rewrite fold_left_app. apply IH.
Qed.

(** C1, as amended: when every chunk boundary falls right after a newline
    (each chunk but the last is empty or ends in one), [readStream] on the
    chunks ends in the same state, in particular with the same content and
    tool calls, as on their concatenation taken as one chunk.  The decoder
    keeps no buffer between reads; each chunk is split into lines by
    itself. *)
Theorem readStream_line_aligned (chunks : list string) (sources : value)
  (msgs : Session.messages) :
  forallb complete_lines (removelast chunks) = true ->
  readStream chunks sources msgs = decode_whole chunks sources msgs.
Proof.
  intros H. unfold decode_whole, readStream.
  rewrite (fold_chunks sources chunks _ H). reflexivity.
Qed.

Lemma readStream_line_aligned_witness :
  forallb complete_lines (removelast [hi_line +++ Text.newline; hi_line]) = true
  /\ readStream [hi_line +++ Text.newline; hi_line] undefined []
     = decode_whole [hi_line +++ Text.newline; hi_line] undefined [].
Proof.
  split; [reflexivity|].
  apply (readStream_line_aligned [hi_line +++ Text.newline; hi_line] undefined []).
  reflexivity.
Defined.

(** C1 fails as stated: a valid one-line body cut in the middle of the
    line decodes to no content at all, while the whole body decodes to
    its content. *)
Lemma split_line_is_lost :
  let chunks := [Text.take 20 hi_line; Text.drop 20 hi_line +++ Text.newline] in
  valid_ndjson (String.concat "" chunks) = true
  /\ assistantMessageContent (readStream chunks undefined []) = ""
  /\ assistantMessageContent (decode_whole chunks undefined []) = "hi".
Proof. vm_compute. repeat split. Qed.

(** ** Terminal statistics *)

Lemma zero_div_giga (d : number) :
  is_zero d = true -> is_zero (num_div d giga) = true.
Proof. destruct d; simpl; try discriminate. intros _. reflexivity. Qed.

Lemma div_by_zero (c z : number) :
  is_zero z = true ->
  is_finite (num_div c z) = false
  /\ is_NaN (num_div c z) = (is_zero c || is_NaN c).
Proof.
  destruct z; simpl; try discriminate. intros _.
  destruct c; simpl; split; reflexivity.
Qed.

Lemma stats_of_numbers (data done : value) (c d : number) :
  get data "done" = Normal done -> truthy done = true ->
  get data "eval_count" = Normal (num c) ->
  get data "eval_duration" = Normal (num d) ->
  stats_of data = Normal (stats (num c) (num (num_div c (num_div d giga)))).
Proof.
  intros Hd Ht Hc Hdur. unfold stats_of.
  rewrite Hd. simpl. rewrite Ht, Hc. simpl. rewrite Hdur. reflexivity.
Qed.

(** C4, as amended: for a terminal object (truthy [done]) whose
    [eval_count] and [eval_duration] are the numbers [c] and [d], the
    decoder computes the stats [{totalTokens: c, tokensPerSecond:
    c / (d / 1e9)}] without raising, and hands them to the update callback
    with the content accumulated so far; [eval_count = 100] with
    [eval_duration = 2e9] gives 50 tokens per second; a zero duration gives
    a value that is not finite: not-a-number exactly when [eval_count] is
    zero or not-a-number, an infinity otherwise. *)
Theorem stats_of_terminal (data done : value) (c d : number) :
  get data "done" = Normal done -> truthy done = true ->
  get data "eval_count" = Normal (num c) ->
  get data "eval_duration" = Normal (num d) ->
  let rate := num_div c (num_div d giga) in
  stats_of data = Normal (stats (num c) (num rate))
  /\ (forall sources st st' line,
        Text.is_empty (Text.trim line) = false ->
        JSON.parse line = Normal data ->
        on_message data st = (st', Normal tt) ->
        session (process_line sources st line)
        = Session.updateAssistantMessage (assistantMessageContent st')
            (stats (num c) (num rate)) sources (session st'))
  /\ num_div (of_Z 100) (num_div (of_Z 2000000000) giga) = of_Z 50
  /\ (is_zero d = true ->
      is_finite rate = false /\ is_NaN rate = (is_zero c || is_NaN c)).
Proof.
  intros Hd Ht Hc Hdur rate.
  pose proof (stats_of_numbers data done c d Hd Ht Hc Hdur) as Hs.
  split; [exact Hs|]. split; [|split].
  - intros sources st st' line Hb Hp Hm.
    unfold process_line. rewrite Hb, Hp.
    unfold on_object, seq. rewrite Hm.
    unfold lift. rewrite Hs. reflexivity.
  - vm_compute. reflexivity.
  - intros Hz. apply div_by_zero, zero_div_giga, Hz.
Qed.

Lemma stats_of_terminal_witness :
  stats_of terminal_100 = Normal (stats (num (of_Z 100)) (num (of_Z 50))).
Proof.
  exact (proj1 (stats_of_terminal terminal_100 (boolean true) (of_Z 100)
                  (of_Z 2000000000) eq_refl eq_refl eq_refl eq_refl)).
Defined.

(** C4 fails as stated: with [eval_count = 100] and a zero duration the
    rate is [Infinity], which is not not-a-number. *)
Lemma zero_duration_is_Infinity :
  let line := JSON.text "{'done':true,'eval_count':100,'eval_duration':0}" in
  exists data,
    JSON.parse line = Normal data
    /\ stats_of data = Normal (stats (num (of_Z 100)) (num Infinity))
    /\ is_NaN Infinity = false.
Proof.
  eexists. split; [vm_compute; reflexivity|]. split; reflexivity.
Qed.

End DecoderFacts.

(* ===================================================================== *)
(** * Facts about text *)
(* ===================================================================== *)

Module TextFacts.
Import Text.
Import TextProps.

Lemma append_assoc (a b c : string) : (a +++ b) +++ c = a +++ b +++ c.
Proof. induction a; simpl; congruence. Qed.

Lemma append_nil_r (a : string) : a +++ "" = a.
Proof. induction a; simpl; congruence. Qed.

Lemma prefix_app (s t : string) : String.prefix s (s +++ t) = true.
Proof.
  induction s as [|c s IH]; simpl.
  - destruct t; reflexivity.
  - destruct (ascii_dec c c); [exact IH | congruence].
Qed.

Lemma prefix_inv (p s : string) :
  String.prefix p s = true -> exists t, s = p +++ t.
Proof.
  revert s. induction p as [|c p IH]; intros s H.
  - exists s. reflexivity.
  - destruct s as [|d s]; simpl in H; [discriminate|].
    destruct (ascii_dec c d) as [->|]; [|discriminate].
    destruct (IH s H) as [t ->]. exists t. reflexivity.
Qed.

Lemma drop_app (s t : string) : drop (String.length s) (s +++ t) = t.
Proof. induction s; simpl; auto. Qed.

Lemma prefix_head (c d : ascii) (p s : string) :
  Ascii.eqb d c = false -> String.prefix (String c p) (String d s) = false.
Proof.
  intros H. simpl. destruct (ascii_dec c d) as [->|]; [|reflexivity].
  rewrite Ascii.eqb_refl in H. discriminate.
Qed.

Lemma remove_first_unfold (pat s : string) :
  remove_first pat s =
  if String.prefix pat s then drop (String.length pat) s
  else match s with
       | EmptyString => EmptyString
       | String c r => String c (remove_first pat r)
       end.
Proof. destruct s; reflexivity. Qed.

Lemma remove_first_prefix (pat t : string) : remove_first pat (pat +++ t) = t.
Proof. rewrite remove_first_unfold, prefix_app. apply drop_app. Qed.

(** Removing a pattern that begins with [c] from a text where [c] first
    occurs at the start of the pattern removes that occurrence. *)
Lemma remove_first_at (c : ascii) (p pre post : string) :
  lacks c pre = true ->
  remove_first (String c p) (pre +++ String c p +++ post) = pre +++ post.
Proof.
  induction pre as [|d pre IH]; intros H.
  - change ("" +++ String c p +++ post) with (String c p +++ post).
    destruct post as [|e post'] eqn:Ep.
    + rewrite append_nil_r. simpl.
      destruct (ascii_dec c c); [|congruence].
      rewrite <- (append_nil_r p) at 2. rewrite prefix_app.
      rewrite <- (append_nil_r p) at 2. apply drop_app.
    + simpl. destruct (ascii_dec c c); [|congruence].
      rewrite prefix_app. apply drop_app.
  - simpl in H. apply andb_prop in H. destruct H as [Hd Hl].
    apply negb_true_iff in Hd.
    change (String d pre +++ String c p +++ post)
      with (String d (pre +++ String c p +++ post)).
    unfold remove_first; fold remove_first.
    rewrite (prefix_head c d p _ Hd).
    rewrite (IH Hl). reflexivity.
Qed.

Lemma includes_here (c : ascii) (r : string) :
  includes (String c r) (String c "") = true.
Proof.
  simpl. destruct (ascii_dec c c); [|congruence]. destruct r; reflexivity.
Qed.

Lemma includes_later (x : ascii) (r sub : string) :
  includes r sub = true -> includes (String x r) sub = true.
Proof.
  intros H. unfold includes; fold includes. rewrite H. apply orb_true_r.
Qed.

Lemma includes_app_r (pre s sub : string) :
  includes s sub = true -> includes (pre +++ s) sub = true.
Proof.
  induction pre; simpl append; intros H; [exact H|].
  apply includes_later. auto.
Qed.

Lemma includes_app_l (s post : string) (c : ascii) :
  includes s (String c "") = true -> includes (s +++ post) (String c "") = true.
Proof.
  induction s as [|x s IH]; intros H.
  - simpl in H. discriminate.
  - unfold includes in H; fold includes in H.
    apply orb_prop in H. destruct H as [H|H].
    + simpl in H. destruct (ascii_dec c x) as [->|]; [|discriminate].
      apply includes_here.
    + change (String x s +++ post) with (String x (s +++ post)).
      apply includes_later. auto.
Qed.

Lemma includes_char (x c : ascii) (r : string) :
  includes (String x r) (String c "")
  = (Ascii.eqb x c || includes r (String c "")).
Proof.
  unfold includes at 1; fold includes. simpl String.prefix.
  destruct (ascii_dec c x) as [->|n].
  - rewrite Ascii.eqb_refl. destruct r; reflexivity.
  - destruct (Ascii.eqb x c) eqn:E; [|reflexivity].
    apply Ascii.eqb_eq in E. congruence.
Qed.

Lemma includes_lacks (c : ascii) (s : string) :
  includes s (String c "") = negb (lacks c s).
Proof.
  induction s as [|x r IH].
  - reflexivity.
  - rewrite includes_char, IH. simpl.
    destruct (Ascii.eqb x c); reflexivity.
Qed.

Lemma high_differs (x c : ascii) :
  (128 <=? code x)%N = true -> solid c = true -> Ascii.eqb x c = false.
Proof.
  intros Hx Hc. apply andb_prop in Hc. destruct Hc as [Hc _].
  destruct (Ascii.eqb x c) eqn:E; [|reflexivity].
  apply Ascii.eqb_eq in E. subst x.
  apply N.leb_le in Hx. apply N.ltb_lt in Hc. lia.
Qed.

Lemma ws1_differs (x c : ascii) :
  ws1 x = true -> solid c = true -> Ascii.eqb x c = false.
Proof.
  intros Hx Hc. apply andb_prop in Hc. destruct Hc as [_ Hc].
  destruct (Ascii.eqb x c) eqn:E; [|reflexivity].
  apply Ascii.eqb_eq in E. subst x. rewrite Hx in Hc. discriminate.
Qed.

Lemma ws2_high (x d : ascii) :
  ws2 x d = true -> (128 <=? code x)%N = true /\ (128 <=? code d)%N = true.
Proof.
  unfold ws2. intros H. apply andb_prop in H. destruct H as [H1 H2].
  apply N.eqb_eq in H1, H2. rewrite H1, H2. split; reflexivity.
Qed.

Lemma ws3_high (x d e : ascii) :
  ws3 x d e = true ->
  (128 <=? code x)%N = true /\ (128 <=? code d)%N = true
  /\ (128 <=? code e)%N = true.
Proof.
  unfold ws3. intros H.
  repeat match goal with
         | H : (_ || _)%bool = true |- _ => apply orb_prop in H; destruct H as [H|H]
         | H : (_ && _)%bool = true |- _ =>
             let H1 := fresh in let H2 := fresh in
             apply andb_prop in H; destruct H as [H1 H2]
         | H : (_ =? _)%N = true |- _ => apply N.eqb_eq in H
         | H : (_ <=? _)%N = true |- _ => apply N.leb_le in H
         end;
  repeat split; apply N.leb_le; lia.
Qed.

Lemma lacks_cons (c x : ascii) (r : string) :
  lacks c (String x r) = (negb (Ascii.eqb x c) && lacks c r).
Proof. reflexivity. Qed.

Lemma trimStart_lacks_len (c : ascii) (n : nat) (s : string) :
  solid c = true -> String.length s <= n ->
  lacks c (trimStart s) = true -> lacks c s = true.
Proof.
  intros Hc. revert s. induction n as [|n IH]; intros s Hl H.
  - destruct s; [reflexivity| simpl in Hl; lia].
  - destruct s as [|x r]; [reflexivity|].
    simpl in Hl.
    unfold trimStart in H; fold trimStart in H.
    destruct (ws1 x) eqn:W1.
    + rewrite lacks_cons, (ws1_differs x c W1 Hc). apply IH; [lia| exact H].
    + destruct r as [|d r2]; [exact H|].
      destruct r2 as [|e r3].
      * destruct (ws2 x d) eqn:W2; [|exact H].
        destruct (ws2_high _ _ W2) as [Hx Hd].
        rewrite !lacks_cons, (high_differs x c Hx Hc), (high_differs d c Hd Hc).
        reflexivity.
      * destruct (ws2 x d) eqn:W2.
        { destruct (ws2_high _ _ W2) as [Hx Hd].
          rewrite (lacks_cons c x), (lacks_cons c d),
            (high_differs x c Hx Hc), (high_differs d c Hd Hc).
          apply IH; [simpl in *; lia| exact H]. }
        destruct (ws3 x d e) eqn:W3; [|exact H].
        destruct (ws3_high _ _ _ W3) as (Hx & Hd & He).
        rewrite !lacks_cons, (high_differs x c Hx Hc), (high_differs d c Hd Hc),
          (high_differs e c He Hc).
        apply IH; [simpl in *; lia| exact H].
Qed.

Lemma trimStart_lacks (c : ascii) (s : string) :
  solid c = true -> lacks c (trimStart s) = true -> lacks c s = true.
Proof. intros Hc. apply (trimStart_lacks_len c (String.length s)); auto. Qed.

Lemma trimEnd_lacks (c : ascii) (s : string) :
  solid c = true -> lacks c (trimEnd s) = true -> lacks c s = true.
Proof.
  intros Hc. induction s as [|x r IH]; intros H; [reflexivity|].
  unfold trimEnd in H; fold trimEnd in H.
  destruct (blank (String x r)) eqn:B.
  - apply trimStart_lacks; [exact Hc|].
    unfold blank in B. destruct (trimStart (String x r)); [reflexivity|discriminate].
  - simpl in H. apply andb_prop in H. destruct H as [H1 H2].
    simpl. rewrite H1. simpl. auto.
Qed.

(** Trimming keeps every occurrence of a solid character. *)
Lemma includes_trim (c : ascii) (s : string) :
  solid c = true ->
  includes (trim s) (String c "") = includes s (String c "").
Proof.
  intros Hc. rewrite !includes_lacks. f_equal.
  destruct (lacks c (trim s)) eqn:E.
  - symmetry. apply trimStart_lacks; [exact Hc|].
    apply trimEnd_lacks; [exact Hc| exact E].
  - destruct (lacks c s) eqn:E'; [|reflexivity].
    exfalso.
    assert (K : forall t, lacks c t = true ->
                          lacks c (trimStart t) = true /\ lacks c (trimEnd t) = true).
    { clear - Hc. intros t.
      assert (KS : forall n t, String.length t <= n -> lacks c t = true ->
                               lacks c (trimStart t) = true).
      { induction n as [|n IH]; intros u Hl Hu.
        - destruct u; [reflexivity| simpl in Hl; lia].
        - destruct u as [|x r]; [reflexivity|].
          simpl in Hl. unfold trimStart; fold trimStart.
          pose proof Hu as Hu'. simpl in Hu'. apply andb_prop in Hu'.
          destruct Hu' as [_ Hr].
          destruct (ws1 x); [apply IH; [lia|exact Hr]|].
          destruct r as [|d r2]; [exact Hu|].
          destruct r2 as [|e r3].
          + destruct (ws2 x d); [reflexivity| exact Hu].
          + pose proof Hr as Hr'. simpl in Hr'. apply andb_prop in Hr'.
            destruct Hr' as [_ Hr2].
            destruct (ws2 x d); [apply IH; [simpl in *; lia| exact Hr2]|].
            destruct (ws3 x d e); [|exact Hu].
            pose proof Hr2 as Hr2'. simpl in Hr2'. apply andb_prop in Hr2'.
            destruct Hr2' as [_ Hr3].
            apply IH; [simpl in *; lia| exact Hr3]. }
      intros Ht. split; [apply (KS (String.length t)); auto|].
      induction t as [|x r IHt]; [reflexivity|].
      unfold trimEnd; fold trimEnd.
      destruct (blank (String x r)); [reflexivity|].
      simpl in Ht. apply andb_prop in Ht. destruct Ht as [H1 H2].
      simpl. rewrite H1. simpl. auto. }
    destruct (K s E') as [K1 _]. destruct (K _ K1) as [_ K2].
    unfold trim in E. congruence.
Qed.

End TextFacts.

(* ===================================================================== *)
(** * Properties of the tool-call resolver *)
(* ===================================================================== *)

Module ResolverFacts.
Import JS.
Import Manifest.
Import Resolver.
Import TextProps.
Import TextFacts.
Import ResolverProps.

(** ** The span of the brace pattern *)

Lemma from_first_split (c : ascii) (s t : string) :
  from_first c s = Some t ->
  exists pre r, s = pre +++ String c r /\ t = String c r /\ lacks c pre = true.
Proof.
  induction s as [|x s IH]; intros H; [discriminate|].
  simpl in H. destruct (Ascii.eqb x c) eqn:E.
  - apply Ascii.eqb_eq in E. subst x. injection H as <-.
    exists EmptyString, s. repeat split.
  - destruct (IH H) as (pre & r & -> & -> & L).
    exists (String x pre), r. repeat split. simpl. rewrite E. exact L.
Qed.

Lemma up_to_last_split (c : ascii) (s t : string) :
  up_to_last c s = Some t -> exists post, s = t +++ post.
Proof.
  revert t. induction s as [|x s IH]; intros t H; [discriminate|].
  simpl in H. destruct (up_to_last c s) as [u|] eqn:E.
  - injection H as <-. destruct (IH u eq_refl) as [post ->].
    exists post. reflexivity.
  - destruct (Ascii.eqb x c); [|discriminate]. injection H as <-.
    exists s. reflexivity.
Qed.

(** The span begins at the first opening brace of the content, and
    removing it leaves what surrounds it. *)
Lemma match_braces_split (content jsonMatch : string) :
  match_braces content = Some jsonMatch ->
  exists pre r post,
    jsonMatch = String "{" r
    /\ content = pre +++ jsonMatch +++ post
    /\ lacks "{" pre = true
    /\ Text.remove_first jsonMatch content = pre +++ post.
Proof.
  unfold match_braces. intros H.
  destruct (from_first "{" content) as [s|] eqn:F; [|discriminate].
  destruct (from_first_split _ _ _ F) as (pre & r & -> & -> & L).
  destruct (up_to_last "}" r) as [t|] eqn:U; [|discriminate].
  injection H as <-.
  destruct (up_to_last_split _ _ _ U) as [post ->].
  exists pre, t, post. repeat split; auto.
  apply remove_first_at. exact L.
Qed.

Lemma match_braces_includes (content jsonMatch : string) :
  match_braces content = Some jsonMatch ->
  Text.includes (Text.trim content) "{" = true.
Proof.
  intros H. destruct (match_braces_split _ _ H) as (pre & r & post & -> & -> & _).
  rewrite (includes_trim "{") by reflexivity.
  apply includes_app_r. apply includes_here.
Qed.

Lemma match_braces_none (content : string) :
  Text.includes (Text.trim content) "{" = false -> match_braces content = None.
Proof.
  intros H. destruct (match_braces content) eqn:E; [|reflexivity].
  rewrite (match_braces_includes _ _ E) in H. discriminate.
Qed.

(** ** A text that begins with a brace parses to an object *)

Lemma parse_members_object (fuel : nat) :
  forall acc s v rest,
    JSON.parse_members fuel acc s = Some (v, rest) -> exists fs, v = obj fs.
Proof.
  induction fuel as [|fuel IH]; intros acc s v rest H; [discriminate|].
  simpl in H.
  repeat (break_match_hyp H; try discriminate).
  - eapply IH; eassumption.
  - injection H as <- _. eauto.
Qed.

Lemma parse_brace_object (r : string) (v : value) :
  JSON.parse (String "{" r) = Normal v -> exists fs, v = obj fs.
Proof.
  unfold JSON.parse. intros H.
  destruct (JSON.parse_value _ _) as [[v' rest]|] eqn:P; [|discriminate].
  destruct (Text.is_empty (JSON.skip_ws rest)); [|discriminate].
  injection H as ->.
  destruct (2 * String.length (String "{" r) + 2) as [|fuel]; [discriminate|].
  simpl in P.
  destruct (JSON.skip_ws r) as [|d r'] eqn:S; [discriminate|].
  destruct (Text.code d =? 125)%N.
  - injection P as <- _. eauto.
  - eapply parse_members_object; eassumption.
Qed.

(** ** JSON sniffing *)

Lemma get_object (fs : list (string * value)) (k : string) :
  get (obj fs) k = Normal (get_own (obj fs) k).
Proof. reflexivity. Qed.

Lemma nonempty_string (v : value) :
  truthy v && is_str v = true <-> exists n, v = str n /\ n <> EmptyString.
Proof.
  split.
  - intros H. apply andb_prop in H. destruct H as [T S].
    destruct v; try discriminate. exists s. split; [reflexivity|].
    intros ->. discriminate.
  - intros (n & -> & Hn). destruct n; [congruence|reflexivity].
Qed.

Lemma json_sniff_parsed (now : Z) (content jsonMatch : string) (o : value) :
  match_braces content = Some jsonMatch ->
  JSON.parse jsonMatch = Normal o ->
  json_sniff now content =
    if truthy (offered_name o) && is_str (offered_name o)
    then Some (synthesized (json_call_id now) (offered_name o) (offered_arguments o),
               Text.trim (Text.remove_first jsonMatch content))
    else None.
Proof.
  intros M P. unfold json_sniff.
  rewrite (match_braces_includes _ _ M), M, P.
  destruct (match_braces_split _ _ M) as (pre & r & post & E & _).
  subst jsonMatch. destruct (parse_brace_object _ _ P) as [fs ->].
  unfold bind, or_get, bind. rewrite !get_object.
  unfold offered_name, offered_arguments, or_else.
  destruct (truthy (get_own (obj fs) "name"));
    destruct (truthy (get_own (obj fs) "arguments"));
    destruct (truthy (get_own (obj fs) "parameters")); reflexivity.
Qed.

Lemma resolve_json (now : Z) (mcpTools : list ToolDef) (content : string)
  (r : list value * string) :
  json_sniff now content = Some r -> resolve now mcpTools content [] = r.
Proof.
  intros H. unfold resolve. simpl is_nil. cbv iota. rewrite H.
  assert (N : exists c cs content', r = (c :: cs, content')).
  { unfold json_sniff in H.
    repeat (break_match_hyp H; try discriminate);
      injection H as <-; unfold synthesized; eauto. }
  destruct N as (c & cs & content' & ->). reflexivity.
Qed.

(** C6, as amended: with no native tool calls, the resolver takes the
    span from the first opening brace of the content to its last closing
    brace and parses it; it accepts the parsed object as exactly one
    invocation if and only if the name it offers (the [name] field when
    truthy, else the [function] field) is a non-empty string.  The
    invocation carries that name, the arguments offered by
    [arguments]/[parameters]/[params] (of an array the first element, an
    empty object when that is falsy) and a synthesized call id; the
    content becomes what surrounded the span, trimmed.  The content
    [{"name":"get_weather","arguments":{"city":"Rome"}}] resolves to the
    one invocation [get_weather({city: "Rome"})] and empty content. *)
Theorem json_sniff_accepts (now : Z) (mcpTools : list ToolDef) (content : string) :
  (forall calls content',
      json_sniff now content = Some (calls, content') <->
      exists pre r post o n,
        match_braces content = Some (String "{" r)
        /\ content = pre +++ String "{" r +++ post /\ lacks "{" pre = true
        /\ JSON.parse (String "{" r) = Normal o
        /\ offered_name o = str n /\ n <> EmptyString
        /\ calls = synthesized (json_call_id now) (str n) (offered_arguments o)
        /\ content' = Text.trim (pre +++ post))
  /\ (forall accepted, json_sniff now content = Some accepted ->
                       resolve now mcpTools content [] = accepted)
  /\ (Text.includes content "{" = false -> json_sniff now content = None)
  /\ resolve now mcpTools
       (JSON.text "{'name':'get_weather','arguments':{'city':'Rome'}}") []
     = (synthesized (json_call_id now) (str "get_weather")
          (obj [("city", str "Rome")]), "").
Proof.
  split; [|split; [|split]].
  - intros calls content'. split.
    + intros H.
      destruct (match_braces content) as [jsonMatch|] eqn:M.
      2:{ unfold json_sniff in H. rewrite M in H.
          destruct (Text.includes _ _); discriminate. }
      destruct (JSON.parse jsonMatch) as [o|e] eqn:P.
      2:{ unfold json_sniff in H. rewrite M, P in H.
          destruct (Text.includes _ _); discriminate. }
      rewrite (json_sniff_parsed now _ _ _ M P) in H.
      destruct (truthy (offered_name o) && is_str (offered_name o)) eqn:A;
        [|discriminate].
      apply nonempty_string in A. destruct A as (n & En & Hn).
      destruct (match_braces_split _ _ M) as (pre & r & post & Ej & Ec & L & R).
      subst jsonMatch. rewrite R in H. injection H as <- <-.
      exists pre, r, post, o, n. rewrite En. repeat split; auto.
    + intros (pre & r & post & o & n & M & Ec & L & P & En & Hn & -> & ->).
      rewrite (json_sniff_parsed now _ _ _ M P).
      assert (A : truthy (offered_name o) && is_str (offered_name o) = true)
        by (apply nonempty_string; eauto).
      rewrite A, En.
      rewrite Ec at 1. rewrite (remove_first_at "{" r pre post L). reflexivity.
  - apply resolve_json.
  - intros I. unfold json_sniff.
    rewrite (includes_trim "{" content eq_refl), I. reflexivity.
  - apply resolve_json. vm_compute. reflexivity.
Qed.

(** C6 fails as stated: an object with a string-valued [name] field that
    is empty, and an object with a string-valued [function] field next to
    a [name] that is not a string, are both parsed and not accepted. *)
Lemma string_valued_name_rejected :
  let a := JSON.text "{'name':''}" in
  let b := JSON.text "{'name':1,'function':'lookup'}" in
  (match_braces a = Some a
   /\ JSON.parse a = Normal (obj [("name", str "")])
   /\ resolve 0 [] a [] = ([], a))
  /\ (match_braces b = Some b
      /\ JSON.parse b = Normal (obj [("name", num (of_Z 1)); ("function", str "lookup")])
      /\ resolve 0 [] b [] = ([], b)).
Proof. vm_compute. repeat split. Qed.

(** ** Bracket sniffing *)

Lemma word_run_spec (s w r : string) :
  word_run s = (w, r) ->
  s = w +++ r /\ all_word w = true /\ word_stop r = true.
Proof.
  revert w r. induction s as [|c s IH]; intros w r H.
  - simpl in H. injection H as <- <-. repeat split.
  - unfold word_run in H; fold word_run in H.
    destruct (Text.is_word c) eqn:W.
    + destruct (word_run s) as [w' r'] eqn:E. injection H as <- <-.
      destruct (IH w' r' eq_refl) as (-> & A & S).
      repeat split; auto.
      change (all_word (String c w')) with (Text.is_word c && all_word w').
      rewrite W. exact A.
    + injection H as <- <-. repeat split. unfold word_stop. rewrite W. reflexivity.
Qed.

Lemma word_run_cons (c : ascii) (s : string) :
  word_run (String c s) =
  if Text.is_word c then let '(w, rest) := word_run s in (String c w, rest)
  else (EmptyString, String c s).
Proof. reflexivity. Qed.

Lemma word_run_app (w r : string) :
  all_word w = true -> word_stop r = true -> word_run (w +++ r) = (w, r).
Proof.
  intros A S. induction w as [|c w IH].
  - change ("" +++ r) with r. destruct r as [|d r]; [reflexivity|].
    unfold word_stop in S. apply negb_true_iff in S.
    rewrite word_run_cons, S. reflexivity.
  - change (String c w +++ r) with (String c (w +++ r)).
    change (all_word (String c w)) with (Text.is_word c && all_word w) in A.
    apply andb_prop in A. destruct A as [W A].
    rewrite word_run_cons, W, (IH A). reflexivity.
Qed.

Lemma prefix_one_app (a : ascii) (t y y' : string) :
  String.prefix (String a "") (t +++ close +++ y)
  = String.prefix (String a "") (t +++ close +++ y').
Proof.
  destruct t as [|b t]; simpl.
  - destruct (ascii_dec a ")"); reflexivity.
  - destruct (ascii_dec a b); [|reflexivity].
    destruct (t +++ String ")" (String "]" y));
      destruct (t +++ String ")" (String "]" y')); reflexivity.
Qed.

Lemma line_terminator_app (c : ascii) (t y y' : string) :
  line_terminator_at (String c (t +++ close +++ y))
  = line_terminator_at (String c (t +++ close +++ y')).
Proof. destruct t as [|a [|b t]]; reflexivity. Qed.

(** What [lazy_args] finds does not depend on what follows the closing
    [")]"]. *)
Lemma lazy_args_stable (x t y : string) :
  lazy_args x = Some (t, y) ->
  x = t +++ close +++ y
  /\ forall y', lazy_args (t +++ close +++ y') = Some (t, y').
Proof.
  revert t y. induction x as [|c r IH]; intros t y H; [discriminate|].
  unfold lazy_args in H; fold lazy_args in H.
  destruct (Ascii.eqb c ")" && String.prefix "]" r) eqn:C.
  - injection H as <- <-. apply andb_prop in C. destruct C as [C1 C2].
    apply Ascii.eqb_eq in C1. subst c.
    destruct (prefix_inv _ _ C2) as [r' ->]. split; [reflexivity|].
    intros y'. destruct y'; reflexivity.
  - destruct (line_terminator_at (String c r)) eqn:L; [discriminate|].
    destruct (lazy_args r) as [[t' y0]|] eqn:E; [|discriminate].
    injection H as <- <-.
    destruct (IH t' y0 eq_refl) as [-> K]. split; [reflexivity|].
    intros y'. change (String c t' +++ close +++ y')
      with (String c (t' +++ close +++ y')).
    unfold lazy_args; fold lazy_args.
    rewrite (prefix_one_app "]" t' y' y0), C.
    rewrite (line_terminator_app c t' y' y0), L, (K y'). reflexivity.
Qed.

Lemma span_args_app (w t rest : string) :
  String "[" (w +++ String "(" (t +++ ")]")) +++ rest
  = String "[" (w +++ String "(" (t +++ close +++ rest)).
Proof.
  cbn [String.append]. f_equal.
  rewrite append_assoc. cbn [String.append]. f_equal. f_equal.
  rewrite append_assoc. reflexivity.
Qed.

Lemma span_plain_app (w rest : string) :
  String "[" (w +++ "]") +++ rest = String "[" (w +++ String "]" rest).
Proof.
  cbn [String.append]. f_equal. rewrite append_assoc. reflexivity.
Qed.

Lemma bracket_at_args (w t rest : string) :
  all_word w = true -> Text.is_empty w = false ->
  lazy_args (t +++ close +++ rest) = Some (t, rest) ->
  bracket_at (String "[" (w +++ String "(" (t +++ close +++ rest)))
  = Some {| span := "[" +++ w +++ "(" +++ t +++ close; ident := w; args := Some t |}.
Proof.
  intros A E L. unfold bracket_at.
  change (Ascii.eqb "[" "[") with true. cbv iota.
  rewrite (word_run_app w (String "(" (t +++ close +++ rest)) A eq_refl), E.
  change (Ascii.eqb "(" "(") with true. cbv iota.
  rewrite L. reflexivity.
Qed.

Lemma bracket_at_plain (w rest : string) :
  all_word w = true -> Text.is_empty w = false ->
  bracket_at (String "[" (w +++ String "]" rest))
  = Some {| span := "[" +++ w +++ "]"; ident := w; args := None |}.
Proof.
  intros A E. unfold bracket_at.
  change (Ascii.eqb "[" "[") with true. cbv iota.
  rewrite (word_run_app w (String "]" rest) A eq_refl), E. reflexivity.
Qed.

Lemma bracket_at_spec (s : string) (m : bracket_match) :
  bracket_at s = Some m ->
  shape m /\ well_formed m /\ exists rest, s = span m +++ rest.
Proof.
  unfold bracket_at. intros H.
  destruct s as [|b r]; [discriminate|].
  destruct (Ascii.eqb b "[") eqn:B; [|discriminate].
  apply Ascii.eqb_eq in B. subst b.
  destruct (word_run r) as [w r1] eqn:W.
  destruct (word_run_spec _ _ _ W) as (-> & A & S).
  destruct (Text.is_empty w) eqn:Ew; [discriminate|].
  assert (Hw : w <> EmptyString) by (intros ->; discriminate).
  destruct r1 as [|c r2]; [discriminate|].
  destruct (Ascii.eqb c "(") eqn:C1.
  - apply Ascii.eqb_eq in C1. subst c.
    destruct (lazy_args r2) as [[t y]|] eqn:L; [|discriminate].
    injection H as <-. destruct (lazy_args_stable _ _ _ L) as [-> K].
    split; [repeat split; auto|]. split.
    + intros rest. cbn [span]. rewrite span_args_app.
      rewrite (bracket_at_args w t rest A Ew (K rest)). discriminate.
    + exists y. cbn [span]. rewrite span_args_app. reflexivity.
  - destruct (Ascii.eqb c "]") eqn:C2; [|discriminate].
    apply Ascii.eqb_eq in C2. subst c. injection H as <-.
    split; [repeat split; auto|]. split.
    + intros rest. cbn [span]. rewrite span_plain_app.
      rewrite (bracket_at_plain w rest A Ew). discriminate.
    + exists r2. cbn [span]. rewrite span_plain_app. reflexivity.
Qed.

Lemma span_starts (m : bracket_match) :
  shape m -> exists p, span m = String "[" p /\ Text.includes p "]" = true.
Proof.
  intros (_ & _ & S). destruct (args m) as [a|]; rewrite S.
  - exists (ident m +++ "(" +++ a +++ close). split; [reflexivity|].
    apply includes_app_r. apply includes_later. apply includes_app_r.
    apply includes_later. apply includes_here.
  - exists (ident m +++ "]"). split; [reflexivity|].
    apply includes_app_r. apply includes_here.
Qed.

(** The leftmost match: the content splits around its span, which does
    not occur earlier, so that removing the first occurrence of the span
    removes the match. *)
Lemma match_bracket_split (content : string) (m : bracket_match) :
  match_bracket content = Some m ->
  shape m /\ well_formed m
  /\ exists pre post,
      content = pre +++ span m +++ post
      /\ Text.remove_first (span m) content = pre +++ post.
Proof.
  induction content as [|c r IH]; intros H.
  - simpl in H. discriminate.
  - unfold match_bracket in H; fold match_bracket in H.
    destruct (bracket_at (String c r)) as [m'|] eqn:B.
    + injection H as ->. destruct (bracket_at_spec _ _ B) as (S & W & rest & E).
      split; [exact S|]. split; [exact W|].
      exists EmptyString, rest. split; [exact E|].
      rewrite E. apply remove_first_prefix.
    + destruct (IH H) as (S & W & pre & post & E & R).
      split; [exact S|]. split; [exact W|].
      exists (String c pre), post. split; [rewrite E; reflexivity|].
      rewrite remove_first_unfold.
      destruct (String.prefix (span m) (String c r)) eqn:P.
      * exfalso. destruct (prefix_inv _ _ P) as [t Et].
        apply (W t). rewrite <- Et. exact B.
      * rewrite R. reflexivity.
Qed.

Lemma match_bracket_includes (content : string) (m : bracket_match) :
  match_bracket content = Some m ->
  Text.includes content "[" && Text.includes content "]" = true.
Proof.
  intros H. destruct (match_bracket_split _ _ H) as (S & _ & pre & post & -> & _).
  destruct (span_starts m S) as (p & -> & I).
  apply andb_true_intro. split.
  - apply includes_app_r. apply includes_here.
  - apply includes_app_r. apply includes_later.
    apply (includes_app_l p post "]"). exact I.
Qed.

Lemma in_manifest_iff (mcpTools : list ToolDef) (n : string) :
  in_manifest mcpTools (str n) = true <-> exists t, In t mcpTools /\ name t = n.
Proof.
  unfold in_manifest. rewrite existsb_exists. split.
  - intros (t & I & E). exists t. split; [exact I|].
    simpl in E. apply String.eqb_eq in E. exact E.
  - intros (t & I & <-). exists t. split; [exact I|].
    simpl. apply String.eqb_refl.
Qed.

Lemma resolve_bracket (now : Z) (mcpTools : list ToolDef) (content : string)
  (m : bracket_match) :
  json_sniff now content = None ->
  match_bracket content = Some m ->
  resolve now mcpTools content [] =
    if in_manifest mcpTools (str (ident m))
    then (synthesized (bracket_call_id now) (str (ident m)) (bracket_args m),
          Text.trim (Text.remove_first (span m) content))
    else ([], content).
Proof.
  intros J M. unfold resolve. simpl is_nil. cbv iota. rewrite J.
  simpl is_nil. cbv iota. unfold bracket_sniff.
  rewrite (match_bracket_includes _ _ M), M.
  destruct (in_manifest mcpTools (str (ident m))); reflexivity.
Qed.

Lemma bracket_args_cases (m : bracket_match) :
  (args m = None \/ args m = Some EmptyString -> bracket_args m = obj [])
  /\ (forall a v, args m = Some a -> a <> EmptyString ->
                  JSON.parse a = Normal v -> bracket_args m = v)
  /\ (forall a e, args m = Some a -> a <> EmptyString ->
                  JSON.parse a = Throw e ->
                  bracket_args m = obj [("input", str a)]).
Proof.
  unfold bracket_args. repeat split.
  - intros [E|E]; rewrite E; reflexivity.
  - intros a v E Ha P. rewrite E, P. destruct a; [congruence|reflexivity].
  - intros a e E Ha P. rewrite E, P. destruct a; [congruence|reflexivity].
Qed.

(** C5, as amended: when the Native and JsonSniff tiers produced nothing
    and the content matches the bracket pattern (the leftmost match [m],
    whose span is [[ident]] or [[ident(args)]] with a non-empty
    identifier of word characters): if the identifier names a tool of the
    manifest, the resolver produces exactly one invocation of it, with
    empty arguments when there are no parentheses or nothing between
    them, else with the parsed arguments when they parse as JSON and
    [{input: args}] when they do not, and the content becomes what
    surrounded the span, trimmed; if the identifier is not in the
    manifest, it produces no invocation and leaves the content untouched. *)
Theorem bracket_sniff_resolves (now : Z) (mcpTools : list ToolDef)
  (content : string) (m : bracket_match) :
  json_sniff now content = None ->
  match_bracket content = Some m ->
  shape m
  /\ exists pre post,
      content = pre +++ span m +++ post
      /\ ((exists t, In t mcpTools /\ name t = ident m) ->
          exists toolArgs,
            resolve now mcpTools content [] =
              (synthesized (bracket_call_id now) (str (ident m)) toolArgs,
               Text.trim (pre +++ post))
            /\ (args m = None \/ args m = Some EmptyString -> toolArgs = obj [])
            /\ (forall a v, args m = Some a -> a <> EmptyString ->
                            JSON.parse a = Normal v -> toolArgs = v)
            /\ (forall a e, args m = Some a -> a <> EmptyString ->
                            JSON.parse a = Throw e ->
                            toolArgs = obj [("input", str a)]))
      /\ (~ (exists t, In t mcpTools /\ name t = ident m) ->
          resolve now mcpTools content [] = ([], content)).
Proof.
  intros J M.
  destruct (match_bracket_split _ _ M) as (S & _ & pre & post & Ec & Rm).
  pose proof (resolve_bracket now mcpTools content m J M) as R.
  split; [exact S|]. exists pre, post. split; [exact Ec|]. split.
  - intros I. apply in_manifest_iff in I. rewrite I, Rm in R.
    exists (bracket_args m). split; [exact R|]. apply bracket_args_cases.
  - intros N. destruct (in_manifest mcpTools (str (ident m))) eqn:I; [|exact R].
    exfalso. apply N. apply in_manifest_iff. exact I.
Qed.

Lemma bracket_sniff_resolves_witness :
  (exists pre post,
      "[get_current_time]" = pre +++ "[get_current_time]" +++ post
      /\ resolve 17 [clock_tool] "[get_current_time]" []
         = (synthesized (bracket_call_id 17) (str "get_current_time") (obj []),
            Text.trim (pre +++ post)))
  /\ resolve 17 [] "[get_current_time]" [] = ([], "[get_current_time]").
Proof.
  pose (m := {| span := "[get_current_time]"; ident := "get_current_time";
                args := None |}).
  split.
  - destruct (bracket_sniff_resolves 17 [clock_tool] "[get_current_time]" m
                eq_refl eq_refl) as (_ & pre & post & Ec & Y & _).
    exists pre, post. split; [exact Ec|].
    destruct Y as (toolArgs & R & A & _).
    + exists clock_tool. split; [left; reflexivity | reflexivity].
    + rewrite (A (or_introl eq_refl)) in R. exact R.
  - destruct (bracket_sniff_resolves 17 [] "[get_current_time]" m
                eq_refl eq_refl) as (_ & pre & post & _ & _ & N).
    apply N. intros (t & I & _). exact I.
Defined.

(** C5 fails as stated: with empty parentheses the raw arguments do not
    parse as JSON, yet the invocation gets empty arguments, not
    [{input: ""}]. *)
Lemma empty_parentheses_empty_arguments :
  let content := "[get_current_time()]" in
  match_bracket content
  = Some {| span := content; ident := "get_current_time"; args := Some "" |}
  /\ JSON.parse "" = Throw (SyntaxError "Unexpected token in JSON")
  /\ json_sniff 17 content = None
  /\ resolve 17 [clock_tool] content []
     = (synthesized (bracket_call_id 17) (str "get_current_time") (obj []), "").
Proof. vm_compute. repeat split. Qed.

End ResolverFacts.

(* ===================================================================== *)
(** * Properties of the tool executor *)
(* ===================================================================== *)

Module ExecutorFacts.
Import JS.
Import Executor.
Import ExecutorProps.

Lemma get_not_null (data : value) (k : string) :
  data <> null -> data <> undefined -> get data k = Normal (get_own data k).
Proof. destruct data; intros; try reflexivity; congruence. Qed.

(** What parsing yields is never [undefined]. *)
Lemma parse_value_defined (fuel : nat) :
  (forall s v rest, JSON.parse_value fuel s = Some (v, rest) -> v <> undefined)
  /\ (forall acc s v rest, JSON.parse_elements fuel acc s = Some (v, rest) -> v <> undefined)
  /\ (forall acc s v rest, JSON.parse_members fuel acc s = Some (v, rest) -> v <> undefined).
Proof.
  induction fuel as [|fuel (IHv & IHe & IHm)].
  - repeat split; intros; discriminate.
  - repeat split.
    + intros s v rest H. simpl in H. unfold JSON.literal in H.
      repeat (break_match_hyp H; try discriminate);
        try (injection H as <- _; discriminate);
        try (eapply IHm; eassumption); try (eapply IHe; eassumption).
    + intros acc s v rest H. simpl in H.
      repeat (break_match_hyp H; try discriminate);
        try (injection H as <- _; discriminate);
        try (eapply IHe; eassumption).
    + intros acc s v rest H. simpl in H.
      repeat (break_match_hyp H; try discriminate);
        try (injection H as <- _; discriminate);
        try (eapply IHm; eassumption).
Qed.

Lemma parse_defined (text : string) (v : value) :
  JSON.parse text = Normal v -> v <> undefined.
Proof.
  unfold JSON.parse. intros H.
  destruct (JSON.parse_value _ _) as [[v' rest]|] eqn:P; [|discriminate].
  destruct (Text.is_empty _); [|discriminate]. injection H as <-.
  eapply (proj1 (parse_value_defined _)); eassumption.
Qed.

(** C8, as amended: [executeMcpTool] issues one request and never throws:
    whatever the reply, it returns a value.  A rejected request, a body
    that is not JSON and a [null] body give the string
    ["Error: Tool execution failed. "] followed by the message of the
    error.  Otherwise the result is the first truthy (so, for a text, the
    first non-empty) of: the [text] of the first element of the result's
    [content], the result's [text], the JSON-stringified result; and
    ["Tool returned no data."] when none is.  The status of the response
    is not looked at. *)
Theorem executeMcpTool_returns (r : Net.reply) :
  (exists v, executeMcpTool r = Normal v)
  /\ (forall e, r = Net.Rejected e -> executeMcpTool r = Normal (failure e))
  /\ (forall ok status body e,
        r = Net.Response ok status body -> JSON.parse body = Throw e ->
        executeMcpTool r = Normal (failure e))
  /\ (forall ok status body,
        r = Net.Response ok status body -> JSON.parse body = Normal null ->
        exists e, executeMcpTool r = Normal (failure e))
  /\ (forall ok status body data,
        r = Net.Response ok status body -> JSON.parse body = Normal data ->
        data <> null ->
        let result := get_own data "result" in
        executeMcpTool r =
          Normal (first_truthy
                    [content_text result; flat_text result; stringified result]
                    no_data))
  /\ (forall toolName args serverUrl now,
        List.length (requests toolName args serverUrl now) = 1).
Proof.
  split; [|repeat split].
  - unfold executeMcpTool. destruct (attempt r); eauto.
  - intros e ->. reflexivity.
  - intros ok status body e -> P. unfold executeMcpTool, attempt.
    rewrite P. reflexivity.
  - intros ok status body -> P. unfold executeMcpTool, attempt.
    rewrite P. simpl. eauto.
  - intros ok status body data -> P N result. unfold executeMcpTool, attempt.
    rewrite P. cbn [bind].
    unfold result_of. rewrite (get_not_null data "result" N (parse_defined _ _ P)).
    cbn [bind]. fold result. fold (content_text result). fold (flat_text result).
    generalize (content_text result) (flat_text result) (stringified result).
    intros a b c. unfold first_truthy, or_else. cbn [find].
    destruct (truthy a) eqn:Ta; [rewrite Ta; reflexivity|].
    destruct (truthy b) eqn:Tb; [rewrite Tb; reflexivity|].
    destruct (truthy c) eqn:Tc; reflexivity.
Qed.

(** C8 fails as stated: a result whose [content] array has a first [text]
    field that is present but empty is not answered with that text; the
    flat [text] is taken, or the whole result stringified. *)
Lemma empty_text_is_passed_over :
  let present := JSON.text "{'result':{'content':[{'text':''}],'text':'plain'}}" in
  let alone := JSON.text "{'result':{'content':[{'text':''}]}}" in
  (exists data, JSON.parse present = Normal data
                /\ content_text (get_own data "result") = str ""
                /\ executeMcpTool (Net.Response true 200 present)
                   = Normal (str "plain"))
  /\ (exists data, JSON.parse alone = Normal data
                   /\ content_text (get_own data "result") = str ""
                   /\ executeMcpTool (Net.Response true 200 alone)
                      = Normal (str (JSON.text "{'content':[{'text':''}]}"))).
Proof.
  split; eexists; (split; [vm_compute; reflexivity|]); split; vm_compute; reflexivity.
Qed.

End ExecutorFacts.

(* ===================================================================== *)
(** * Properties of the registry poller *)
(* ===================================================================== *)

Module RegistryFacts.
Import JS.
Import Registry.
Import RegistryProps.

Lemma probe_all_nth (replies : nat -> Net.reply) (servers : list McpServer) :
  forall i k,
    nth_error (probe_all i replies servers) k
    = option_map (fun s => probe s (replies (i + k))) (nth_error servers k).
Proof.
  induction servers as [|s rest IH]; intros i k.
  - destruct k; reflexivity.
  - destruct k as [|k]; simpl.
    + rewrite Nat.add_0_r. reflexivity.
    + rewrite IH. rewrite Nat.add_succ_r. reflexivity.
Qed.

(** The state after a poll is the snapshot of the probes, or the old
    state when the two serialise alike. *)
Lemma syncTools_cases (replies : nat -> Net.reply) (servers : list McpServer) :
  syncTools replies servers = probe_all 0 replies servers
  \/ syncTools replies servers = servers.
Proof. unfold syncTools. destruct (changed _ _); auto. Qed.

Lemma syncTools_nth (replies : nat -> Net.reply) (servers : list McpServer)
  (k : nat) (s s' : McpServer) :
  nth_error servers k = Some s ->
  nth_error (syncTools replies servers) k = Some s' ->
  s' = probe s (replies k) \/ s' = s.
Proof.
  intros H H'. destruct (syncTools_cases replies servers) as [E|E];
    rewrite E in H'.
  - rewrite probe_all_nth, H in H'. simpl in H'. injection H' as <-. auto.
  - right. congruence.
Qed.

Lemma probe_offline (s : McpServer) (r : Net.reply) :
  status s = online -> status (probe s r) = offline ->
  raised r /\ tools (probe s r) = arr [] /\ toolCount (probe s r) = num (of_Z 0).
Proof.
  intros On Off. unfold probe in *. destruct r as [e|ok st body].
  - unfold on_failure in *. rewrite On in *. simpl. auto.
  - destruct ok; [|simpl in Off; discriminate].
    destruct (bind (JSON.parse body) tools_of) as [new_tools|e] eqn:B.
    + destruct (needs_update s new_tools); simpl in Off; discriminate.
    + unfold on_failure in *. rewrite On in *. simpl. eauto.
Qed.

Lemma probe_raised_offline (s : McpServer) (r : Net.reply) :
  status s = offline -> raised r -> probe s r = s.
Proof.
  intros Off R. unfold probe. destruct r as [e|ok st body].
  - unfold on_failure. rewrite Off. reflexivity.
  - destruct R as [-> [e B]]. rewrite B. unfold on_failure. rewrite Off. reflexivity.
Qed.

(** C9, as amended: across a poll, an endpoint's status goes from online
    to offline only when its probe raised (the request was rejected or
    timed out, or the body of a success response could not be read), and
    then its cached tools are cleared and its tool count is zero; a probe
    that raises on an endpoint that was already offline leaves the
    endpoint as it was. *)
Theorem offline_only_on_raise (replies : nat -> Net.reply)
  (servers : list McpServer) (k : nat) (s s' : McpServer) :
  nth_error servers k = Some s ->
  nth_error (syncTools replies servers) k = Some s' ->
  (status s = online -> status s' = offline ->
   raised (replies k) /\ tools s' = arr [] /\ toolCount s' = num (of_Z 0))
  /\ (status s = offline -> raised (replies k) -> s' = s).
Proof.
  intros H H'. destruct (syncTools_nth _ _ _ _ _ H H') as [-> | ->].
  - split.
    + apply probe_offline.
    + apply probe_raised_offline.
  - split.
    + intros On Off. congruence.
    + reflexivity.
Qed.

Lemma offline_only_on_raise_witness :
  nth_error (syncTools (fun _ => timeout) [up]) 0 = Some down
  /\ raised timeout /\ tools down = arr [] /\ toolCount down = num (of_Z 0).
Proof.
  assert (E : nth_error (syncTools (fun _ => timeout) [up]) 0 = Some down)
    by (vm_compute; reflexivity).
  split; [exact E|].
  exact (proj1 (offline_only_on_raise (fun _ => timeout) [up] 0 up down eq_refl E)
           eq_refl eq_refl).
Defined.

(** C9 fails as stated: a probe of an offline endpoint that is answered
    with a non-success status is not a successful probe, yet the endpoint
    does not stay as it was: it is marked online. *)
Lemma error_status_marks_online :
  let r := Net.Response false 500 "Internal Server Error" in
  (forall new_tools, ~ listed r new_tools)
  /\ syncTools (fun _ => r) [down]
     = [ {| name := "Time & Weather"; url := "http://localhost:8000";
            status := online; toolCount := num (of_Z 0); tools := arr [] |} ]
  /\ syncTools (fun _ => r) [down] <> [down].
Proof.
  split; [|split; [vm_compute; reflexivity | vm_compute; discriminate]].
  intros new_tools (st & body & E & _). discriminate.
Qed.

(** ** Replacement of the cached tools *)

Lemma serialize_total (servers : list McpServer) :
  exists t, serialize servers = Some t.
Proof. unfold serialize. eexists. reflexivity. Qed.

(** The snapshot of a poll is committed exactly when its serialisation
    differs from that of the state. *)
Lemma syncTools_commits (replies : nat -> Net.reply) (servers : list McpServer) :
  exists old new,
    serialize servers = Some old
    /\ serialize (probe_all 0 replies servers) = Some new
    /\ (new <> old -> syncTools replies servers = probe_all 0 replies servers)
    /\ (new = old -> syncTools replies servers = servers).
Proof.
  destruct (serialize_total servers) as [old O].
  destruct (serialize_total (probe_all 0 replies servers)) as [new N].
  exists old, new. split; [exact O|]. split; [exact N|].
  unfold syncTools, changed. rewrite O, N.
  destruct (String.eqb_spec new old) as [E|E]; split; intros H;
    try reflexivity; contradiction.
Qed.

Lemma probe_listed (s : McpServer) (r : Net.reply) (new_tools : value) :
  listed r new_tools ->
  probe s r =
    if needs_update s new_tools
    then {| name := name s; url := url s; status := online;
            toolCount := get_own new_tools "length"; tools := new_tools |}
    else mark_online s.
Proof.
  intros (st & body & -> & B). unfold probe. rewrite B. reflexivity.
Qed.

(** C3, as amended: after a successful probe, the endpoint's entry in the
    snapshot the poll computes is online; its cached tool list and tool
    count are those of the response when the endpoint was offline, had no
    cached list, or had a cached list of another length; an endpoint that
    was online with a cached list of the same length keeps its cached
    list and count as they were.  The snapshot becomes the state unless
    it serialises like the old state, which is then kept. *)
Theorem probe_replaces_tools (replies : nat -> Net.reply)
  (servers : list McpServer) (k : nat) (s : McpServer) (new_tools : value) :
  nth_error servers k = Some s ->
  listed (replies k) new_tools ->
  let updatedServers := probe_all 0 replies servers in
  exists s',
    nth_error updatedServers k = Some s'
    /\ status s' = online /\ name s' = name s /\ url s' = url s
    /\ (status s = offline \/ truthy (tools s) = false
        \/ same_length (tools s) new_tools = false ->
        tools s' = new_tools /\ toolCount s' = get_own new_tools "length")
    /\ (status s = online -> truthy (tools s) = true ->
        same_length (tools s) new_tools = true -> s' = s)
    /\ (syncTools replies servers = updatedServers
        \/ syncTools replies servers = servers)
    /\ exists old new,
         serialize servers = Some old /\ serialize updatedServers = Some new
         /\ (new <> old -> syncTools replies servers = updatedServers)
         /\ (new = old -> syncTools replies servers = servers).
Proof.
  intros H L updatedServers. exists (probe s (replies k)).
  split. { unfold updatedServers. rewrite probe_all_nth, H. reflexivity. }
  rewrite (probe_listed s _ _ L). unfold needs_update. fold (same_length (tools s) new_tools).
  repeat split.
  - destruct (_ || _ || _); reflexivity.
  - destruct (_ || _ || _); reflexivity.
  - destruct (_ || _ || _); reflexivity.
  - assert (N : is_offline (status s) || negb (truthy (tools s))
                || negb (same_length (tools s) new_tools) = true).
    { destruct H0 as [E|[E|E]]; rewrite E; simpl;
        repeat rewrite orb_true_r; reflexivity. }
    rewrite N. reflexivity.
  - assert (N : is_offline (status s) || negb (truthy (tools s))
                || negb (same_length (tools s) new_tools) = true).
    { destruct H0 as [E|[E|E]]; rewrite E; simpl;
        repeat rewrite orb_true_r; reflexivity. }
    rewrite N. reflexivity.
  - intros On T Sl. rewrite On, T, Sl. simpl.
    unfold mark_online. destruct s; simpl in *. subst. reflexivity.
  - apply syncTools_cases.
  - apply syncTools_commits.
Qed.

Lemma probe_replaces_tools_witness :
  exists s',
    nth_error (probe_all 0 (fun _ => lists_time) [down]) 0 = Some s'
    /\ status s' = online /\ tools s' = arr [time_tool]
    /\ toolCount s' = num (of_Z 1)
    /\ syncTools (fun _ => lists_time) [down]
       = [ {| name := "Time & Weather"; url := "http://localhost:8000";
              status := online; toolCount := num (of_Z 1);
              tools := arr [time_tool] |} ].
Proof.
  destruct (probe_replaces_tools (fun _ => lists_time) [down] 0 down
              (arr [time_tool]) eq_refl)
    as (s' & N & St & _ & _ & R & _ & _ & old & new & O & U & C & _).
  - exists 200%Z, (JSON.text "{'result':{'tools':[{'name':'get_current_time'}]}}").
    split; [reflexivity | vm_compute; reflexivity].
  - exists s'. destruct (R (or_introl eq_refl)) as [T Cn].
    split; [exact N|]. split; [exact St|]. split; [exact T|]. split; [exact Cn|].
    rewrite C; [reflexivity|].
    vm_compute in O, U. injection O as <-. injection U as <-. discriminate.
Defined.

(** C3 fails as stated: an online endpoint whose cached list has one
    tool, probed successfully with a list of one other tool, keeps the
    stale list. *)
Lemma same_length_stays_stale :
  listed lists_time (arr [time_tool])
  /\ syncTools (fun _ => lists_time) [up] = [up]
  /\ tools up = arr [weather_tool]
  /\ weather_tool <> time_tool
  /\ probe_all 0 (fun _ => lists_time) [up] = [up].
Proof.
  split.
  - exists 200%Z, (JSON.text "{'result':{'tools':[{'name':'get_current_time'}]}}").
    split; [reflexivity | vm_compute; reflexivity].
  - split; [vm_compute; reflexivity|]. split; [reflexivity|].
    split; [discriminate | vm_compute; reflexivity].
Qed.

End RegistryFacts.

(* ===================================================================== *)
(** * Properties of the workflow sequencer *)
(* ===================================================================== *)

Module WorkflowFacts.
Import JS.
Import Workflow.
Import WorkflowProps.


Lemma update_at_nth (f : Log.t -> Log.t) (logs : list Log.t) :
  forall i j,
    nth_error (update_at i f logs) j
    = if Nat.eqb j i then option_map f (nth_error logs j) else nth_error logs j.
Proof.
  induction logs as [|l r IH]; intros i j.
  - destruct i, j; simpl; try reflexivity; destruct (Nat.eqb j i); reflexivity.
  - destruct i as [|i], j as [|j]; simpl; try reflexivity. apply IH.
Qed.

Lemma update_at_other (f : Log.t -> Log.t) (logs : list Log.t) (i j : nat) :
  j <> i -> nth_error (update_at i f logs) j = nth_error logs j.
Proof.
  intros N. rewrite update_at_nth.
  destruct (Nat.eqb_spec j i); [contradiction|reflexivity].
Qed.

Lemma update_at_same (f : Log.t -> Log.t) (logs : list Log.t) (i : nat) :
  nth_error (update_at i f logs) i = option_map f (nth_error logs i).
Proof. rewrite update_at_nth, Nat.eqb_refl. reflexivity. Qed.

Section Run.
Variable reply : nat -> Net.reply.
Variable agents : list Agent.t.
Variable finalInput : string.


End Run.

Lemma initialLogs_nth (agents : list Agent.t) (w : t) (j : nat) :
  nth_error (initialLogs agents w) j
  = option_map
      (fun step =>
         {| Log.stepId := Step.id step;
            Log.agentName :=
              match find_agent agents step with
              | Some a => if Text.is_empty (Agent.name a) then "Unknown Agent"
                          else Agent.name a
              | None => "Unknown Agent"
              end;
            Log.output := str "";
            Log.status := Log.pending |}) (nth_error (steps w) j).
Proof. unfold initialLogs. apply nth_error_map. Qed.




(** The run of the example, computed: step 1 completed with its output,
    step 2 in error with the message of the failure, step 3 pending, and
    requests for the steps at indices 0 and 1 only. *)
Lemma three_step_example :
  map Log.status (fst three_step_run) = [Log.completed; Log.error; Log.pending]
  /\ map Log.output (fst three_step_run)
     = [str "A draft."; str "Execution failed: Agent Writer failed: model not found";
        str ""]
  /\ map fst (snd three_step_run) = [0; 1].
Proof. vm_compute. repeat split. Qed.

End WorkflowFacts.

(* ===================================================================== *)
(** * Properties of the conversation loop *)
(* ===================================================================== *)

Module ConversationFacts.
Import JS.
Import Manifest.
Import Conversation.
Import ConversationProps.

Lemma run_call_unknown (w : World) (mcpTools : list ToolDef) (idx : nat)
  (call : value) (st : round) :
  unknown mcpTools call -> run_call w mcpTools idx call st = (st, None).
Proof.
  intros (toolName & toolArgs & T & F). unfold run_call. rewrite T, F. reflexivity.
Qed.

Lemma run_calls_unknown (w : World) (mcpTools : list ToolDef) (calls : list value) :
  Forall (unknown mcpTools) calls ->
  forall idx st, run_calls w mcpTools idx calls st = (st, None).
Proof.
  induction 1 as [|call rest U _ IH]; intros idx st; simpl.
  - reflexivity.
  - rewrite (run_call_unknown w mcpTools idx call st U). apply IH.
Qed.

Section Turn.
Variable w : World.
Variable mcpEnabled : bool.
Variable mcpTools : list ToolDef.
Variable chunks : list string.
Variable t : turn.

Let d := Decoder.readStream chunks (arr (mcpContext t)) (session t).
Let resolved :=
  Resolver.resolve (fallback_now w) mcpTools
    (Decoder.assistantMessageContent d) (Decoder.toolCalls d).
Let message := toolCallMessage (Decoder.fullMessage d) (snd resolved).
Let start : round :=
  {| toolResponses := []; sources := mcpContext t; issued := requests t |}.
Let after := after_first_response w mcpEnabled mcpTools chunks t.

Lemma after_tool_round (r : round) :
  fst resolved <> [] ->
  run_calls w mcpTools 0 (fst resolved) start = (r, None) ->
  history (fst after) = history t ++ message :: toolResponses r
  /\ requests (fst after)
     = issued r ++ [Net.ChatStream (history t ++ message :: toolResponses r)
                      (tools_param mcpEnabled mcpTools)].
Proof.
  intros N R. unfold after, after_first_response.
  fold d. fold resolved. unfold message.
  destruct resolved as [toolCalls content] eqn:E. cbn [fst snd] in *.
  destruct toolCalls as [|c cs]; [congruence|]. cbn [Resolver.is_nil].
  fold start. rewrite R.
  destruct (chat (followup w) false); cbn [fst history requests]; split; reflexivity.
Qed.

(** C10: an invocation whose tool name is not in the manifest of the turn
    is passed over by the loop: nothing is executed for it and no tool
    message is added.  When the loop over the invocations completes, the
    assistant message and the tool messages are appended to the history
    and the follow-up request is issued with that history.  So when every
    resolved invocation names an unknown tool, no [tools/call] request is
    issued and the follow-up request carries the history, the assistant
    message and no tool message. *)
Theorem unknown_tools_are_skipped :
  (forall idx call st,
      unknown mcpTools call -> run_call w mcpTools idx call st = (st, None))
  /\ (forall r,
        fst resolved <> [] ->
        run_calls w mcpTools 0 (fst resolved) start = (r, None) ->
        history (fst after) = history t ++ message :: toolResponses r
        /\ requests (fst after)
           = issued r ++ [Net.ChatStream (history t ++ message :: toolResponses r)
                            (tools_param mcpEnabled mcpTools)])
  /\ (fst resolved <> [] ->
      Forall (unknown mcpTools) (fst resolved) ->
      history (fst after) = history t ++ [message]
      /\ requests (fst after)
         = requests t ++ [Net.ChatStream (history t ++ [message])
                            (tools_param mcpEnabled mcpTools)]).
Proof.
  split; [|split].
  - intros idx call st. apply run_call_unknown.
  - apply after_tool_round.
  - intros N U.
    apply (after_tool_round start N (run_calls_unknown w mcpTools _ U 0 start)).
Qed.

End Turn.

Lemma unknown_tools_are_skipped_witness :
  requests (fst (sniffing_turn []))
  = [Net.ChatStream [system_message; user_message] None;
     Net.ChatStream [system_message; user_message;
                     obj [("role", str "assistant"); ("content", str "")]] None].
Proof.
  pose (t0 := {| history := [system_message; user_message];
                 session := [user_message]; mcpContext := []; content := "";
                 requests := [Net.ChatStream [system_message; user_message] None] |}).
  destruct (unknown_tools_are_skipped sniffing_world true []
              [sniffed_line +++ Text.newline] t0) as (_ & _ & A).
  destruct A as [_ R].
  - vm_compute. discriminate.
  - vm_compute. constructor; [|constructor].
    exists (str "get_weather"), (obj [("city", str "Rome")]). split; reflexivity.
  - change (sniffing_turn [])
      with (after_first_response sniffing_world true []
              [sniffed_line +++ Text.newline] t0).
    rewrite R. vm_compute. reflexivity.
Defined.

(** C2 at a turn resolved by JSON sniffing, with the tool in the manifest:
    the tool is called and the follow-up request carries, after the
    history, an assistant message and the tool message, in that order;
    the tool message bears the synthesized call id, and the assistant
    message has no [tool_calls] field at all: it is the last streamed
    message with its content replaced. *)
Lemma sniffed_call_not_in_assistant_message :
  let assistant := obj [("role", str "assistant"); ("content", str "")] in
  let tool := obj [("role", str "tool"); ("content", str "Sunny");
                   ("tool_call_id", str "call_fallback_json_17")] in
  requests (fst (sniffing_turn [weather]))
  = [Net.ChatStream [system_message; user_message] (Some [weather]);
     Net.ToolsCall "http://localhost:8000" "get_weather"
       (obj [("city", str "Rome")]) 18;
     Net.ChatStream [system_message; user_message; assistant; tool]
       (Some [weather])]
  /\ get_own assistant "tool_calls" = undefined
  /\ snd (sniffing_turn [weather]) = None.
Proof. vm_compute. repeat split. Qed.

(** C2 at a turn with a native tool call that carries an id: the call
    arrives in one streamed message and the stream ends with another; the
    assistant message appended is built from the last one, and so has no
    [tool_calls] field either. *)
Lemma native_call_not_in_assistant_message :
  let assistant := obj [("role", str "assistant"); ("content", str "")] in
  let tool := obj [("role", str "tool"); ("content", str "Sunny");
                   ("tool_call_id", str "call_1")] in
  history (fst (handleSendMessage native_world true [weather] "You are helpful."
                  [user_message] []))
  = [system_message; user_message; assistant; tool]
  /\ get_own assistant "tool_calls" = undefined.
Proof. vm_compute. repeat split. Qed.

End ConversationFacts.

(* ===================================================================== *)
(** * Properties of objects and of the session messages *)
(* ===================================================================== *)

Module ObjectFacts.
Import JS.

Lemma lookup_replace_other (k k' : string) (v : value) (fs : list (string * value)) :
  String.eqb k k' = false -> lookup k' (replace_field k v fs) = lookup k' fs.
Proof.
  intros H. induction fs as [|[k0 v0] r IH]; [reflexivity|].
  simpl. destruct (String.eqb k0 k) eqn:E.
  - apply String.eqb_eq in E. subst k0. simpl. rewrite H. reflexivity.
  - simpl. rewrite IH. reflexivity.
Qed.

Lemma lookup_insert_other (k k' : string) (v : value) (fs : list (string * value)) :
  String.eqb k k' = false -> lookup k' (insert_new k v fs) = lookup k' fs.
Proof.
  intros H. induction fs as [|[k0 v0] r IH]; simpl.
  - rewrite H. reflexivity.
  - destruct (array_index k), (array_index k0);
      try destruct (Z.ltb _ _); simpl; rewrite ?H, ?IH; reflexivity.
Qed.

Lemma lookup_set_other (k k' : string) (v : value) (fs : list (string * value)) :
  String.eqb k k' = false -> lookup k' (set_field k v fs) = lookup k' fs.
Proof.
  intros H. unfold set_field.
  destruct (lookup k fs); [apply lookup_replace_other | apply lookup_insert_other];
    exact H.
Qed.

Lemma lookup_replace_same (k : string) (v : value) (fs : list (string * value)) :
  lookup k fs <> None -> lookup k (replace_field k v fs) = Some v.
Proof.
  induction fs as [|[k0 v0] r IH]; simpl; [congruence|].
  destruct (String.eqb k0 k) eqn:E; simpl; rewrite E; auto.
Qed.

Lemma lookup_insert_same (k : string) (v : value) (fs : list (string * value)) :
  lookup k fs = None -> lookup k (insert_new k v fs) = Some v.
Proof.
  induction fs as [|[k0 v0] r IH]; simpl.
  - rewrite String.eqb_refl. reflexivity.
  - destruct (String.eqb k0 k) eqn:E; [discriminate|]. intros H.
    destruct (array_index k), (array_index k0);
      try destruct (Z.ltb _ _); simpl; rewrite ?String.eqb_refl, ?E; auto.
Qed.

Lemma lookup_set_same (k : string) (v : value) (fs : list (string * value)) :
  lookup k (set_field k v fs) = Some v.
Proof.
  unfold set_field. destruct (lookup k fs) eqn:E.
  - apply lookup_replace_same. congruence.
  - apply lookup_insert_same, E.
Qed.

End ObjectFacts.

Module SessionFacts.
Import JS.
Import Session.
Import SessionProps.
Import ObjectFacts.

Lemma is_assistant_obj (m : value) :
  is_assistant m -> exists fs, m = obj fs /\ lookup "role" fs = Some (str "assistant").
Proof.
  unfold is_assistant. destruct m; try (intros H; vm_compute in H; discriminate).
  intros H. simpl in H.
  - exists fields. split; [reflexivity|].
    destruct (lookup "role" fields); congruence.
Qed.

Lemma strict_eq_str (v : value) (s : string) : strict_eq v (str s) = true -> v = str s.
Proof.
  destruct v; simpl; try discriminate. intros H. apply String.eqb_eq in H. congruence.
Qed.

Lemma last_assistant (msgs : messages) :
  last_not_assistant msgs = false ->
  msgs <> [] /\ is_assistant (last msgs undefined).
Proof.
  unfold last_not_assistant. intros H. apply negb_false_iff, strict_eq_str in H.
  split.
  - intros ->. discriminate.
  - unfold is_assistant. destruct (last msgs undefined); try discriminate; exact H.
Qed.

Lemma last_app_assistant (base : messages) (m : value) :
  is_assistant m -> last_not_assistant (base ++ [m]) = false.
Proof.
  intros H. unfold last_not_assistant. rewrite last_last.
  destruct (is_assistant_obj m H) as (fs & -> & L).
  simpl. rewrite L. reflexivity.
Qed.

Lemma kept_app_assistant (base : messages) (m : value) :
  is_assistant m -> kept (base ++ [m]) = base.
Proof.
  intros H. unfold kept. rewrite (last_app_assistant base m H).
  apply removelast_last.
Qed.

(** [updateAssistantMessage] rewrites or appends the last message only,
    and leaves an assistant message last. *)
Lemma updateAssistantMessage_shape (content : string) (stats sources : value)
  (msgs : messages) :
  exists m, updateAssistantMessage content stats sources msgs = kept msgs ++ [m]
            /\ is_assistant m.
Proof.
  unfold updateAssistantMessage, kept.
  destruct (last_not_assistant msgs) eqn:E.
  - eexists. split; reflexivity.
  - destruct (last_assistant msgs E) as [_ H].
    destruct (is_assistant_obj _ H) as (fs & Em & L).
    eexists. split; [reflexivity|].
    unfold is_assistant. rewrite Em. simpl.
    rewrite !lookup_set_other by reflexivity. rewrite L. reflexivity.
Qed.

Lemma kept_idem (msgs : messages) (m : value) :
  is_assistant m -> kept (kept msgs ++ [m]) = kept msgs.
Proof. apply kept_app_assistant. Qed.

End SessionFacts.

Module UpdateFacts.
Import JS.
Import Session.
Import SessionProps.
Import SessionFacts.
Import ObjectFacts.

Lemma replace_same (k : string) (v : value) (fs : list (string * value)) :
  lookup k fs = Some v -> replace_field k v fs = fs.
Proof.
  induction fs as [|[k0 v0] r IH]; [reflexivity|].
  simpl. destruct (String.eqb k0 k) eqn:E.
  - intros H. injection H as ->. reflexivity.
  - intros H. rewrite (IH H). reflexivity.
Qed.

Lemma set_same (k : string) (v : value) (fs : list (string * value)) :
  lookup k fs = Some v -> set_field k v fs = fs.
Proof. intros H. unfold set_field. rewrite H. apply replace_same, H. Qed.

Lemma or_else_idem (a b : value) : or_else a (or_else a b) = or_else a b.
Proof. unfold or_else. destruct (truthy a) eqn:E; rewrite ?E; reflexivity. Qed.

Lemma or_else_self (a : value) : or_else a a = a.
Proof. unfold or_else. destruct (truthy a); reflexivity. Qed.

(** A last assistant message that already has the content, and stats
    and sources that the update would keep, is left as it is. *)
Lemma update_fixed (content : string) (stats sources : value) (base : messages)
  (fs : list (string * value)) (y1 y2 : value) :
  lookup "role" fs = Some (str "assistant") ->
  lookup "content" fs = Some (str content) ->
  lookup "stats" fs = Some y1 -> or_else stats y1 = y1 ->
  lookup "sources" fs = Some y2 -> or_else sources y2 = y2 ->
  updateAssistantMessage content stats sources (base ++ [obj fs]) = base ++ [obj fs].
Proof.
  intros R C S1 O1 S2 O2. unfold updateAssistantMessage.
  rewrite last_app_assistant by (unfold is_assistant; cbn [get_own]; rewrite R; reflexivity).
  rewrite removelast_last, last_last. cbn [spread get_own].
  rewrite S1, S2, O1, O2.
  rewrite (set_same "content" _ fs C), (set_same "stats" _ fs S1),
    (set_same "sources" _ fs S2).
  reflexivity.
Qed.

(** X4: [updateAssistantMessage] is idempotent, and it never adds a
    second assistant message in a row: it appends one message when the
    last message is not an assistant message, and rewrites the last
    message otherwise, leaving the messages before it as they are. *)
Theorem updateAssistantMessage_settles (content : string) (stats sources : value)
  (msgs : messages) :
  let updated := updateAssistantMessage content stats sources msgs in
  updateAssistantMessage content stats sources updated = updated
  /\ exists m, updated = kept msgs ++ [m] /\ is_assistant m
               /\ get_own m "content" = str content.
Proof.
  intros updated.
  assert (H : exists fs y1 y2,
             updated = kept msgs ++ [obj fs]
             /\ lookup "role" fs = Some (str "assistant")
             /\ lookup "content" fs = Some (str content)
             /\ lookup "stats" fs = Some y1 /\ or_else stats y1 = y1
             /\ lookup "sources" fs = Some y2 /\ or_else sources y2 = y2).
  { unfold updated, updateAssistantMessage, kept.
    destruct (last_not_assistant msgs) eqn:E.
    - do 3 eexists. split; [reflexivity|].
      repeat split; try reflexivity; apply or_else_self.
    - destruct (last_assistant msgs E) as [_ A].
      destruct (is_assistant_obj _ A) as (fs & Em & L).
      rewrite Em. cbn [spread]. do 3 eexists. split; [reflexivity|].
      split; [rewrite !lookup_set_other by reflexivity; exact L|].
      split; [rewrite !lookup_set_other by reflexivity; apply lookup_set_same|].
      split; [rewrite lookup_set_other by reflexivity; apply lookup_set_same|].
      split; [apply or_else_idem|].
      split; [apply lookup_set_same|apply or_else_idem]. }
  destruct H as (fs & y1 & y2 & -> & R & C & S1 & O1 & S2 & O2). split.
  - apply (update_fixed content stats sources _ fs y1 y2); assumption.
  - exists (obj fs). split; [reflexivity|].
    split; [unfold is_assistant|]; cbn [get_own]; rewrite ?R, ?C; reflexivity.
Qed.

End UpdateFacts.

(* ===================================================================== *)
(** * More properties of the stream decoder *)
(* ===================================================================== *)

Module StreamFacts.
Import JS.
Import Decoder.
Import DecoderProps.
Import TextProps.
Import StreamProps.
Import SessionProps.
Import SessionFacts.

Lemma complete_lines_newline (a : string) :
  complete_lines (a +++ Text.newline) = true.
Proof.
  induction a as [|x r IH]; [reflexivity|].
  change (String x r +++ Text.newline) with (String x (r +++ Text.newline)).
  destruct (r +++ Text.newline) eqn:E; [destruct r; discriminate|].
  exact IH.
Qed.

Lemma split_lines_single (l : string) :
  lacks Text.LF l = true -> Text.split_lines l = [l].
Proof.
  induction l as [|x r IH]; intros H; [reflexivity|].
  rewrite TextFacts.lacks_cons in H. apply andb_prop in H. destruct H as [Hx Hr].
  rewrite DecoderFacts.split_lines_cons, (IH Hr).
  destruct (Ascii.eqb x Text.LF); [discriminate|reflexivity].
Qed.

Lemma split_lines_line (l : string) :
  lacks Text.LF l = true -> Text.split_lines (l +++ Text.newline) = [l; ""].
Proof.
  induction l as [|x r IH]; intros H; [reflexivity|].
  rewrite TextFacts.lacks_cons in H. apply andb_prop in H. destruct H as [Hx Hr].
  change (String x r +++ Text.newline) with (String x (r +++ Text.newline)).
  rewrite DecoderFacts.split_lines_cons, (IH Hr).
  destruct (Ascii.eqb x Text.LF); [discriminate|reflexivity].
Qed.

Lemma process_line_skipped (sources : value) (st : state) (line : string) :
  skipped line -> process_line sources st line = st.
Proof.
  unfold process_line. intros [H|[e H]]; rewrite H; [reflexivity|].
  destruct (Text.is_empty (Text.trim line)); reflexivity.
Qed.

Lemma process_chunk_skipped (sources : value) (st : state) (a bad b : string) :
  lacks Text.LF bad = true -> skipped bad ->
  process_chunk sources st (a +++ Text.newline +++ bad +++ Text.newline +++ b)
  = process_chunk sources st (a +++ Text.newline +++ b).
Proof.
  intros Hl Hs.
  assert (E1 : a +++ Text.newline +++ bad +++ Text.newline +++ b
               = (a +++ Text.newline) +++ (bad +++ Text.newline) +++ b)
    by (rewrite !TextFacts.append_assoc; reflexivity).
  assert (E2 : a +++ Text.newline +++ b = (a +++ Text.newline) +++ b)
    by (rewrite !TextFacts.append_assoc; reflexivity).
  rewrite E1, E2.
  rewrite !(DecoderFacts.process_chunk_app sources (a +++ Text.newline))
    by apply complete_lines_newline.
  rewrite DecoderFacts.process_chunk_app by apply complete_lines_newline.
  f_equal.
  unfold process_chunk. rewrite (split_lines_line bad Hl).
  simpl. rewrite (process_line_skipped _ _ bad Hs). reflexivity.
Qed.

(** X1: a line that is blank or is not valid JSON has no effect on the
    outcome of [readStream]: the final state (content, tool calls, last
    message and session) is that of the same stream without the line. *)
Theorem skipped_line_has_no_effect (pre post : list string) (a bad b : string)
  (sources : value) (msgs : Session.messages) :
  lacks Text.LF bad = true -> skipped bad ->
  readStream (pre ++ (a +++ Text.newline +++ bad +++ Text.newline +++ b) :: post)
    sources msgs
  = readStream (pre ++ (a +++ Text.newline +++ b) :: post) sources msgs.
Proof.
  intros Hl Hs. unfold readStream.
  rewrite !fold_left_app. simpl.
  rewrite (process_chunk_skipped sources _ a bad b Hl Hs). reflexivity.
Qed.

Lemma skipped_line_has_no_effect_witness :
  readStream [hi_line +++ Text.newline +++ garbage +++ Text.newline +++ hi_line]
    undefined []
  = readStream [hi_line +++ Text.newline +++ hi_line] undefined [].
Proof.
  apply (skipped_line_has_no_effect [] [] hi_line garbage hi_line undefined []).
  - reflexivity.
  - right. eexists. vm_compute. reflexivity.
Defined.


(** ** Content and tool calls only grow *)

Lemma extends_refl (st : state) : extends st st.
Proof.
  split; [exists ""; symmetry; apply TextFacts.append_nil_r
         | exists []; symmetry; apply app_nil_r].
Qed.

Lemma extends_trans (a b c : state) : extends a b -> extends b c -> extends a c.
Proof.
  intros [[t1 E1] [c1 F1]] [[t2 E2] [c2 F2]]. split.
  - exists (t1 +++ t2). rewrite E2, E1. apply TextFacts.append_assoc.
  - exists (c1 ++ c2). rewrite F2, F1. symmetry. apply app_assoc.
Qed.


Lemma on_message_extends (data : value) (st : state) :
  extends st (fst (on_message data st)).
Proof.
  unfold on_message, seq, lift, when, ret, set_fullMessage,
    append_content, push_toolCalls, concat, bind.
  repeat (destruct_inner; cbn beta iota);
  cbn [fst]; split; cbn [assistantMessageContent toolCalls];
  first [ eexists; reflexivity
        | exists ""; symmetry; apply TextFacts.append_nil_r
        | exists []; symmetry; apply app_nil_r ].
Qed.

Lemma on_object_extends (sources data : value) (st : state) :
  extends st (fst (on_object sources data st)).
Proof.
  pose proof (on_message_extends data st) as H.
  unfold on_object, seq.
  destruct (on_message data st) as [s c]. cbn [fst] in H.
  destruct c; [|exact H].
  unfold lift. destruct (stats_of data); [|exact H].
  exact H.
Qed.

Lemma process_line_extends (sources : value) (st : state) (line : string) :
  extends st (process_line sources st line).
Proof.
  unfold process_line.
  destruct (Text.is_empty (Text.trim line)); [apply extends_refl|].
  destruct (JSON.parse line); [apply on_object_extends | apply extends_refl].
Qed.

Lemma fold_lines_extends (sources : value) (ls : list string) :
  forall st, extends st (fold_left (process_line sources) ls st).
Proof.
  induction ls as [|l r IH]; intros st; [apply extends_refl|].
  simpl. eapply extends_trans; [apply process_line_extends | apply IH].
Qed.

(** X2: while a stream is decoded, the accumulated content and the
    accumulated tool calls only grow: what [readStream] holds after more
    chunks is what it held before with something appended. *)
Theorem readStream_only_appends (chunks more : list string) (sources : value)
  (msgs : Session.messages) :
  extends (readStream chunks sources msgs)
          (readStream (chunks ++ more) sources msgs).
Proof.
  rewrite !DecoderFacts.readStream_lines, flat_map_app, fold_left_app.
  apply fold_lines_extends.
Qed.

(** ** The session while a stream is decoded *)

Lemma on_message_session (data : value) (st : state) :
  session (fst (on_message data st)) = session st.
Proof.
  unfold on_message, seq, lift, when, ret, set_fullMessage,
    append_content, push_toolCalls, concat, bind.
  repeat (destruct_inner; cbn beta iota); reflexivity.
Qed.

(** The session after a line is the session before it, or that session
    updated once. *)
Lemma process_line_session (sources : value) (st : state) (line : string) :
  session (process_line sources st line) = session st
  \/ exists content stats,
       session (process_line sources st line)
       = Session.updateAssistantMessage content stats sources (session st).
Proof.
  unfold process_line.
  destruct (Text.is_empty (Text.trim line)); [now left|].
  destruct (JSON.parse line) as [data|]; [|now left].
  pose proof (on_message_session data st) as H.
  unfold on_object, seq.
  destruct (on_message data st) as [s c]. cbn [fst] in H.
  destruct c; [|now left].
  unfold lift. destruct (stats_of data); [|now left].
  right. cbn [fst surface session]. rewrite H. eauto.
Qed.

Lemma process_line_settled (sources : value) (base : Session.messages)
  (st : state) (line : string) :
  settled base st -> settled base (process_line sources st line).
Proof.
  intros (m & E & A). unfold settled.
  destruct (process_line_session sources st line) as [H|(c & s & H)]; rewrite H.
  - eauto.
  - destruct (updateAssistantMessage_shape c s sources (session st)) as (m' & E' & A').
    exists m'. split; [|exact A'].
    rewrite E', E. rewrite (kept_app_assistant base m A). reflexivity.
Qed.

Lemma start_settled (sources : value) (msgs : Session.messages) :
  settled (kept msgs) (start sources msgs).
Proof.
  unfold settled, start, kept. cbn [session].
  destruct (Session.last_not_assistant msgs) eqn:E.
  - eexists. split; reflexivity.
  - destruct (last_assistant msgs E) as [Hne A].
    exists (last msgs undefined). split; [|exact A].
    apply app_removelast_last, Hne.
Qed.

(** X3: [readStream] rewrites or appends only the last message of the
    session, and leaves an assistant message last: the messages before it
    are those the session had, less a trailing assistant message. *)
Theorem readStream_touches_last_message (chunks : list string) (sources : value)
  (msgs : Session.messages) :
  exists m,
    session (readStream chunks sources msgs) = kept msgs ++ [m]
    /\ is_assistant m.
Proof.
  rewrite DecoderFacts.readStream_lines.
  generalize (start_settled sources msgs).
  generalize (start sources msgs).
  induction (flat_map Text.split_lines chunks) as [|l r IH]; intros st H.
  - exact H.
  - simpl. apply IH, process_line_settled, H.
Qed.

Lemma on_message_same (data : value) (a b : state) :
  same_reading a b ->
  same_reading (fst (on_message data a)) (fst (on_message data b))
  /\ snd (on_message data a) = snd (on_message data b).
Proof.
  destruct a as [ca ta fa sa], b as [cb tb fb sb].
  unfold same_reading. cbn [assistantMessageContent toolCalls fullMessage].
  intros (<- & <- & <-).
  unfold on_message, seq, lift, when, ret, set_fullMessage,
    append_content, push_toolCalls, concat, bind.
  cbn [assistantMessageContent toolCalls fullMessage session].
  repeat (destruct_inner; cbn beta iota);
  cbn [fst snd assistantMessageContent toolCalls fullMessage];
  repeat split; congruence.
Qed.

Lemma on_object_same (s1 s2 data : value) (a b : state) :
  same_reading a b ->
  same_reading (fst (on_object s1 data a)) (fst (on_object s2 data b)).
Proof.
  intros H. destruct (on_message_same data a b H) as [R E].
  unfold on_object, seq.
  destruct (on_message data a) as [a' c]. destruct (on_message data b) as [b' c'].
  cbn [fst snd] in R, E. subst c'.
  destruct c; [|exact R].
  unfold lift. destruct (stats_of data); [|exact R].
  exact R.
Qed.

Lemma process_line_same (s1 s2 : value) (a b : state) (line : string) :
  same_reading a b ->
  same_reading (process_line s1 a line) (process_line s2 b line).
Proof.
  intros H. unfold process_line.
  destruct (Text.is_empty (Text.trim line)); [exact H|].
  destruct (JSON.parse line); [apply on_object_same; exact H | exact H].
Qed.

Lemma process_chunk_same (s1 s2 : value) (chunk : string) (a b : state) :
  same_reading a b ->
  same_reading (process_chunk s1 a chunk) (process_chunk s2 b chunk).
Proof.
  unfold process_chunk. revert a b.
  induction (Text.split_lines chunk) as [|l r IH]; intros a b H; [exact H|].
  cbn [fold_left]. apply IH, process_line_same, H.
Qed.

(** What [readStream] returns does not depend on the [sources] array it
    is given, nor on the session: the array is only stored in the assistant
    message. *)
Lemma readStream_reads_no_source (chunks : list string) (s1 s2 : value)
  (m1 m2 : Session.messages) :
  same_reading (readStream chunks s1 m1) (readStream chunks s2 m2).
Proof.
  unfold readStream.
  assert (H : same_reading (start s1 m1) (start s2 m2)) by (repeat split).
  revert H. generalize (start s1 m1) (start s2 m2).
  induction chunks as [|c r IH]; intros a b H; [exact H|].
  cbn [fold_left]. apply IH, process_chunk_same, H.
Qed.

End StreamFacts.

(* ===================================================================== *)
(** * More properties of the resolver and of the tool loop *)
(* ===================================================================== *)

Module FallbackFacts.
Import JS.
Import Manifest.
Import Resolver.
Import ResolverProps.
Import TextProps.
Import FallbackProps.

Lemma json_sniff_none (now : Z) (content : string) :
  lacks "{" content = true -> json_sniff now content = None.
Proof.
  intros L. unfold json_sniff.
  rewrite (TextFacts.includes_trim "{" content eq_refl), TextFacts.includes_lacks, L.
  reflexivity.
Qed.

Lemma bracket_sniff_none (now : Z) (mcpTools : list ToolDef) (content : string) :
  lacks "[" content = true \/ lacks "]" content = true ->
  bracket_sniff now mcpTools content = None.
Proof.
  intros L. unfold bracket_sniff. rewrite !TextFacts.includes_lacks.
  destruct L as [-> | ->]; [reflexivity|].
  rewrite andb_false_r. reflexivity.
Qed.

(** X5: content that has no brace, and lacks one of the two square
    brackets, passes through the resolver unchanged (not even trimmed) and
    yields no call. *)
Theorem plain_text_is_left_alone (now : Z) (mcpTools : list ToolDef)
  (content : string) :
  lacks "{" content = true ->
  lacks "[" content = true \/ lacks "]" content = true ->
  resolve now mcpTools content [] = ([], content).
Proof.
  intros B S. unfold resolve. simpl is_nil. cbv iota.
  rewrite (json_sniff_none now content B). simpl is_nil. cbv iota.
  rewrite (bracket_sniff_none now mcpTools content S). reflexivity.
Qed.

Lemma plain_text_is_left_alone_witness :
  resolve 17 [clock_tool] "  It is 5 o'clock ] " [] = ([], "  It is 5 o'clock ] ").
Proof.
  apply (plain_text_is_left_alone 17 [clock_tool] "  It is 5 o'clock ] ").
  - reflexivity.
  - left. reflexivity.
Defined.

Lemma json_sniff_sniffed (now : Z) (mcpTools : list ToolDef) (content : string)
  (calls : list value) (content' : string) :
  json_sniff now content = Some (calls, content') ->
  exists call, calls = [call] /\ sniffed now mcpTools call.
Proof.
  intros H.
  destruct (match_braces content) as [jsonMatch|] eqn:M.
  2:{ unfold json_sniff in H. rewrite M in H.
      destruct (Text.includes _ _); discriminate. }
  destruct (JSON.parse jsonMatch) as [o|e] eqn:P.
  2:{ unfold json_sniff in H. rewrite M, P in H.
      destruct (Text.includes _ _); discriminate. }
  rewrite (ResolverFacts.json_sniff_parsed now _ _ _ M P) in H.
  destruct (truthy (offered_name o) && is_str (offered_name o)) eqn:A;
    [|discriminate].
  apply ResolverFacts.nonempty_string in A. destruct A as (n & En & Hn).
  injection H as <- <-. rewrite En.
  eexists. split; [reflexivity|].
  exists (json_call_id now), n, (offered_arguments o). auto.
Qed.

Lemma bracket_sniff_sniffed (now : Z) (mcpTools : list ToolDef) (content : string)
  (calls : list value) (content' : string) :
  bracket_sniff now mcpTools content = Some (calls, content') ->
  exists call, calls = [call] /\ sniffed now mcpTools call.
Proof.
  unfold bracket_sniff. intros H.
  destruct (Text.includes content "[" && Text.includes content "]"); [|discriminate].
  destruct (match_bracket content) as [m|] eqn:M; [|discriminate].
  destruct (in_manifest mcpTools (str (ident m))) eqn:I; [|discriminate].
  injection H as <- <-.
  destruct (ResolverFacts.match_bracket_split _ _ M) as ((Hn & _) & _).
  eexists. split; [reflexivity|].
  exists (bracket_call_id now), (ident m), (bracket_args m). auto.
Qed.

(** X6: when the stream brought no tool call, the fallbacks add at most
    one: either the resolver returns no call and the content as it was, or
    exactly one call, whose id is built from the clock reading and whose
    name is a non-empty string (for the bracket form, a name of the
    manifest); the tool loop can read the name and arguments of that
    call. *)
Theorem fallbacks_add_at_most_one_call (now : Z) (mcpTools : list ToolDef)
  (content : string) :
  resolve now mcpTools content [] = ([], content)
  \/ exists call,
       fst (resolve now mcpTools content []) = [call]
       /\ sniffed now mcpTools call
       /\ exists toolName toolArgs,
            Conversation.call_target call = Normal (toolName, toolArgs)
            /\ is_str toolName = true.
Proof.
  assert (K : forall call, sniffed now mcpTools call ->
                exists toolName toolArgs,
                  Conversation.call_target call = Normal (toolName, toolArgs)
                  /\ is_str toolName = true).
  { intros call (id & n & a & -> & _). exists (str n), a. split; reflexivity. }
  destruct (json_sniff now content) as [[calls content']|] eqn:J.
  - right. rewrite (ResolverFacts.resolve_json now mcpTools content _ J).
    destruct (json_sniff_sniffed _ mcpTools _ _ _ J) as (call & -> & S).
    exists call. auto.
  - unfold resolve. simpl is_nil. cbv iota. rewrite J. simpl is_nil. cbv iota.
    destruct (bracket_sniff now mcpTools content) as [[calls content']|] eqn:B.
    + right. destruct (bracket_sniff_sniffed _ _ _ _ _ B) as (call & -> & S).
      exists call. auto.
    + left. reflexivity.
Qed.

End FallbackFacts.

Module ToolRoundFacts.
Import JS.
Import Manifest.
Import Conversation.
Import ToolRoundProps.

Lemma find_tool_in_manifest (mcpTools : list ToolDef) (toolName : value) :
  in_manifest mcpTools toolName
  = match find_tool mcpTools toolName with Some _ => true | None => false end.
Proof.
  unfold in_manifest, find_tool.
  induction mcpTools as [|t r IH]; [reflexivity|].
  cbn [find existsb]. destruct (strict_eq (str (name t)) toolName); [reflexivity|exact IH].
Qed.

Lemma find_tool_name (mcpTools : list ToolDef) (toolName : value) (t : ToolDef) :
  find_tool mcpTools toolName = Some t -> toolName = str (name t).
Proof.
  unfold find_tool. intros H. apply find_some in H. destruct H as [_ H].
  destruct toolName; simpl in H; try discriminate.
  apply String.eqb_eq in H. congruence.
Qed.

Lemma run_call_cases (w : World) (mcpTools : list ToolDef) (idx : nat)
  (call : value) (st st' : round) :
  run_call w mcpTools idx call st = (st', None) ->
  (known mcpTools call = false /\ st' = st)
  \/ (known mcpTools call = true
      /\ exists m q s,
           toolResponses st' = toolResponses st ++ [m]
           /\ issued st' = issued st ++ [q]
           /\ sources st' = sources st ++ [s]
           /\ answers call m /\ routed mcpTools call q).
Proof.
  unfold run_call, known. intros H.
  destruct (call_target call) as [[toolName toolArgs]|] eqn:T; [|discriminate].
  rewrite find_tool_in_manifest.
  destruct (find_tool mcpTools toolName) as [t|] eqn:F.
  2:{ injection H as <-. left. auto. }
  right. split; [reflexivity|].
  destruct (Executor.executeMcpTool (tool_reply w idx)) as [result|]; [|discriminate].
  destruct (to_string result) as [text|]; [|discriminate].
  injection H as <-. cbn [toolResponses issued sources].
  pose proof (find_tool_name _ _ _ F) as ->.
  do 3 eexists. split; [reflexivity|]. split; [reflexivity|]. split; [reflexivity|].
  split.
  - split; [reflexivity|]. split; [reflexivity|].
    intros I. cbn. unfold or_else. rewrite I. reflexivity.
  - exists t, toolArgs, (request_now w idx). auto.
Qed.

(** X7: the tool loop issues exactly one [tools/call] request and adds
    exactly one tool message for each call whose name is in the manifest,
    in the order of the calls, and nothing for the other calls.  The
    request goes to the server of the first manifest entry with that name
    and carries the arguments of the call; the message carries the id of
    the call when it has one. *)
Theorem tool_round_answers_known_calls (w : World) (mcpTools : list ToolDef)
  (calls : list value) :
  forall (idx : nat) (st r : round),
    run_calls w mcpTools idx calls st = (r, None) ->
    exists responses reqs,
      toolResponses r = toolResponses st ++ responses
      /\ issued r = issued st ++ reqs
      /\ Forall2 answers (filter (known mcpTools) calls) responses
      /\ Forall2 (routed mcpTools) (filter (known mcpTools) calls) reqs.
Proof.
  induction calls as [|call rest IH]; intros idx st r H.
  - injection H as <-. exists [], []. rewrite !app_nil_r. repeat split; constructor.
  - simpl in H.
    destruct (run_call w mcpTools idx call st) as [st' [e|]] eqn:R; [discriminate|].
    destruct (IH _ _ _ H) as (responses & reqs & E1 & E2 & A & Q).
    destruct (run_call_cases _ _ _ _ _ _ R) as [[K ->]|(K & m & q & s & F1 & F2 & _ & Am & Rq)];
      simpl; rewrite K.
    + exists responses, reqs. auto.
    + exists (m :: responses), (q :: reqs).
      rewrite E1, E2, F1, F2, <- !app_assoc. repeat split; auto.
Qed.

Lemma tool_round_answers_known_calls_witness :
  exists (responses : list value) (reqs : list Net.request),
    toolResponses (fst (run_calls ConversationProps.sniffing_world
                          [ConversationProps.weather] 0
                          [obj [("function", obj [("name", str "get_weather");
                                                  ("arguments", obj [])])];
                           obj [("function", obj [("name", str "get_time");
                                                  ("arguments", obj [])])]]
                          {| toolResponses := []; sources := []; issued := [] |}))
    = [] ++ responses
    /\ List.length responses = 1 /\ List.length reqs = 1.
Proof.
  destruct (tool_round_answers_known_calls ConversationProps.sniffing_world
              [ConversationProps.weather]
              [obj [("function", obj [("name", str "get_weather");
                                      ("arguments", obj [])])];
               obj [("function", obj [("name", str "get_time");
                                      ("arguments", obj [])])]]
              0 {| toolResponses := []; sources := []; issued := [] |} _ eq_refl)
    as (responses & reqs & E1 & E2 & A & Q).
  exists responses, reqs. split; [exact E1|].
  split; [apply Forall2_length in A | apply Forall2_length in Q]; symmetry; assumption.
Defined.

End ToolRoundFacts.

(* ===================================================================== *)
(** * Properties of the manifest fetch *)
(* ===================================================================== *)

Module ToolsFacts.
Import JS.
Import Manifest.
Import Tools.
Import ToolsProps.
Import ObjectFacts.

Lemma entries_url (url : string) (l : list value) :
  forall es, entries url l = Normal es -> Forall (fun e => serverUrl e = url) es.
Proof.
  induction l as [|t r IH]; intros es H.
  - injection H as <-. constructor.
  - simpl in H. unfold entry in H at 1.
    destruct (get t "name") as [n|]; [|discriminate]. cbn [bind] in H.
    destruct (to_string n) as [name|]; [|discriminate]. cbn [bind] in H.
    destruct (entries url r) as [es'|]; [|discriminate]. cbn [bind] in H.
    injection H as <-. constructor; [reflexivity|]. apply IH. reflexivity.
Qed.

Lemma listed_url (server : Registry.McpServer) (r : Net.reply) (l : list ToolDef) :
  listed server r = Normal l ->
  Forall (fun e => serverUrl e = Registry.url server) l.
Proof.
  unfold listed. destruct r as [e|ok status body]; [discriminate|].
  destruct (JSON.parse body) as [data|]; [|discriminate]. cbn [bind].
  destruct (get data "result") as [result|]; [|discriminate]. cbn [bind].
  destruct (truthy (get_opt result "tools")).
  - destruct (get_opt result "tools"); try discriminate. apply entries_url.
  - intros H. injection H as <-. constructor.
Qed.

Lemma collect_app (replies : nat -> Net.reply) (now : nat -> Z)
  (a b : list Registry.McpServer) :
  forall i,
    collect i replies now (a ++ b)
    = (fst (collect i replies now a) ++ fst (collect (i + List.length a) replies now b),
       snd (collect i replies now a) ++ snd (collect (i + List.length a) replies now b)).
Proof.
  induction a as [|s r IH]; intros i.
  - simpl. rewrite Nat.add_0_r. destruct (collect i replies now b); reflexivity.
  - simpl. rewrite (IH (S i)).
    replace (i + S (List.length r)) with (S i + List.length r) by lia.
    destruct (collect (S i) replies now r) as [t q].
    cbn [fst snd]. rewrite <- app_assoc. reflexivity.
Qed.

Lemma collect_requests (replies : nat -> Net.reply) (now : nat -> Z)
  (servers : list Registry.McpServer) :
  forall i, map posted (snd (collect i replies now servers)) = map Registry.url servers.
Proof.
  induction servers as [|s r IH]; intros i; [reflexivity|].
  simpl. specialize (IH (S i)).
  destruct (collect (S i) replies now r) as [t q]. cbn [snd] in *.
  simpl. rewrite IH. reflexivity.
Qed.

Lemma collect_in (replies : nat -> Net.reply) (now : nat -> Z)
  (servers : list Registry.McpServer) (t : ToolDef) :
  forall i,
    In t (fst (collect i replies now servers)) <->
    exists k server,
      nth_error servers k = Some server
      /\ In t (contribution server (replies (i + k))).
Proof.
  induction servers as [|s r IH]; intros i.
  - simpl. split; [tauto|]. intros (k & server & H & _). destruct k; discriminate.
  - simpl. specialize (IH (S i)).
    destruct (collect (S i) replies now r) as [ts q]. cbn [fst] in *.
    rewrite in_app_iff, IH. split.
    + intros [H|(k & server & N & H)].
      * exists 0, s. rewrite Nat.add_0_r. auto.
      * exists (S k), server. replace (i + S k) with (S i + k) by lia. auto.
    + intros (k & server & N & H). destruct k as [|k].
      * left. injection N as <-. rewrite Nat.add_0_r in H. exact H.
      * right. exists k, server. replace (S i + k) with (i + S k) by lia. auto.
Qed.

Lemma contribution_lists (replies : nat -> Net.reply)
  (servers : list Registry.McpServer) (k : nat) (server : Registry.McpServer)
  (t : ToolDef) :
  nth_error servers k = Some server ->
  In t (contribution server (replies k)) -> lists replies servers k t.
Proof.
  intros N H. unfold contribution in H.
  destruct (listed server (replies k)) as [l|] eqn:L; [|destruct H].
  exists server, l. repeat split; auto.
  pose proof (listed_url _ _ _ L) as U. rewrite Forall_forall in U. auto.
Qed.

(** X8: [fetchAllMcpTools] posts one [tools/list] request to every
    registered endpoint, in order, whatever the status of the endpoint and
    whatever the other endpoints answer; an entry is in the manifest
    exactly when some endpoint lists it, and it then carries the URL of
    that endpoint. *)
Theorem manifest_is_what_the_endpoints_list (replies : nat -> Net.reply)
  (now : nat -> Z) (mcpServers : list Registry.McpServer) :
  let '(mcpTools, requests) := fetchAllMcpTools true replies now mcpServers in
  map posted requests = map Registry.url mcpServers
  /\ forall t, In t mcpTools <-> exists k, lists replies mcpServers k t.
Proof.
  unfold fetchAllMcpTools.
  pose proof (collect_requests replies now mcpServers 0) as R.
  pose proof (fun t => collect_in replies now mcpServers t 0) as I.
  destruct (collect 0 replies now mcpServers) as [mcpTools requests].
  cbn [fst snd] in *. split; [exact R|].
  intros t. rewrite I. split.
  - intros (k & server & N & H). exists k.
    apply (contribution_lists _ _ _ server); auto.
  - intros (k & server & l & N & L & H & _).
    exists k, server. split; [exact N|]. simpl. unfold contribution. rewrite L. exact H.
Qed.


Lemma entries_null (url : string) (l : list value) :
  In null l -> exists e, entries url l = Throw e.
Proof.
  induction l as [|t r IH]; intros H; [destruct H|].
  destruct H as [->|H].
  - eexists. reflexivity.
  - destruct (IH H) as [e E]. simpl. rewrite E.
    destruct (entry url t); eexists; reflexivity.
Qed.

(** X10: a listing is taken whole or not at all: when one element of the
    [tools] array an endpoint answers with is [null], the endpoint adds no
    entry to the manifest, whatever its other elements are. *)
Theorem null_entry_drops_the_listing (server : Registry.McpServer)
  (ok : bool) (status : Z) (body : string) (data : value) (l : list value) :
  JSON.parse body = Normal data ->
  get_opt (get_own data "result") "tools" = arr l ->
  In null l ->
  contribution server (Net.Response ok status body) = [].
Proof.
  intros P T N. unfold contribution, listed. rewrite P. cbn [bind].
  destruct data; try discriminate;
    cbn [get bind]; rewrite T; cbn [truthy];
    destruct (entries_null (Registry.url server) l N) as [e ->]; reflexivity.
Qed.

Lemma null_entry_drops_the_listing_witness :
  contribution RegistryProps.up
    (Net.Response true 200
       (JSON.text "{'result':{'tools':[{'name':'get_weather'},null]}}")) = [].
Proof.
  eapply (null_entry_drops_the_listing RegistryProps.up true 200 _ _
            [obj [("name", str "get_weather")]; null]).
  - vm_compute. reflexivity.
  - reflexivity.
  - right. left. reflexivity.
Defined.

Lemma find_tool_app (a b : list ToolDef) (n : value) :
  find_tool (a ++ b) n
  = match find_tool a n with Some t => Some t | None => find_tool b n end.
Proof.
  unfold find_tool. induction a as [|t r IH]; [reflexivity|].
  cbn [find app]. destruct (strict_eq (str (name t)) n); [reflexivity|exact IH].
Qed.

Lemma find_tool_unnamed (l : list ToolDef) (n : string) :
  unnamed n l -> find_tool l (str n) = None.
Proof.
  unfold find_tool. induction 1 as [|t r H _ IH]; [reflexivity|].
  cbn [find]. cbn [strict_eq].
  destruct (String.eqb (name t) n) eqn:E; [|exact IH].
  apply String.eqb_eq in E. contradiction.
Qed.

Lemma find_tool_named (l : list ToolDef) (t : ToolDef) :
  In t l -> exists t', find_tool l (str (name t)) = Some t' /\ In t' l
                       /\ name t' = name t.
Proof.
  unfold find_tool. induction l as [|x r IH]; intros H; [destruct H|].
  cbn [find strict_eq].
  destruct (String.eqb (name x) (name t)) eqn:E.
  - apply String.eqb_eq in E. exists x. simpl. auto.
  - destruct H as [->|H]; [rewrite String.eqb_refl in E; discriminate|].
    destruct (IH H) as (t' & F & I & N). exists t'. simpl. auto.
Qed.

Lemma collect_unnamed (replies : nat -> Net.reply) (now : nat -> Z) (n : string)
  (servers : list Registry.McpServer) :
  forall i,
    (forall j server, nth_error servers j = Some server ->
                      unnamed n (contribution server (replies (i + j)))) ->
    unnamed n (fst (collect i replies now servers)).
Proof.
  induction servers as [|s r IH]; intros i H; [constructor|].
  simpl. specialize (IH (S i)).
  destruct (collect (S i) replies now r) as [ts q]. cbn [fst] in *.
  apply Forall_app. split.
  - specialize (H 0 s eq_refl). rewrite Nat.add_0_r in H. exact H.
  - apply IH. intros j server N.
    replace (S i + j) with (i + S j) by lia. apply H. exact N.
Qed.

(** X11: when several endpoints list a tool under the same name, a call is
    routed to the first of them: the lookup by name in the manifest gives
    an entry of the first endpoint, in registration order, whose listing
    has that name. *)
Theorem first_endpoint_wins (replies : nat -> Net.reply) (now : nat -> Z)
  (mcpServers : list Registry.McpServer) (k : nat) (t : ToolDef) :
  lists replies mcpServers k t ->
  (forall j server, j < k -> nth_error mcpServers j = Some server ->
                    unnamed (name t) (contribution server (replies j))) ->
  exists t',
    find_tool (fst (fetchAllMcpTools true replies now mcpServers)) (str (name t))
    = Some t'
    /\ name t' = name t /\ serverUrl t' = serverUrl t.
Proof.
  intros (server & l & N & L & I & U) H.
  unfold fetchAllMcpTools.
  destruct (nth_error_split _ _ N) as (a & b & -> & Ea).
  rewrite collect_app. cbn [fst]. rewrite find_tool_app.
  rewrite find_tool_unnamed.
  2:{ apply collect_unnamed. intros j s Nj. simpl.
      assert (j < k) by (rewrite <- Ea; apply nth_error_Some; congruence).
      apply H; [assumption|]. rewrite nth_error_app1 by lia. exact Nj. }
  simpl. rewrite Ea.
  destruct (collect (S k) replies now b) as [ts q]. cbn [fst].
  rewrite find_tool_app. unfold contribution. rewrite L.
  destruct (find_tool_named l t I) as (t' & F & I' & Nm). rewrite F.
  exists t'. split; [reflexivity|]. split; [exact Nm|].
  pose proof (listed_url _ _ _ L) as V. rewrite Forall_forall in V.
  rewrite (V _ I'), U. reflexivity.
Qed.

Lemma first_endpoint_wins_witness :
  exists t',
    find_tool (fst (fetchAllMcpTools true both_list_weather (fun _ => 0%Z)
                      [RegistryProps.down; mirror])) (str "get_weather")
    = Some t'
    /\ name t' = "get_weather" /\ serverUrl t' = "http://localhost:8000".
Proof.
  apply (first_endpoint_wins both_list_weather (fun _ => 0%Z)
           [RegistryProps.down; mirror] 0 (weather_of "http://localhost:8000")).
  - exists RegistryProps.down, [weather_of "http://localhost:8000"].
    split; [reflexivity|]. split; [vm_compute; reflexivity|].
    split; [left; reflexivity|reflexivity].
  - intros j server Hj. lia.
Defined.

End ToolsFacts.

Module EntryFacts.
Import JS.
Import Manifest.
Import Tools.
Import ObjectFacts.

(** X9: the manifest entry of a listed tool.  For a tool object whose
    name converts to the text [n], the entry is named [n], carries the
    description and the input schema of the listing, and belongs to the
    endpoint that was asked: in the tagged copy of the tool the fields
    [name] and [serverUrl] are the text [n] and the address of the
    endpoint, whatever the listing holds under these names. *)
Theorem entry_is_tagged_with_its_endpoint (serverUrl0 n : string)
  (fs : list (string * value)) :
  to_string (get_own (obj fs) "name") = Normal n ->
  entry serverUrl0 (obj fs)
  = Normal {| name := n;
              description := get_own (obj fs) "description";
              parameters := get_own (obj fs) "inputSchema";
              serverUrl := serverUrl0 |}
  /\ get_own (tagged serverUrl0 n (obj fs)) "name" = str n
  /\ get_own (tagged serverUrl0 n (obj fs)) "serverUrl" = str serverUrl0.
Proof.
  intros N. unfold entry. cbn [get bind]. rewrite N. cbn [bind].
  unfold tagged. cbn [Session.spread get_own].
  rewrite !lookup_set_other by reflexivity.
  rewrite !lookup_set_same. repeat split.
Qed.

Lemma entry_is_tagged_with_its_endpoint_witness :
  entry "http://localhost:8000"
    (obj [("name", str "get_weather"); ("serverUrl", str "http://evil.example");
          ("description", str "Weather of a city")])
  = Normal {| name := "get_weather"; description := str "Weather of a city";
              parameters := undefined; serverUrl := "http://localhost:8000" |}.
Proof.
  exact (proj1 (entry_is_tagged_with_its_endpoint "http://localhost:8000"
                  "get_weather"
                  [("name", str "get_weather");
                   ("serverUrl", str "http://evil.example");
                   ("description", str "Weather of a city")] eq_refl)).
Defined.

End EntryFacts.

Module TurnFacts.
Import JS.
Import Manifest.
Import Conversation.
Import ToolRoundProps.
Import ToolsProps.

Lemma run_calls_empty_manifest (w : World) (calls : list value) :
  forall idx st, fst (run_calls w [] idx calls st) = st.
Proof.
  induction calls as [|call rest IH]; intros idx st; [reflexivity|].
  simpl. unfold run_call.
  destruct (call_target call) as [[n a]|]; [|reflexivity].
  simpl. apply IH.
Qed.

Lemma empty_manifest_turn (w : World) (mcpEnabled : bool) (prompt : string)
  (messages : Session.messages) (mcpContext : list value) :
  let t := fst (handleSendMessage w mcpEnabled [] prompt messages mcpContext) in
  Forall is_chat (requests t)
  /\ hd undefined (history t) = opening_message prompt.
Proof.
  unfold handleSendMessage.
  assert (T : tools_param mcpEnabled [] = None)
    by (unfold tools_param; rewrite andb_false_r; reflexivity).
  rewrite T.
  destruct (chat (first w) true) as [chunks|e].
  2:{ cbn. split; [|reflexivity]. repeat constructor. eexists. reflexivity. }
  unfold after_first_response. cbn [Conversation.history Conversation.session Conversation.mcpContext Conversation.requests].
  destruct (Resolver.resolve _ _ _ _) as [toolCalls content].
  destruct (Resolver.is_nil toolCalls).
  { cbn. split; [|reflexivity]. repeat constructor. eexists. reflexivity. }
  match goal with
  | |- context [run_calls w [] 0 toolCalls ?st] =>
      pose proof (run_calls_empty_manifest w toolCalls 0 st) as R;
      destruct (run_calls w [] 0 toolCalls st) as [r oe]
  end.
  cbn [fst] in R. subst r. rewrite T.
  destruct oe as [e|].
  { cbn. split; [|reflexivity]. repeat constructor. eexists. reflexivity. }
  destruct (chat (followup w) false); cbn; (split; [|reflexivity]);
    repeat constructor; eexists; reflexivity.
Qed.

(** With tool use disabled, the manifest fetch and the conversation send
    nothing to the tool endpoints. *)
Lemma disabled_respond (w : World) (replies : nat -> Net.reply)
  (now : nat -> Z) (mcpServers : list Registry.McpServer)
  (systemPromptWithContext : string) (messages : Session.messages)
  (mcpContext : list value) :
  let '(listing, (t, _)) :=
    Turn.respond w replies now false mcpServers systemPromptWithContext
      messages mcpContext in
  listing = []
  /\ Forall is_chat (requests t)
  /\ hd undefined (history t)
     = opening_message (systemPromptWithContext +++ Prompt.offline_notice).
Proof.
  unfold Turn.respond, Tools.fetchAllMcpTools.
  pose proof (empty_manifest_turn w false
                (Prompt.finalSystemPrompt systemPromptWithContext [])
                messages mcpContext) as H.
  destruct (handleSendMessage w false [] _ messages mcpContext) as [t e].
  split; [reflexivity|exact H].
Qed.

End TurnFacts.

(* ===================================================================== *)
(** * Properties of the registration and of the poller *)
(* ===================================================================== *)

Module RegistrationFacts.
Import JS.
Import Registration.
Import RegistrationProps.

Lemma attempt_readable (r : Net.reply) :
  (exists x, attempt r = Normal x) <-> readable r.
Proof.
  unfold attempt, readable. split.
  - intros [x H]. destruct r as [e|ok status body]; [discriminate|].
    destruct (JSON.parse body) as [data|] eqn:P; [|discriminate].
    exists ok, status, body, data. repeat split; auto.
    intros ->. discriminate.
  - intros (ok & status & body & data & -> & P & N). rewrite P. cbn [bind].
    pose proof (ExecutorFacts.parse_defined _ _ P) as D.
    unfold described. rewrite (ExecutorFacts.get_not_null data "result" N D).
    eexists. reflexivity.
Qed.

(** X13: registering an address adds exactly one endpoint, last, with
    that address, and leaves the endpoints already registered as they are;
    an empty address adds nothing.  The new endpoint is online exactly when
    the reply has a body that is JSON other than [null], whatever the status
    of the response; otherwise it is the offline endpoint named
    [Unknown Server], with no tools. *)
Theorem registration_adds_one_endpoint (newMcpUrl : string) (r : Net.reply)
  (mcpServers : list endpoint) :
  registerMcpServer "" r mcpServers = mcpServers
  /\ (newMcpUrl <> "" ->
      exists e,
        registerMcpServer newMcpUrl r mcpServers = mcpServers ++ [e]
        /\ url e = newMcpUrl
        /\ (status e = Registry.online <-> readable r)
        /\ (status e = Registry.offline -> e = unknown_server newMcpUrl)).
Proof.
  split; [reflexivity|]. intros Hne. unfold registerMcpServer.
  destruct newMcpUrl as [|c u]; [congruence|]. cbn [Text.is_empty].
  pose proof (attempt_readable r) as A.
  destruct (attempt r) as [[[serverName tools] toolCount]|e].
  - eexists. split; [reflexivity|]. cbn. split; [reflexivity|]. split.
    + split; [intros _; apply A; eauto | reflexivity].
    + discriminate.
  - eexists. split; [reflexivity|]. cbn. split; [reflexivity|]. split.
    + split; [discriminate|]. intros R. apply A in R. destruct R; discriminate.
    + reflexivity.
Qed.

Lemma or_else_truthy (a b : value) : truthy b = true -> truthy (or_else a b) = true.
Proof. unfold or_else. destruct (truthy a) eqn:E; auto. Qed.

(** X14: a poll that is answered as the registration was leaves a
    registered online endpoint as it is. *)
Theorem poll_after_registration_is_stable (newMcpUrl : string) (r : Net.reply)
  (mcpServers : list endpoint) (e : endpoint) (s : Registry.McpServer) :
  registerMcpServer newMcpUrl r mcpServers = mcpServers ++ [e] ->
  status e = Registry.online ->
  as_server e = Some s ->
  Registry.probe s r = s.
Proof.
  unfold registerMcpServer. intros H O S.
  destruct (Text.is_empty newMcpUrl).
  { exfalso. apply (f_equal (@List.length _)) in H.
    rewrite length_app in H. simpl in H. lia. }
  destruct (attempt r) as [[[serverName tools] toolCount]|x] eqn:A;
    apply app_inv_head in H; injection H as <-; [|discriminate].
  unfold as_server in S. cbn in S.
  destruct serverName; try discriminate. injection S as <-.
  unfold attempt in A. destruct r as [x|ok status body]; [discriminate|].
  unfold Registry.probe. destruct ok; [|reflexivity].
  destruct (JSON.parse body) as [data|]; [|discriminate]. cbn [bind] in *.
  unfold described in A. unfold Registry.tools_of.
  destruct (get data "result") as [result|]; [|discriminate]. cbn [bind] in *.
  injection A as A1 <- <-.
  unfold Registry.needs_update. cbn.
  rewrite or_else_truthy by reflexivity. cbn.
  destruct (strict_eq _ _); reflexivity.
Qed.

Lemma poll_after_registration_is_stable_witness :
  Registry.probe
    {| Registry.name := "MCP Server"; Registry.url := "http://localhost:8000";
       Registry.status := Registry.online;
       Registry.toolCount := num (of_Z 1);
       Registry.tools := arr [RegistryProps.time_tool] |}
    RegistryProps.lists_time
  = {| Registry.name := "MCP Server"; Registry.url := "http://localhost:8000";
       Registry.status := Registry.online;
       Registry.toolCount := num (of_Z 1);
       Registry.tools := arr [RegistryProps.time_tool] |}.
Proof.
  apply (poll_after_registration_is_stable "http://localhost:8000"
           RegistryProps.lists_time []
           {| name := str "MCP Server"; url := "http://localhost:8000";
              status := Registry.online; toolCount := num (of_Z 1);
              tools := arr [RegistryProps.time_tool] |}).
  - vm_compute. reflexivity.
  - reflexivity.
  - reflexivity.
Defined.

End RegistrationFacts.

Module PollFacts.
Import JS.
Import Registry.

Lemma probe_identity (s : McpServer) (r : Net.reply) :
  name (probe s r) = name s /\ url (probe s r) = url s.
Proof.
  unfold probe, on_failure, mark_online.
  destruct r as [e|ok status body].
  - destruct (status s); auto.
  - destruct ok; [|auto].
    destruct (bind (JSON.parse body) tools_of) as [new_tools|].
    + destruct (needs_update s new_tools); auto.
    + destruct (Registry.status s); auto.
Qed.

Lemma probe_all_identity (replies : nat -> Net.reply) (servers : list McpServer) :
  forall i,
    map name (probe_all i replies servers) = map name servers
    /\ map url (probe_all i replies servers) = map url servers.
Proof.
  induction servers as [|s r IH]; intros i; [split; reflexivity|].
  simpl. destruct (IH (S i)) as [-> ->].
  destruct (probe_identity s (replies i)) as [-> ->]. split; reflexivity.
Qed.

(** X15: a poll neither adds, removes nor reorders endpoints, and never
    changes the name or the address of one. *)
Theorem syncTools_keeps_the_endpoints (replies : nat -> Net.reply)
  (mcpServers : list McpServer) :
  List.length (syncTools replies mcpServers) = List.length mcpServers
  /\ map name (syncTools replies mcpServers) = map name mcpServers
  /\ map url (syncTools replies mcpServers) = map url mcpServers.
Proof.
  assert (H : map name (syncTools replies mcpServers) = map name mcpServers
              /\ map url (syncTools replies mcpServers) = map url mcpServers).
  { unfold syncTools. destruct (changed _ _); [|split; reflexivity].
    apply probe_all_identity. }
  split; [|exact H].
  destruct H as [H _]. rewrite <- (length_map name), H. apply length_map.
Qed.

Lemma tools_of_truthy (data new_tools : value) :
  tools_of data = Normal new_tools -> truthy new_tools = true.
Proof.
  unfold tools_of. destruct (get data "result") as [result|]; [|discriminate].
  cbn [bind]. intros H. injection H as <-.
  unfold or_else. destruct (truthy (get_opt result "tools")) eqn:E; auto.
Qed.

Lemma mark_online_online (s : McpServer) : status s = online -> mark_online s = s.
Proof. destruct s as [n u st c t]. simpl. intros ->. reflexivity. Qed.

Lemma on_failure_idem (s : McpServer) : on_failure (on_failure s) = on_failure s.
Proof. unfold on_failure. destruct (status s) eqn:E; simpl; rewrite ?E; reflexivity. Qed.

(** Probing again with the same reply changes nothing more. *)
Lemma probe_idem (s : McpServer) (r : Net.reply) : probe (probe s r) r = probe s r.
Proof.
  destruct r as [e|ok status body].
  - apply on_failure_idem.
  - destruct ok; [|reflexivity].
    destruct (bind (JSON.parse body) tools_of) as [new_tools|] eqn:T.
    2:{ unfold probe. rewrite T. apply on_failure_idem. }
    assert (Tr : truthy new_tools = true).
    { unfold bind in T. destruct (JSON.parse body); [|discriminate].
      eapply tools_of_truthy, T. }
    assert (P : forall x, probe x (Net.Response true status body)
                          = if needs_update x new_tools
                            then {| name := name x; url := url x; status := online;
                                    toolCount := get_own new_tools "length";
                                    tools := new_tools |}
                            else mark_online x).
    { intros x. unfold probe. rewrite T. reflexivity. }
    rewrite (P s).
    destruct (needs_update s new_tools) eqn:N.
    + rewrite P. unfold needs_update. cbn. rewrite Tr. cbn.
      destruct (strict_eq _ _); reflexivity.
    + unfold needs_update in N. apply orb_false_elim in N. destruct N as [N N3].
      apply orb_false_elim in N. destruct N as [N1 N2].
      assert (O : Registry.status s = online)
        by (destruct (Registry.status s); [reflexivity|discriminate]).
      rewrite (mark_online_online s O), P.
      unfold needs_update. rewrite N1, N2, N3.
      apply mark_online_online, O.
Qed.

Lemma probe_all_idem (replies : nat -> Net.reply) (servers : list McpServer) :
  forall i, probe_all i replies (probe_all i replies servers)
            = probe_all i replies servers.
Proof.
  induction servers as [|s r IH]; intros i; [reflexivity|].
  simpl. rewrite probe_idem, IH. reflexivity.
Qed.

Lemma changed_same (servers : list McpServer) : changed servers servers = false.
Proof.
  unfold changed. destruct (serialize servers); [|reflexivity].
  rewrite String.eqb_refl. reflexivity.
Qed.

(** X16: polling reaches a fixed point in one round: a second poll that
    gets the same replies leaves the registry as the first poll left it, so
    the state is not set again. *)
Theorem syncTools_settles (replies : nat -> Net.reply) (mcpServers : list McpServer) :
  syncTools replies (syncTools replies mcpServers) = syncTools replies mcpServers.
Proof.
  assert (E : syncTools replies mcpServers
              = if changed (probe_all 0 replies mcpServers) mcpServers
                then probe_all 0 replies mcpServers else mcpServers)
    by reflexivity.
  destruct (changed (probe_all 0 replies mcpServers) mcpServers) eqn:C; rewrite E.
  - unfold syncTools. rewrite probe_all_idem, changed_same. reflexivity.
  - unfold syncTools. rewrite C. reflexivity.
Qed.

End PollFacts.

(* ===================================================================== *)
(** * More properties of the workflow sequencer *)
(* ===================================================================== *)

Module RunFacts.
Import JS.
Import Workflow.
Import WorkflowProps.
Import RunProps.

Lemma update_at_ids (f : Log.t -> Log.t) (logs : list Log.t) :
  (forall l, Log.stepId (f l) = Log.stepId l) ->
  forall i, map Log.stepId (update_at i f logs) = map Log.stepId logs.
Proof.
  intros H. induction logs as [|l r IH]; intros i; [destruct i; reflexivity|].
  destruct i; simpl; rewrite ?H, ?IH; reflexivity.
Qed.

Lemma update_at_quiet (f : Log.t -> Log.t) (logs : list Log.t) :
  (forall l, quiet (f l)) -> Forall quiet logs ->
  forall i, Forall quiet (update_at i f logs).
Proof.
  intros H. induction 1 as [|l r Hl Hr IH]; intros i; [destruct i; constructor|].
  destruct i; simpl; constructor; auto.
Qed.

Lemma update_at_twice (f g : Log.t -> Log.t) (logs : list Log.t) :
  forall i, update_at i f (update_at i g logs) = update_at i (fun l => f (g l)) logs.
Proof.
  induction logs as [|l r IH]; intros i; [destruct i; reflexivity|].
  destruct i; simpl; rewrite ?IH; reflexivity.
Qed.

Section Run.
Variable reply : nat -> Net.reply.
Variable agents : list Agent.t.
Variable finalInput : string.

Lemma run_steps_ids (todo : list Step.t) :
  forall i st,
    map Log.stepId (logs (fst (run_steps reply agents finalInput i todo st)))
    = map Log.stepId (logs st).
Proof.
  induction todo as [|step rest IH]; intros i st; [reflexivity|].
  simpl. destruct (find_agent agents step) as [agent|]; [|apply IH].
  destruct (to_string (currentContext st)).
  2:{ cbn. apply update_at_ids. reflexivity. }
  destruct (result_of agent (reply i)).
  2:{ cbn. apply update_at_ids. reflexivity. }
  rewrite IH. cbn. rewrite !update_at_ids; reflexivity.
Qed.

Lemma run_steps_quiet (todo : list Step.t) :
  forall i st st',
    Forall quiet (logs st) ->
    run_steps reply agents finalInput i todo st = (st', None) ->
    Forall quiet (logs st').
Proof.
  induction todo as [|step rest IH]; intros i st st' Q H.
  - injection H as <-. exact Q.
  - simpl in H. destruct (find_agent agents step) as [agent|]; [|eapply IH; eauto].
    destruct (to_string (currentContext st)); [|discriminate].
    destruct (result_of agent (reply i)); [|discriminate].
    eapply IH; [|exact H]. cbn. rewrite update_at_twice.
    apply update_at_quiet; [|exact Q]. intros l. discriminate.
Qed.

(** A run changes the log of a step, and sends a request for it, only
    if the step has an agent. *)
Lemma run_steps_passes_over (todo : list Step.t) :
  forall i st st' oe,
    run_steps reply agents finalInput i todo st = (st', oe) ->
    (forall j,
        (forall step, nth_error todo (j - i) = Some step -> i <= j ->
                      find_agent agents step = None) ->
        nth_error (logs st') j = nth_error (logs st) j)
    /\ (forall j q, In (j, q) (requests st') ->
                    In (j, q) (requests st)
                    \/ exists step agent,
                         i <= j /\ nth_error todo (j - i) = Some step
                         /\ find_agent agents step = Some agent).
Proof.
  induction todo as [|step rest IH]; intros i st st' oe H.
  - injection H as <- <-. auto.
  - simpl in H.
    assert (Shift : forall j, i < j -> nth_error (step :: rest) (j - i)
                                       = nth_error rest (j - S i)).
    { intros j Hj. replace (j - i) with (S (j - S i)) by lia. reflexivity. }
    assert (Other : forall j,
               (forall s, nth_error (step :: rest) (j - i) = Some s -> i <= j ->
                          find_agent agents s = None) ->
               forall s, nth_error rest (j - S i) = Some s -> S i <= j ->
                         find_agent agents s = None).
    { intros j Hj s Hs Hle. apply Hj; [|lia]. rewrite Shift by lia. exact Hs. }
    destruct (find_agent agents step) as [agent|] eqn:A.
    + assert (Here : forall j,
                 (forall s, nth_error (step :: rest) (j - i) = Some s -> i <= j ->
                            find_agent agents s = None) -> j <> i).
      { intros j Hj ->. rewrite Nat.sub_diag in Hj.
        specialize (Hj step eq_refl (Nat.le_refl _)). congruence. }
      assert (Mine : exists s a, i <= i /\ nth_error (step :: rest) (i - i) = Some s
                                 /\ find_agent agents s = Some a).
      { exists step, agent. rewrite Nat.sub_diag. auto. }
      destruct (to_string (currentContext st)).
      2:{ injection H as <- <-. cbn. split.
          - intros j Hj. apply WorkflowFacts.update_at_other, Here, Hj.
          - auto. }
      destruct (result_of agent (reply i)).
      2:{ injection H as <- <-. cbn. split.
          - intros j Hj. apply WorkflowFacts.update_at_other, Here, Hj.
          - intros j q Hin. apply in_app_or in Hin. destruct Hin as [Hin|[Hin|[]]]; [auto|].
            injection Hin as <- _. auto. }
      destruct (IH _ _ _ _ H) as [L R]. cbn in L, R. split.
      * intros j Hj. rewrite L by (apply Other, Hj).
        rewrite !WorkflowFacts.update_at_other by (apply Here, Hj). reflexivity.
      * intros j q Hin. destruct (R j q Hin) as [Hin'|(s & ag & Hle & Hn & Ha)].
        -- apply in_app_or in Hin'. destruct Hin' as [Hin'|[Hin'|[]]]; [auto|].
           injection Hin' as <- _. auto.
        -- right. exists s, ag. rewrite Shift by lia. repeat split; auto. lia.
    + destruct (IH _ _ _ _ H) as [L R]. split.
      * intros j Hj. destruct (Nat.eq_dec j i) as [->|Hne].
        -- apply L. intros s Hs Hle. lia.
        -- apply L, Other, Hj.
      * intros j q Hin. destruct (R j q Hin) as [Hin'|(s & ag & Hle & Hn & Ha)]; [auto|].
        right. exists s, ag. rewrite Shift by lia. repeat split; auto. lia.
Qed.

Lemma context_after_app (a b : list Step.t) :
  forall i context,
    context_after reply agents i context (a ++ b)
    = context_after reply agents (i + List.length a)
        (context_after reply agents i context a) b.
Proof.
  induction a as [|s r IH]; intros i context; simpl.
  - rewrite Nat.add_0_r. reflexivity.
  - rewrite IH. replace (S i + List.length r) with (i + S (List.length r)) by lia.
    reflexivity.
Qed.

Variable steps : list Step.t.
Hypothesis all_succeed :
  forall j step agent,
    nth_error steps j = Some step -> find_agent agents step = Some agent ->
    succeeds agent (reply j).

Lemma run_steps_succeed (todo : list Step.t) :
  forall done st,
    steps = done ++ todo ->
    currentContext st = context_after reply agents 0 (str finalInput) done ->
    (exists c, to_string (currentContext st) = Normal c) ->
    exists st',
      run_steps reply agents finalInput (List.length done) todo st = (st', None)
      /\ requests st'
         = requests st
           ++ flat_map (request_at reply agents finalInput steps)
                (seq (List.length done) (List.length todo))
      /\ (forall j, j < List.length done ->
                    nth_error (logs st') j = nth_error (logs st) j)
      /\ (forall j step agent,
             List.length done <= j -> nth_error steps j = Some step ->
             find_agent agents step = Some agent ->
             exists result,
               result_of agent (reply j) = Normal result
               /\ nth_error (logs st') j
                  = option_map (set_completed result) (nth_error (logs st) j)).
Proof.
  induction todo as [|step rest IH]; intros done st E C T.
  - exists st. simpl. rewrite app_nil_r. repeat split; auto.
    intros j s a Hle Hn _. exfalso.
    assert (j < List.length steps) by (apply nth_error_Some; congruence).
    rewrite E, app_nil_r in H. lia.
  - assert (N : nth_error steps (List.length done) = Some step).
    { rewrite E, nth_error_app2, Nat.sub_diag by lia. reflexivity. }
    assert (E' : steps = (done ++ [step]) ++ rest)
      by (rewrite <- app_assoc; exact E).
    assert (L' : List.length (done ++ [step]) = S (List.length done))
      by (rewrite length_app; simpl; lia).
    assert (B : context_before reply agents finalInput steps (List.length done)
                = currentContext st).
    { unfold context_before. rewrite E, firstn_app, Nat.sub_diag, firstn_all.
      simpl. rewrite app_nil_r. auto. }
    simpl run_steps. cbn [List.length seq flat_map].
    unfold request_at at 1. rewrite N, B.
    destruct (find_agent agents step) as [agent|] eqn:A.
    + destruct (all_succeed _ _ _ N A) as (result & context' & R & T').
      destruct T as [c T]. rewrite T, R.
      match goal with
      | |- exists st', run_steps _ _ _ _ _ ?s = _ /\ _ => set (st3 := s)
      end.
      destruct (IH (done ++ [step]) st3 E') as (st' & H & Q & Lt & Ge).
      { unfold st3. cbn [currentContext]. rewrite context_after_app. simpl.
        rewrite A, R. reflexivity. }
      { exists context'. exact T'. }
      rewrite L' in *. exists st'. split; [exact H|]. split; [|split].
      * rewrite Q. unfold st3. cbn [requests]. rewrite <- app_assoc. reflexivity.
      * intros j Hj. rewrite Lt by lia. unfold st3. cbn [logs].
        rewrite !WorkflowFacts.update_at_other by lia. reflexivity.
      * intros j s a Hle Hn Ha. destruct (Nat.eq_dec j (List.length done)) as [->|Hne].
        -- assert (s = step) by congruence. subst s.
           assert (a = agent) by congruence. subst a.
           exists result. split; [exact R|].
           rewrite Lt by lia. unfold st3. cbn [logs].
           rewrite !WorkflowFacts.update_at_same.
           destruct (nth_error (logs st) (List.length done)); reflexivity.
        -- destruct (Ge j s a ltac:(lia) Hn Ha) as (res & Hres & Hlog).
           exists res. split; [exact Hres|]. rewrite Hlog. unfold st3. cbn [logs].
           rewrite !WorkflowFacts.update_at_other by lia. reflexivity.
    + destruct (IH (done ++ [step]) st E') as (st' & H & Q & Lt & Ge).
      { rewrite context_after_app. simpl. rewrite A. exact C. }
      { exact T. }
      rewrite L' in *. exists st'. split; [exact H|]. split; [|split].
      * rewrite Q. reflexivity.
      * intros j Hj. apply Lt. lia.
      * intros j s a Hle Hn Ha. destruct (Nat.eq_dec j (List.length done)) as [->|Hne].
        -- congruence.
        -- apply (Ge j s a); auto. lia.
Qed.

End Run.

Lemma fail_running_quiet (e : exn) (logs : list Log.t) :
  Forall quiet (map (fail_running e) logs).
Proof.
  induction logs as [|l r IH]; constructor; [|exact IH].
  unfold quiet, fail_running. destruct (Log.status l) eqn:E; simpl; congruence.
Qed.

Lemma initialLogs_quiet (agents : list Agent.t) (w : t) :
  Forall quiet (initialLogs agents w).
Proof.
  unfold initialLogs. induction (steps w); constructor; [discriminate|assumption].
Qed.

Lemma initialLogs_ids (agents : list Agent.t) (w : t) :
  map Log.stepId (initialLogs agents w) = map Step.id (steps w).
Proof. unfold initialLogs. rewrite map_map. reflexivity. Qed.

Lemma fail_running_ids (e : exn) (logs : list Log.t) :
  map Log.stepId (map (fail_running e) logs) = map Log.stepId logs.
Proof.
  rewrite map_map. apply map_ext. intros l. unfold fail_running.
  destruct (Log.status l); reflexivity.
Qed.

(** X17: a run that starts ends with one log per step of the workflow, in
    the order of the steps, and with no step left in progress: however it
    ends, every log is pending, completed or failed.  A run does not start,
    leaves the logs as they are and sends nothing, when the input is blank
    or a run is in progress. *)
Theorem run_leaves_no_step_running (reply : nat -> Net.reply)
  (agents : list Agent.t) (workflowInput : string) (isWFRunning : bool)
  (workflowLogs : list Log.t) (workflow : t) (overrideInput : option string) :
  let started :=
    negb (Text.is_empty (Text.trim (input_of workflowInput overrideInput))
          || isWFRunning) in
  let run := handleRunWorkflow reply agents workflowInput isWFRunning workflowLogs
               workflow overrideInput in
  (started = true ->
   map Log.stepId (fst run) = map Step.id (steps workflow)
   /\ Forall quiet (fst run))
  /\ (started = false -> run = (workflowLogs, [])).
Proof.
  unfold handleRunWorkflow, input_of.
  destruct (Text.is_empty _ || isWFRunning); cbn [negb]; split; try discriminate;
    [reflexivity|]. intros _.
  match goal with
  | |- context [run_steps reply agents ?fi 0 ?todo ?st] =>
      pose proof (run_steps_ids reply agents fi todo 0 st) as I;
      pose proof (run_steps_quiet reply agents fi todo 0 st) as Q;
      destruct (run_steps reply agents fi 0 todo st) as [st' [e|]]
  end; cbn [fst logs] in *.
  - rewrite fail_running_ids, I, initialLogs_ids.
    split; [reflexivity|apply fail_running_quiet].
  - rewrite I, initialLogs_ids. split; [reflexivity|].
    apply (Q st'); [apply initialLogs_quiet|reflexivity].
Qed.

(** X18: a step whose agent does not exist is passed over, whatever
    happens to the other steps: no request is sent for it, and its log
    stays pending, empty, under the name [Unknown Agent]. *)
Theorem step_without_agent_is_passed_over (reply : nat -> Net.reply)
  (agents : list Agent.t) (workflowInput : string) (workflowLogs : list Log.t)
  (workflow : t) (overrideInput : option string) (j : nat) (step : Step.t) :
  Text.is_empty (Text.trim (input_of workflowInput overrideInput)) = false ->
  nth_error (steps workflow) j = Some step ->
  find_agent agents step = None ->
  let run := handleRunWorkflow reply agents workflowInput false workflowLogs
               workflow overrideInput in
  nth_error (fst run) j = Some (untouched step)
  /\ forall q, ~ In (j, q) (snd run).
Proof.
  intros B N A. unfold handleRunWorkflow. unfold input_of in B. rewrite B.
  cbn [orb].
  match goal with
  | |- context [run_steps reply agents ?fi 0 ?todo ?st] =>
      pose proof (run_steps_passes_over reply agents fi todo 0 st) as P;
      destruct (run_steps reply agents fi 0 todo st) as [st' oe]
  end.
  destruct (P st' oe eq_refl) as [L R]. cbn [logs requests] in L, R.
  assert (Lj : nth_error (logs st') j = Some (untouched step)).
  { rewrite L.
    - rewrite WorkflowFacts.initialLogs_nth, N. cbn. rewrite A. reflexivity.
    - intros s Hs _. rewrite Nat.sub_0_r in Hs. congruence. }
  assert (Rj : forall q, ~ In (j, q) (requests st')).
  { intros q Hin. destruct (R j q Hin) as [[]|(s & ag & _ & Hs & Ha)].
    rewrite Nat.sub_0_r in Hs. congruence. }
  destruct oe as [e|]; cbn [fst snd]; split; auto.
  rewrite nth_error_map, Lj. reflexivity.
Qed.

Lemma step_without_agent_is_passed_over_witness :
  nth_error (fst (handleRunWorkflow drafts_then_edits [writer] "Write about tea"
                    false [] two_steps None)) 1
  = Some (untouched {| Step.id := "s2"; Step.agentId := "a2";
                       Step.description := "Edit" |})
  /\ forall q, ~ In (1, q) (snd (handleRunWorkflow drafts_then_edits [writer]
                                  "Write about tea" false [] two_steps None)).
Proof.
  apply (step_without_agent_is_passed_over drafts_then_edits [writer]
           "Write about tea" [] two_steps None 1
           {| Step.id := "s2"; Step.agentId := "a2"; Step.description := "Edit" |});
    reflexivity.
Defined.

(** X19: when every step that has an agent succeeds, the run completes
    each of them with the result of its agent, and sends one request per
    such step, in step order; the prompt of a step is made of the input of
    the run, of the result of the nearest earlier step that has an agent
    (of the input when there is none) and of the instructions of the
    step. *)
Theorem run_threads_each_result (reply : nat -> Net.reply) (agents : list Agent.t)
  (workflowInput : string) (workflowLogs : list Log.t) (workflow : t)
  (overrideInput : option string) :
  let finalInput := input_of workflowInput overrideInput in
  Text.is_empty (Text.trim finalInput) = false ->
  (forall j step agent,
      nth_error (steps workflow) j = Some step ->
      find_agent agents step = Some agent -> succeeds agent (reply j)) ->
  let run := handleRunWorkflow reply agents workflowInput false workflowLogs
               workflow overrideInput in
  snd run
  = flat_map (request_at reply agents finalInput (steps workflow))
      (seq 0 (List.length (steps workflow)))
  /\ forall j step agent,
       nth_error (steps workflow) j = Some step ->
       find_agent agents step = Some agent ->
       exists result l,
         result_of agent (reply j) = Normal result
         /\ nth_error (fst run) j = Some l
         /\ Log.status l = Log.completed /\ Log.output l = result.
Proof.
  intros finalInput B S. unfold handleRunWorkflow.
  fold (input_of workflowInput overrideInput). fold finalInput. rewrite B. cbn [orb].
  destruct (run_steps_succeed reply agents finalInput (steps workflow) S
              (steps workflow) []
              {| logs := initialLogs agents workflow;
                 currentContext := str finalInput; requests := [] |}
              eq_refl eq_refl (ex_intro _ finalInput eq_refl))
    as (st' & H & Q & _ & Ge).
  simpl List.length in H. rewrite H. cbn [fst snd]. split; [exact Q|].
  intros j step agent N A.
  destruct (Ge j step agent (Nat.le_0_l _) N A) as (result & R & L).
  cbn [logs] in L. rewrite WorkflowFacts.initialLogs_nth, N in L.
  exists result. eexists. split; [exact R|]. split; [exact L|]. split; reflexivity.
Qed.

Lemma run_threads_each_result_witness :
  snd (handleRunWorkflow drafts_then_edits [writer; editor] "Write about tea"
         false [] two_steps None)
  = [(0, request_of "Write about tea" "Write about tea"
           {| Step.id := "s1"; Step.agentId := "a1"; Step.description := "Draft" |}
           writer);
     (1, request_of "Write about tea" "A draft."
           {| Step.id := "s2"; Step.agentId := "a2"; Step.description := "Edit" |}
           editor)].
Proof.
  refine (proj1 (run_threads_each_result drafts_then_edits [writer; editor]
                   "Write about tea" [] two_steps None eq_refl _)).
  intros j step agent N A.
  destruct j as [|[|j]]; simpl in N; try (destruct j; discriminate);
    injection N as <-; vm_compute in A; injection A as <-.
  - exists (str "A draft."), "A draft.". split; vm_compute; reflexivity.
  - exists (str "An edited draft."), "An edited draft.".
    split; vm_compute; reflexivity.
Defined.

End RunFacts.

(* ===================================================================== *)
(** * Properties of the chat sessions *)
(* ===================================================================== *)

Module ChatFacts.
Import JS.
Import Chat.
Import ChatProps.

Lemma filter_fresh (i : string) (sessions : list ChatSession) :
  fresh i sessions ->
  filter (fun s => negb (String.eqb (id s) i)) sessions = sessions.
Proof.
  induction 1 as [|s r H _ IH]; [reflexivity|].
  simpl. apply String.eqb_neq in H. rewrite H, IH. reflexivity.
Qed.

(** X20: deleting the session just created gives back the sessions there
    were, with no session current, provided none of them has the id of the
    new session (the clock reading, in decimal). *)
Theorem delete_undoes_create (now_id now_created : Z) (config : Config)
  (sessions : list ChatSession) :
  fresh (Text.of_Z now_id) sessions ->
  let '(created, current) := createNewSession now_id now_created config sessions in
  deleteSession (Text.of_Z now_id) created current = (sessions, None).
Proof.
  intros F. unfold createNewSession, deleteSession. cbn [filter id].
  rewrite !String.eqb_refl. cbn [negb]. rewrite (filter_fresh _ _ F). reflexivity.
Qed.

Lemma delete_undoes_create_witness :
  deleteSession "1700000000000"
    (fst (createNewSession 1700000000000 1700000000001 defaults
            [new_chat; tea_chat; rice_chat]))
    (snd (createNewSession 1700000000000 1700000000001 defaults
            [new_chat; tea_chat; rice_chat]))
  = ([new_chat; tea_chat; rice_chat], None).
Proof.
  apply (delete_undoes_create 1700000000000 1700000000001 defaults
           [new_chat; tea_chat; rice_chat]).
  repeat constructor; discriminate.
Defined.

Lemma map_fresh (userInput i : string) (sessions : list ChatSession) :
  fresh i sessions -> map (with_user_message userInput i) sessions = sessions.
Proof.
  induction 1 as [|s r H _ IH]; [reflexivity|].
  simpl. rewrite IH. unfold with_user_message.
  apply String.eqb_neq in H. rewrite H. reflexivity.
Qed.

Lemma with_user_message_sent_at (userInput : string) (s : ChatSession) :
  (if String.eqb (id s) (id s) then
     {| id := id s;
        title := if Resolver.is_nil (messages s) then slice 30 userInput
                 else title s;
        messages := messages s ++ [user_message userInput];
        config := config s;
        createdAt := createdAt s |}
   else s) = sent userInput s.
Proof.
  unfold sent. rewrite String.eqb_refl. destruct (messages s); reflexivity.
Qed.

Lemma with_user_message_sent (userInput : string) (s : ChatSession) :
  with_user_message userInput (id s) s = sent userInput s.
Proof.
  unfold with_user_message, sent. rewrite String.eqb_refl.
  destruct (messages s); reflexivity.
Qed.

Lemma map_turned (userInput sessionId : string) (sessions : list ChatSession) :
  Forall2 (turned userInput sessionId) sessions
    (map (with_user_message userInput sessionId) sessions).
Proof.
  induction sessions as [|s r IH]; constructor; [|exact IH].
  unfold turned, with_user_message. split.
  - intros <-. rewrite with_user_message_sent_at. reflexivity.
  - intros H. apply String.eqb_neq in H. rewrite H. reflexivity.
Qed.

(** X21: the opening of a turn adds the user message to every session
    that has the id of the session of the turn and leaves the other
    sessions as they are, in their places.  With no session current, a
    session is opened at the head of the list under the clock reading in
    decimal; it holds the message alone and its title is the first 30 code
    units of the input: the ellipsis it was created with is overwritten.
    With a session current, the message is appended to the sessions of
    that id, and the title of such a session changes only if it had no
    message.  Where the id of the turn names one session of the list, that
    session alone changes. *)
Theorem open_turn_adds_the_user_message (input : string) (config : Config)
  (now_id now_created : Z) (sessions pre post : list ChatSession)
  (c : string) (s : ChatSession) :
  Text.is_empty (Text.trim input) = false ->
  (exists rest,
     open_turn input false None sessions config now_id now_created
     = Some (Text.of_Z now_id,
             {| id := Text.of_Z now_id; title := slice 30 input;
                messages := [user_message input];
                config := config; createdAt := now_created |} :: rest)
     /\ Forall2 (turned input (Text.of_Z now_id)) sessions rest
     /\ (fresh (Text.of_Z now_id) sessions -> rest = sessions))
  /\ (c <> "" ->
      exists after,
        open_turn input false (Some c) sessions config now_id now_created
        = Some (c, after)
        /\ Forall2 (turned input c) sessions after)
  /\ (id s <> "" -> fresh (id s) pre -> fresh (id s) post ->
      open_turn input false (Some (id s)) (pre ++ s :: post) config
        now_id now_created
      = Some (id s, pre ++ sent input s :: post)).
Proof.
  intros B. unfold open_turn. rewrite B. cbn [orb]. split; [|split].
  - exists (map (with_user_message input (Text.of_Z now_id)) sessions).
    split; [|split].
    + cbn [id map]. unfold with_user_message at 1. cbn [id].
      rewrite String.eqb_refl. reflexivity.
    + apply map_turned.
    + apply map_fresh.
  - intros Hne.
    assert (E : Text.is_empty c = false)
      by (revert Hne; destruct c; [congruence|reflexivity]).
    rewrite E. eexists. split; [reflexivity | apply map_turned].
  - intros Hne Fpre Fpost.
    assert (E : Text.is_empty (id s) = false)
      by (revert Hne; destruct (id s); [congruence|reflexivity]).
    rewrite E, map_app. cbn [map].
    rewrite (map_fresh _ _ _ Fpre), (map_fresh _ _ _ Fpost), with_user_message_sent.
    reflexivity.
Qed.

Lemma open_turn_adds_the_user_message_witness :
  open_turn "Tell me about the history of tea in Japan, please" false None
    [new_chat; tea_chat] defaults 1700000000000 1700000000001
  = Some ("1700000000000",
          [{| id := "1700000000000"; title := "Tell me about the history of t";
              messages := [user_message
                             "Tell me about the history of tea in Japan, please"];
              config := defaults; createdAt := 1700000000001 |};
           new_chat; tea_chat])
  /\ open_turn "And is mate one?" false (Some "1699999990000")
       [new_chat; tea_chat; rice_chat] defaults 1700000000000 1700000000001
     = Some ("1699999990000",
             [new_chat;
              {| id := "1699999990000"; title := "Is tea a herb?";
                 messages := [user_message "Is tea a herb?";
                              obj [("role", str "assistant");
                                   ("content", str "It is a shrub.")];
                              user_message "And is mate one?"];
                 config := defaults; createdAt := 1699999990000 |};
              rice_chat])
  /\ open_turn "Which tea keeps longest in a tin?" false (Some "1699999995000")
       [new_chat; tea_chat] defaults 1700000000000 1700000000001
     = Some ("1699999995000",
             [{| id := "1699999995000"; title := "Which tea keeps longest in a t";
                 messages := [user_message "Which tea keeps longest in a tin?"];
                 config := defaults; createdAt := 1699999995000 |};
              tea_chat]).
Proof.
  split; [|split].
  - destruct (open_turn_adds_the_user_message
                "Tell me about the history of tea in Japan, please" defaults
                1700000000000 1700000000001 [new_chat; tea_chat] [] [] "x"
                new_chat eq_refl) as ((rest & E & _ & F) & _).
    rewrite E, F; [reflexivity|]. repeat constructor; discriminate.
  - refine (proj2 (proj2 (open_turn_adds_the_user_message
                "And is mate one?" defaults
                1700000000000 1700000000001 [] [new_chat] [rice_chat] "x"
                tea_chat eq_refl)) _ _ _).
    + discriminate.
    + repeat constructor; discriminate.
    + repeat constructor; discriminate.
  - refine (proj2 (proj2 (open_turn_adds_the_user_message
                "Which tea keeps longest in a tin?" defaults
                1700000000000 1700000000001 [] [] [tea_chat] "x"
                new_chat eq_refl)) _ _ _).
    + discriminate.
    + constructor.
    + repeat constructor; discriminate.
Defined.

End ChatFacts.

(* ===================================================================== *)
(** * Properties of the rendering and of the workflow editor *)
(* ===================================================================== *)

Module DisplayFacts.
Import Display.
Import DisplayProps.
Import TextProps.

Lemma split_from_skip (sep p rest : string) :
  split_from sep (String.length p) (p +++ rest) = split_from sep 0 rest.
Proof.
  induction p as [|c r IH]; simpl.
  - destruct rest; reflexivity.
  - exact IH.
Qed.

Lemma split_from_unfold (sep : string) (c : ascii) (r : string) :
  split_from sep 0 (String c r) =
  if String.prefix sep (String c r)
  then EmptyString :: split_from sep (String.length sep - 1) r
  else match split_from sep 0 r with
       | l :: ls => String c l :: ls
       | [] => [String c EmptyString]
       end.
Proof. reflexivity. Qed.

(** Splitting at an occurrence of the separator. *)
Lemma split_here (a : ascii) (sep' rest : string) :
  split (String a sep') (String a sep' +++ rest) = EmptyString :: split (String a sep') rest.
Proof.
  unfold split.
  change (String a sep' +++ rest) with (String a (sep' +++ rest)).
  rewrite split_from_unfold.
  change (String a (sep' +++ rest)) with (String a sep' +++ rest).
  rewrite TextFacts.prefix_app.
  replace (String.length (String a sep') - 1) with (String.length sep')
    by (simpl; lia).
  rewrite split_from_skip. reflexivity.
Qed.

Lemma split_not_nil (sep s : string) : forall k, split_from sep k s <> [].
Proof.
  induction s as [|c r IH]; intros k; [destruct k; discriminate|].
  destruct k; [|apply IH].
  rewrite split_from_unfold.
  destruct (String.prefix sep (String c r)); [discriminate|].
  destruct (split_from sep 0 r); discriminate.
Qed.

(** A prefix test that fails on [r] fails on [r] followed by a text that
    starts with a character the pattern does not have. *)
Lemma prefix_fails_app (a : ascii) (p : string) :
  lacks a p = true ->
  forall r t, String.prefix p r = false ->
              String.prefix p (r +++ String a t) = false.
Proof.
  induction p as [|b p' IH]; intros L r t H.
  - destruct r; discriminate.
  - rewrite TextFacts.lacks_cons in L. apply andb_prop in L. destruct L as [Lb Lp].
    destruct r as [|d r'].
    + simpl. apply negb_true_iff in Lb.
      rewrite Ascii.eqb_sym in Lb.
      destruct (Ascii.ascii_dec b a) as [->|N].
      * rewrite Ascii.eqb_refl in Lb. discriminate.
      * destruct (Ascii.ascii_dec b a); [contradiction|reflexivity].
    + simpl in *. destruct (Ascii.ascii_dec b d); [|reflexivity].
      apply IH; assumption.
Qed.

(** Before the first occurrence: a text that does not hold the
    separator, whose first character does not occur again in it. *)
Lemma split_before (a : ascii) (sep' : string) (pre rest : string) :
  lacks a sep' = true ->
  Text.includes pre (String a sep') = false ->
  split (String a sep') (pre +++ String a sep' +++ rest)
  = pre :: split (String a sep') rest.
Proof.
  intros L. induction pre as [|c r IH]; intros I.
  - apply split_here.
  - simpl in I. apply orb_false_elim in I. destruct I as [P I].
    specialize (IH I). unfold split in *.
    change (String c r +++ String a sep' +++ rest)
      with (String c (r +++ String a sep' +++ rest)).
    rewrite split_from_unfold, IH.
    replace (String.prefix (String a sep') (String c (r +++ String a sep' +++ rest)))
      with false; [reflexivity|].
    symmetry. simpl in P |- *.
    destruct (Ascii.ascii_dec a c); [|reflexivity].
    apply (prefix_fails_app a sep' L r (sep' +++ rest) P).
Qed.

Lemma split_none (sep s : string) :
  Text.includes s sep = false -> sep <> EmptyString -> split sep s = [s].
Proof.
  intros I N. unfold split. induction s as [|c r IH]; [reflexivity|].
  simpl in I. apply orb_false_elim in I. destruct I as [P I].
  rewrite split_from_unfold. simpl String.prefix. rewrite P, (IH I). reflexivity.
Qed.

Lemma includes_at (pre sep rest : string) :
  Text.includes (pre +++ sep +++ rest) sep = true.
Proof.
  apply TextFacts.includes_app_r.
  pose proof (TextFacts.prefix_app sep rest) as P.
  destruct (sep +++ rest); cbn [Text.includes]; rewrite P; reflexivity.
Qed.

Lemma split_open (pre rest : string) :
  Text.includes pre open_tag = false ->
  split open_tag (pre +++ open_tag +++ rest) = pre :: split open_tag rest.
Proof. exact (split_before "<" "think>" pre rest eq_refl). Qed.

Lemma split_close (pre rest : string) :
  Text.includes pre close_tag = false ->
  split close_tag (pre +++ close_tag +++ rest) = pre :: split close_tag rest.
Proof. exact (split_before "<" "/think>" pre rest eq_refl). Qed.

Lemma split_piece (a : ascii) (sep' piece tail : string) :
  lacks a sep' = true ->
  Text.includes piece (String a sep') = false ->
  ends_at (String a sep') tail ->
  exists more, split (String a sep') (piece +++ tail) = piece :: more.
Proof.
  intros L I [->|[rest ->]].
  - rewrite TextFacts.append_nil_r.
    rewrite (split_none _ _ I ltac:(discriminate)). eauto.
  - rewrite (split_before a sep' piece rest L I). eauto.
Qed.

Lemma split_open_piece (piece tail : string) :
  Text.includes piece open_tag = false -> ends_at open_tag tail ->
  exists more, split open_tag (piece +++ tail) = piece :: more.
Proof. exact (split_piece "<" "think>" piece tail eq_refl). Qed.

Lemma split_close_piece (piece tail : string) :
  Text.includes piece close_tag = false -> ends_at close_tag tail ->
  exists more, split close_tag (piece +++ tail) = piece :: more.
Proof. exact (split_piece "<" "/think>" piece tail eq_refl). Qed.

(** X27: the reasoning block of an assistant message.  A content with no
    opening tag is shown as it is, untrimmed, with no reasoning.
    Otherwise only the block that follows the first opening tag counts,
    and it ends at the next opening tag or at the end of the content: the
    reasoning is the block up to its first closing tag (the whole block
    when it has none), and the text shown is what precedes the first
    opening tag joined to what lies in the block between its first and its
    second closing tag (to the end of the block when there is no second
    one), trimmed.  What follows a second closing tag or a second opening
    tag is neither reasoning nor shown. *)
Theorem thought_parser_splits_the_block (pre th shown dropped later : string) :
  Text.includes pre open_tag = false ->
  Text.includes th close_tag = false ->
  ends_at open_tag later ->
  (thought_parser pre = (EmptyString, pre))
  /\ (Text.includes th open_tag = false ->
      thought_parser (pre +++ open_tag +++ th +++ later) = (th, Text.trim pre))
  /\ (Text.includes (th +++ close_tag +++ shown +++ dropped) open_tag = false ->
      Text.includes shown close_tag = false ->
      ends_at close_tag dropped ->
      thought_parser
        (pre +++ open_tag +++ (th +++ close_tag +++ shown +++ dropped) +++ later)
      = (th, Text.trim (pre +++ shown))).
Proof.
  intros Hpre Hth Hlater. split; [|split].
  - unfold thought_parser. rewrite Hpre. reflexivity.
  - intros Hopen. unfold thought_parser. rewrite includes_at.
    rewrite (split_open pre _ Hpre).
    destruct (split_open_piece th later Hopen Hlater) as [more ->].
    cbn [nth].
    rewrite (split_none _ _ Hth ltac:(discriminate)).
    cbn [nth]. rewrite TextFacts.append_nil_r. reflexivity.
  - intros Hblock Hshown Hdropped. unfold thought_parser. rewrite includes_at.
    rewrite (split_open pre _ Hpre).
    destruct (split_open_piece _ later Hblock Hlater) as [more ->].
    cbn [nth].
    rewrite (split_close th _ Hth).
    destruct (split_close_piece shown dropped Hshown Hdropped) as [more' ->].
    reflexivity.
Qed.

Lemma thought_parser_splits_the_block_witness :
  thought_parser "<think>The user greets me.</think>Hello!"
  = ("The user greets me.", "Hello!")
  /\ thought_parser "<think>The user gre" = ("The user gre", "")
  /\ thought_parser "a<think>b<think>c</think>d" = ("b", "a")
  /\ thought_parser "Hi <think>a</think>b</think>c<think>d" = ("a", "Hi b").
Proof.
  destruct (thought_parser_splits_the_block "" "The user greets me." "Hello!" "" ""
              eq_refl eq_refl (or_introl eq_refl)) as (_ & _ & A).
  destruct (thought_parser_splits_the_block "" "The user gre" "" "" ""
              eq_refl eq_refl (or_introl eq_refl)) as (_ & B & _).
  destruct (thought_parser_splits_the_block "a" "b" "" "" "<think>c</think>d"
              eq_refl eq_refl (or_intror (ex_intro _ "c</think>d" eq_refl)))
    as (_ & C & _).
  destruct (thought_parser_splits_the_block "Hi " "a" "b" "</think>c" "<think>d"
              eq_refl eq_refl (or_intror (ex_intro _ "d" eq_refl)))
    as (_ & _ & D).
  split; [exact (A eq_refl eq_refl (or_introl eq_refl))|].
  split; [exact (B eq_refl)|].
  split; [exact (C eq_refl)|].
  exact (D eq_refl eq_refl (or_intror (ex_intro _ "c" eq_refl))).
Defined.

End DisplayFacts.

Module EditorFacts.
Import Editor.

Lemma nth_error_split_at {A} (l : list A) (n : nat) (x : A) :
  nth_error l n = Some x -> l = firstn n l ++ x :: skipn (S n) l.
Proof.
  revert n. induction l as [|a r IH]; intros n H; [destruct n; discriminate|].
  destruct n as [|n]; simpl in *.
  - injection H as ->. reflexivity.
  - f_equal. apply IH, H.
Qed.

(** X28: dropping a dragged step on a step of the same list moves it
    there and keeps every step: the result has the same steps (it is a
    permutation of the list, with no undefined element), the dragged step
    stands at the index it was dropped on, and a step dropped on itself
    leaves the list as it was.  When nothing is being dragged the list is
    unchanged; when the index dragged from is not an index of the list
    (the step was dragged from another workflow), no step is removed and an
    undefined element is inserted. *)
Theorem onDrop_moves_the_step {A} (from sIdx : nat) (steps : list A) :
  onDrop None sIdx steps = map Some steps
  /\ (from < List.length steps -> sIdx < List.length steps ->
      exists moved,
        onDrop (Some from) sIdx steps = map Some moved
        /\ Permutation moved steps
        /\ nth_error moved sIdx = nth_error steps from
        /\ (from = sIdx -> moved = steps))
  /\ (List.length steps <= from ->
      onDrop (Some from) sIdx steps
      = map Some (firstn sIdx steps) ++ None :: map Some (skipn sIdx steps)).
Proof.
  split; [reflexivity|]. split.
  - intros Hf Ht.
    destruct (nth_error steps from) as [x|] eqn:N.
    2:{ apply nth_error_None in N. lia. }
    pose proof (nth_error_split_at steps from x N) as E.
    set (rest := firstn from steps ++ skipn (S from) steps).
    assert (Lr : List.length rest = List.length steps - 1).
    { unfold rest. rewrite length_app, length_firstn, length_skipn. lia. }
    exists (firstn sIdx rest ++ x :: skipn sIdx rest).
    split; [|split; [|split]].
    + unfold onDrop, splice_out, splice_in.
      rewrite nth_error_map, N. cbn [option_map].
      rewrite firstn_map, skipn_map, <- map_app. fold rest.
      rewrite firstn_map, skipn_map.
      change (Some x :: map Some (skipn sIdx rest))
        with (map Some (x :: skipn sIdx rest)).
      rewrite <- map_app. reflexivity.
    + rewrite <- Permutation_middle, firstn_skipn.
      unfold rest.
      apply Permutation_trans with (firstn from steps ++ x :: skipn (S from) steps);
        [apply Permutation_middle | rewrite <- E; apply Permutation_refl].
    + rewrite nth_error_app2 by (rewrite length_firstn; lia).
      rewrite length_firstn.
      replace (sIdx - Init.Nat.min sIdx (List.length rest)) with 0 by lia.
      reflexivity.
    + intros <-. unfold rest.
      rewrite firstn_app, length_firstn.
      replace (from - Init.Nat.min from (List.length steps)) with 0 by lia.
      rewrite firstn_O, app_nil_r, firstn_firstn, Nat.min_id.
      rewrite skipn_app, length_firstn.
      replace (from - Init.Nat.min from (List.length steps)) with 0 by lia.
      rewrite skipn_O.
      rewrite (skipn_all2 (firstn from steps)) by (rewrite length_firstn; lia).
      symmetry. exact E.
  - intros Hf. unfold onDrop, splice_out, splice_in.
    assert (N : nth_error (map Some steps) from = None)
      by (apply nth_error_None; rewrite length_map; exact Hf).
    rewrite N.
    rewrite (firstn_all2 (n := from)) by (rewrite length_map; exact Hf).
    rewrite (skipn_all2 (n := S from)) by (rewrite length_map; lia).
    rewrite app_nil_r, firstn_map, skipn_map. reflexivity.
Qed.

End EditorFacts.

(* ===================================================================== *)
(** * Properties of the memory round and of a whole turn *)
(* ===================================================================== *)

Module MemoryFacts.
Import JS.
Import Memory.
Import MemoryProps.

Lemma getEmbedding_unavailable (r : Net.reply) :
  unavailable r <-> truthy (getEmbedding r) = false.
Proof.
  unfold unavailable, getEmbedding. destruct r as [e|ok status body].
  - split; auto.
  - destruct ok.
    + destruct (JSON.parse body) as [data|] eqn:P; cbn [bind].
      * destruct data; cbn [get get_own truthy]; split; auto;
          try (intros [H|H]; [discriminate|exact H]).
      * split; auto.
    + split; auto.
Qed.

Lemma search_url_spelled (config : Chat.Config) :
  search_url config
  = Chat.vectorDbUrl config +++ "/collections/"
    +++ Chat.collectionName config +++ "/points/search".
Proof.
  unfold search_url, collection_url. rewrite !TextFacts.append_assoc. reflexivity.
Qed.

Lemma points_url_spelled (config : Chat.Config) :
  points_url config
  = Chat.vectorDbUrl config +++ "/collections/"
    +++ Chat.collectionName config +++ "/points".
Proof.
  unfold points_url, collection_url. rewrite !TextFacts.append_assoc. reflexivity.
Qed.

(** X22: when no embedding can be had for the input (the request is
    rejected, the status is not a success, the body is not JSON or holds no
    embedding), the turn goes on without memory: no context is added, no
    source is shown, nothing is raised, and the vector store gets no
    request; nothing is stored.  The one request of the round went to
    [/api/embeddings] at the Ollama address of the application settings,
    for their embedding model. *)
Theorem no_embedding_no_memory (w : World) (config : Chat.Config)
  (userInput sessionId : string) :
  unavailable (embedding w) ->
  remember w config userInput sessionId
  = ({| contextString := ""; mcpContext := [];
        requests := [Embeddings (Chat.ollamaUrl config +++ "/api/embeddings")
                       (Chat.embedModel config) userInput] |}, None).
Proof.
  intros U. apply getEmbedding_unavailable in U.
  unfold remember. rewrite U. reflexivity.
Qed.

Lemma no_embedding_no_memory_witness :
  remember {| embedding := Net.Response false 404 "model not found";
              check := Net.Rejected (Error "down");
              create := Net.Rejected (Error "down");
              search := Net.Rejected (Error "down");
              point_now := 0; stamp_now := 0 |}
    ChatProps.defaults "Tea?" "s1"
  = ({| contextString := ""; mcpContext := [];
        requests := [Embeddings "http://localhost:11434/api/embeddings"
                       "nomic-embed-text" "Tea?"] |}, None).
Proof.
  apply (no_embedding_no_memory _ ChatProps.defaults "Tea?" "s1").
  left. reflexivity.
Defined.

Lemma context_lines_hold (l : list value) (cs : list string) :
  Forall2 holds l cs ->
  context_lines l = Normal (map (String.append "- ") cs).
Proof.
  induction 1 as [|r c l cs (fs & ps & -> & P & C) _ IH]; [reflexivity|].
  simpl. unfold context_line. cbn [get get_own bind]. rewrite P.
  cbn [get get_own bind]. rewrite C. cbn [to_string bind]. rewrite IH. reflexivity.
Qed.

(** X23: with an embedding, the store is searched before the input is
    stored, so the input is never recalled as its own context.  When the
    search yields results whose payloads hold texts, the context string
    lists the texts, one line each, in the order of the results, under the
    header, one memory source is shown, and the input is then stored; when
    the search fails or yields nothing, no context is added and the input
    is stored all the same.  The embedding is asked of the Ollama address
    of the application settings; the look-up, the search and the storing
    go to the collection of the application settings at their vector
    store address. *)
Theorem recall_then_store (w : World) (config : Chat.Config)
  (userInput sessionId : string) (l : list value) (cs : list string) :
  let vector := getEmbedding (embedding w) in
  truthy vector = true ->
  (searchQdrant (search w) = arr l ->
   positive (get_own (arr l) "length") = Normal true ->
   Forall2 holds l cs ->
   remember w config userInput sessionId
   = ({| contextString :=
           context_header +++ Text.join Text.newline (map (String.append "- ") cs);
         mcpContext := [memory_source];
         requests := looked_up w config userInput vector
                     ++ [stored w config userInput sessionId vector] |}, None))
  /\ (searchQdrant (search w) = arr [] ->
      remember w config userInput sessionId
      = ({| contextString := ""; mcpContext := [];
            requests := looked_up w config userInput vector
                        ++ [stored w config userInput sessionId vector] |}, None))
  /\ ((forall e, search w = Net.Rejected e -> searchQdrant (search w) = arr [])
      /\ (forall ok status body e,
             search w = Net.Response ok status body -> JSON.parse body = Throw e ->
             searchQdrant (search w) = arr [])).
Proof.
  intros vector V. split; [|split; [|split]].
  - intros S P H. unfold remember. fold vector. rewrite V, S.
    unfold recalled. rewrite P. cbn [bind]. rewrite (context_lines_hold l cs H).
    cbn [bind]. unfold looked_up, stored.
    rewrite search_url_spelled, points_url_spelled.
    rewrite <- app_assoc. reflexivity.
  - intros S. unfold remember. fold vector. rewrite V, S.
    unfold looked_up, stored.
    rewrite search_url_spelled, points_url_spelled.
    cbn. rewrite <- app_assoc. reflexivity.
  - intros e ->. reflexivity.
  - intros ok status body e -> P. unfold searchQdrant. rewrite P. reflexivity.
Qed.

Lemma recall_then_store_witness :
  remember tea_world ChatProps.defaults "Which tea?" "s1"
  = ({| contextString :=
          context_header +++ "- I like green tea" +++ Text.newline +++ "- No sugar";
        mcpContext := [memory_source];
        requests :=
          [Embeddings "http://localhost:11434/api/embeddings" "nomic-embed-text"
             "Which tea?";
           CollectionInfo "http://localhost:6333/collections/chat_memory";
           Search "http://localhost:6333/collections/chat_memory/points/search"
             (getEmbedding (embedding tea_world));
           Upsert "http://localhost:6333/collections/chat_memory/points" 21
             (getEmbedding (embedding tea_world)) "Which tea?" "s1" 22] |},
      None).
Proof.
  refine (proj1 (recall_then_store tea_world ChatProps.defaults "Which tea?" "s1"
                   [obj [("id", num (of_Z 1)); ("score", num (of_decimal false 9 (-1)));
                         ("payload", obj [("content", str "I like green tea")])];
                    obj [("id", num (of_Z 2)); ("score", num (of_decimal false 8 (-1)));
                         ("payload", obj [("content", str "No sugar")])]]
                   ["I like green tea"; "No sugar"] _) _ _ _).
  - vm_compute. reflexivity.
  - vm_compute. reflexivity.
  - vm_compute. reflexivity.
  - repeat constructor; do 2 eexists; repeat split; reflexivity.
Defined.

Lemma context_lines_missing (l : list value) (r : value) :
  In r l -> get_opt r "payload" = undefined \/ get_opt r "payload" = null ->
  exists e, context_lines l = Throw e.
Proof.
  induction l as [|x rest IH]; intros I H; [destruct I|].
  simpl. destruct I as [->|I].
  - unfold context_line.
    destruct r; cbn [get get_opt bind] in *;
      try (eexists; reflexivity);
      destruct H as [-> | ->]; eexists; reflexivity.
  - destruct (IH I H) as [e E]. rewrite E.
    destruct (context_line x); eexists; reflexivity.
Qed.

(** X24: a search result that has no payload (or is itself [null]) ends
    the turn: the memory round raises, the input is not stored, and since
    the chat request comes after the memory round, none is sent.  The
    requests sent are those up to the search, at the addresses of the
    application settings. *)
Theorem result_without_payload_ends_the_turn (w : World) (config : Chat.Config)
  (userInput sessionId : string) (l : list value) (r : value) :
  truthy (getEmbedding (embedding w)) = true ->
  searchQdrant (search w) = arr l ->
  positive (get_own (arr l) "length") = Normal true ->
  In r l ->
  get_opt r "payload" = undefined \/ get_opt r "payload" = null ->
  exists e,
    remember w config userInput sessionId
    = ({| contextString := ""; mcpContext := [];
          requests := looked_up w config userInput (getEmbedding (embedding w)) |},
       Some e).
Proof.
  intros V S P I H. unfold remember. rewrite V, S.
  unfold recalled. rewrite P. cbn [bind].
  destruct (context_lines_missing l r I H) as [e ->]. exists e.
  unfold looked_up. rewrite search_url_spelled. reflexivity.
Qed.

Lemma result_without_payload_ends_the_turn_witness :
  exists e,
    remember no_payload_world ChatProps.defaults "Which tea?" "s1"
    = ({| contextString := ""; mcpContext := [];
          requests :=
            [Embeddings "http://localhost:11434/api/embeddings" "nomic-embed-text"
               "Which tea?";
             CollectionInfo "http://localhost:6333/collections/chat_memory";
             Search "http://localhost:6333/collections/chat_memory/points/search"
               (getEmbedding (embedding tea_world))] |},
       Some e).
Proof.
  refine (result_without_payload_ends_the_turn no_payload_world
            ChatProps.defaults "Which tea?" "s1"
            [obj [("id", num (of_Z 1)); ("score", num (of_decimal false 9 (-1)));
                  ("payload", null)]]
            (obj [("id", num (of_Z 1)); ("score", num (of_decimal false 9 (-1)));
                  ("payload", null)]) _ _ _ _ _).
  - vm_compute. reflexivity.
  - vm_compute. reflexivity.
  - vm_compute. reflexivity.
  - left. reflexivity.
  - right. reflexivity.
Defined.

End MemoryFacts.

Module WholeTurnFacts.
Import JS.
Import Turn.
Import TurnProps.

Lemma remember_reads (w : Memory.World) (config config' : Chat.Config)
  (userInput sessionId : string) :
  Chat.embedModel config = Chat.embedModel config' ->
  Chat.ollamaUrl config = Chat.ollamaUrl config' ->
  Chat.vectorDbUrl config = Chat.vectorDbUrl config' ->
  Chat.collectionName config = Chat.collectionName config' ->
  Memory.remember w config userInput sessionId
  = Memory.remember w config' userInput sessionId.
Proof.
  intros E O V C.
  unfold Memory.remember, Memory.initializeQdrantCollection, Memory.embeddings_url,
    Memory.search_url, Memory.points_url, Memory.collection_url.
  rewrite E, O, V, C. reflexivity.
Qed.

Lemma post_of_reads (config config' : Chat.Config) (session : Chat.ChatSession)
  (qs : list Net.request) :
  Chat.ollamaUrl config = Chat.ollamaUrl config' ->
  flat_map (post_of config session) qs = flat_map (post_of config' session) qs.
Proof.
  intros O. induction qs as [|q r IH]; [reflexivity|].
  cbn [flat_map]. rewrite IH. unfold post_of. rewrite O. reflexivity.
Qed.

(** X25: a turn in a session that exists takes the system prompt and the
    sampling options (temperature and top-k) from the configuration the
    session was created with: those of the application settings are not
    read, so changing them after the session was opened changes nothing of
    the turn, neither a request (with its address, model and options), nor
    the messages, nor the report.  The addresses (Ollama, vector store,
    collection), the embedding model and the tool switch are read from the
    application settings, as is the model named in the report when the
    session has none: the two settings have these in common. *)
Theorem session_keeps_its_configuration (w : World) (input : string)
  (isLoading : bool) (current : string) (sessions : list Chat.ChatSession)
  (config config' : Chat.Config) (mcpServers : list Registry.McpServer) :
  current <> "" ->
  same_for_a_turn config config' ->
  handleSendMessage w input isLoading (Some current) sessions config mcpServers
  = handleSendMessage w input isLoading (Some current) sessions config' mcpServers.
Proof.
  intros N (E & M & D & O & V & C). unfold handleSendMessage, Chat.open_turn.
  destruct (Text.is_empty (Text.trim input) || isLoading); [reflexivity|].
  assert (B : Text.is_empty current = false)
    by (revert N; destruct current; [congruence|reflexivity]).
  rewrite B, M, D, (remember_reads _ config config' _ _ E O V C).
  destruct (Memory.remember _ config' _ _) as [r [e|]]; [reflexivity|].
  destruct (find _ _) as [session|]; [|reflexivity].
  destruct (respond _ _ _ _ _ _ _ _) as [listing [t e]].
  rewrite (post_of_reads config config' session _ O). reflexivity.
Qed.

Lemma session_keeps_its_configuration_witness :
  handleSendMessage tea_turn "Which tea?" false (Some "s1") [tea_session]
    ChatProps.defaults [RegistryProps.up]
  = handleSendMessage tea_turn "Which tea?" false (Some "s1") [tea_session]
      terse [RegistryProps.up]
  /\ chats (handleSendMessage tea_turn "Which tea?" false (Some "s1") [tea_session]
              terse [RegistryProps.up])
     = [{| post_address := "http://localhost:11434/api/chat";
           post_model := "llama3.2";
           post_temperature := of_decimal false 7 (-1);
           post_top_k := of_Z 40;
           post_messages :=
             [ToolsProps.opening_message
                ("You are helpful." +++ Memory.context_header
                 +++ "- I like green tea" +++ Text.newline +++ "- No sugar"
                 +++ Prompt.tools_notice [current_time]);
              Chat.user_message "Which tea?"];
           post_tools := Some [current_time] |}].
Proof.
  assert (H := session_keeps_its_configuration tea_turn "Which tea?" false "s1"
                 [tea_session] ChatProps.defaults terse [RegistryProps.up]
                 ltac:(discriminate) ltac:(repeat split)).
  split; [exact H|].
  rewrite <- H. vm_compute. reflexivity.
Defined.

Lemma find_online (mcpServers : list Registry.McpServer) (s : Registry.McpServer) :
  find (fun s => negb (Registry.is_offline (Registry.status s))) mcpServers = Some s ->
  exists pre post,
    mcpServers = pre ++ s :: post
    /\ Forall (fun x => ~ is_online x) pre /\ is_online s.
Proof.
  induction mcpServers as [|x r IH]; [discriminate|].
  simpl. destruct (Registry.status x) eqn:E; simpl.
  - intros H. injection H as <-. exists [], r. repeat split; auto.
  - intros H. destruct (IH H) as (pre & post & -> & F & O).
    exists (x :: pre), post. repeat split; auto.
    constructor; [|exact F]. unfold is_online. congruence.
Qed.

Lemma first_online (pre post : list Registry.McpServer) (s : Registry.McpServer) :
  Forall (fun x => ~ is_online x) pre -> is_online s ->
  find (fun s => negb (Registry.is_offline (Registry.status s))) (pre ++ s :: post)
  = Some s.
Proof.
  intros F O. induction F as [|x r H _ IH]; cbn [app find].
  - rewrite O. reflexivity.
  - unfold is_online in H. destruct (Registry.status x); [congruence|].
    cbn [Registry.is_offline negb]. exact IH.
Qed.

Lemma chats_offer_no_tool (config : Chat.Config) (session : Chat.ChatSession)
  (qs : list Net.request) :
  Forall ToolRoundProps.is_chat qs ->
  Forall (fun p => post_tools p = None) (flat_map (post_of config session) qs).
Proof.
  induction 1 as [|q r [messages ->] _ IH]; [constructor|].
  cbn [flat_map post_of app]. constructor; [reflexivity | exact IH].
Qed.

(** X12: what the tool switch covers.  With tool use disabled in the
    application settings, a turn asks no endpoint for its tools (no
    [tools/list] request), calls no tool even when the model answers with
    tool calls (no [tools/call] request), offers no tool in its chat
    requests, and closes its system prompt with the offline notice.  The
    switch does not cover the report of the turn: a turn that ends without
    an error is still reported to [/log/chat] of the first endpoint, in
    registration order, that is online. *)
Theorem disabled_turn_has_no_tool_traffic (w : World) (input : string)
  (isLoading : bool) (currentSessionId : option string)
  (sessions : list Chat.ChatSession) (config : Chat.Config)
  (mcpServers : list Registry.McpServer) :
  Chat.mcpEnabled config = false ->
  let o := handleSendMessage w input isLoading currentSessionId sessions config
             mcpServers in
  listing o = []
  /\ Forall (fun p => post_tools p = None) (chats o)
  /\ (forall t, conversation o = Some t ->
       Forall ToolRoundProps.is_chat (Conversation.requests t)
       /\ exists prompt,
            hd undefined (Conversation.history t)
            = ToolsProps.opening_message (prompt +++ Prompt.offline_notice))
  /\ (forall pre s post,
       conversation o <> None -> alert o = None ->
       mcpServers = pre ++ s :: post ->
       Forall (fun x => ~ is_online x) pre -> is_online s ->
       exists t sid model,
         conversation o = Some t /\ sessionId o = Some sid
         /\ reports o = [LogChat (Registry.url s +++ "/log/chat") input
                           (Conversation.content t) sid model]).
Proof.
  intros D. unfold handleSendMessage.
  destruct (Chat.open_turn _ _ _ _ _ _ _) as [[sid updated]|];
    [|cbn; repeat split; try constructor; try discriminate; congruence].
  destruct (Memory.remember _ _ _ _) as [r [e|]];
    [cbn; repeat split; try constructor; try discriminate; congruence|].
  destruct (find _ updated) as [session|];
    [|cbn; repeat split; try constructor; try discriminate; congruence].
  rewrite D.
  pose proof (TurnFacts.disabled_respond (chat w) (list_reply w) (list_now w)
                mcpServers
                (Chat.systemPrompt (Chat.config session) +++ Memory.contextString r)
                (Chat.messages session) (Memory.mcpContext r)) as H.
  destruct (respond _ _ _ _ _ _ _ _) as [l [t e]].
  destruct H as (L & Q & P).
  cbn [listing chats conversation alert reports sessionId].
  split; [exact L|]. split; [apply chats_offer_no_tool, Q|]. split.
  - intros t' T. injection T as <-. split; [exact Q|]. eexists. exact P.
  - intros pre s post _ A -> F O. subst e.
    unfold logToMlflow. rewrite (first_online pre post s F O).
    do 3 eexists. repeat split.
Qed.

Lemma disabled_turn_has_no_tool_traffic_witness :
  let o := handleSendMessage tea_turn "Which tea?" false None [] without_tools
             [RegistryProps.down; RegistryProps.up] in
  listing o = []
  /\ map post_tools (chats o) = [None]
  /\ reports o
     = [LogChat "http://localhost:8000/log/chat" "Which tea?"
          "It is sunny in Rome." "1700000000000" "llama3.2"].
Proof.
  destruct (disabled_turn_has_no_tool_traffic tea_turn "Which tea?" false None []
              without_tools [RegistryProps.down; RegistryProps.up] eq_refl)
    as (L & _ & _ & R).
  split; [exact L|]. split; [vm_compute; reflexivity|].
  destruct (R [RegistryProps.down] RegistryProps.up [])
    as (t & sid & model & C & S & E).
  - vm_compute. discriminate.
  - vm_compute. reflexivity.
  - reflexivity.
  - repeat constructor. discriminate.
  - reflexivity.
  - rewrite E. vm_compute in C, S, E. injection C as <-. injection S as <-.
    injection E as <-. reflexivity.
Defined.

(** X26: a turn is reported to the observability sink only when it ended
    without an error; the report then goes through the first endpoint, in
    registration order, that is online, and carries the input and the
    content the turn ended with. *)
Theorem only_a_finished_turn_is_reported (w : World) (input : string)
  (isLoading : bool) (currentSessionId : option string)
  (sessions : list Chat.ChatSession) (config : Chat.Config)
  (mcpServers : list Registry.McpServer) (rep : report) :
  let o := handleSendMessage w input isLoading currentSessionId sessions config
             mcpServers in
  In rep (reports o) ->
  alert o = None
  /\ exists t sid model pre s post,
       conversation o = Some t /\ sessionId o = Some sid
       /\ mcpServers = pre ++ s :: post
       /\ Forall (fun x => ~ is_online x) pre /\ is_online s
       /\ rep = LogChat (Registry.url s +++ "/log/chat") input
                  (Conversation.content t) sid model
       /\ reports o = [rep].
Proof.
  unfold handleSendMessage.
  destruct (Chat.open_turn _ _ _ _ _ _ _) as [[sid updated]|]; [|intros []].
  destruct (Memory.remember _ _ _ _) as [r [e|]]; [intros []|].
  destruct (find _ updated) as [session|]; [|intros []].
  destruct (Turn.respond _ _ _ _ _ _ _ _) as [listing [t [e|]]]; [intros []|].
  cbn [reports alert conversation sessionId]. unfold logToMlflow.
  destruct (find _ mcpServers) as [s|] eqn:F; [|intros []].
  intros [<-|[]]. split; [reflexivity|].
  destruct (find_online _ _ F) as (pre & post & E & P & O).
  do 6 eexists. repeat split; eauto.
Qed.

Lemma only_a_finished_turn_is_reported_witness :
  reports (handleSendMessage tea_turn "Which tea?" false None []
             ChatProps.defaults [RegistryProps.down; RegistryProps.up])
  = [LogChat "http://localhost:8000/log/chat" "Which tea?" "It is sunny in Rome."
       "1700000000000" "llama3.2"].
Proof.
  destruct (only_a_finished_turn_is_reported tea_turn "Which tea?" false None []
              ChatProps.defaults [RegistryProps.down; RegistryProps.up]
              (LogChat "http://localhost:8000/log/chat" "Which tea?"
                 "It is sunny in Rome." "1700000000000" "llama3.2"))
    as (_ & t & sid & model & pre & s & post & _ & _ & _ & _ & _ & _ & R).
  - vm_compute. left. reflexivity.
  - exact R.
Defined.

End WholeTurnFacts.

(* ===================================================================== *)
(** * The model on concrete inputs *)
(* ===================================================================== *)

Module ModelChecks.
Import JS.
Import Samples.

Example trim_both_ends : Text.trim "  a b  " = "a b".
Proof. reflexivity. Qed.

Example split_keeps_empty_tail :
  Text.split_lines ("a" +++ Text.newline +++ "b" +++ Text.newline) = ["a"; "b"; ""].
Proof. reflexivity. Qed.

Example replace_first_only : Text.remove_first "bc" "abcbc" = "abc".
Proof. reflexivity. Qed.

Example parse_object :
  reads "{'message':{'role':'assistant','content':'hi'},'done':false}"
  = Normal (obj [("message", obj [("role", str "assistant"); ("content", str "hi")]);
                 ("done", boolean false)]).
Proof. vm_compute. reflexivity. Qed.

Example parse_duplicate_key_last_wins :
  prints "{'b':1,'2':2,'a':3,'1':4,'2':5}" = Some (JSON.text "{'1':4,'2':5,'b':1,'a':3}").
Proof. vm_compute. reflexivity. Qed.

Example parse_rejects_fragment :
  reads "{'message':{'con" = Throw (SyntaxError "Unexpected token in JSON").
Proof. vm_compute. reflexivity. Qed.

Example parse_rejects_leading_zero :
  reads "01" = Throw (SyntaxError "Unexpected non-whitespace character after JSON").
Proof. vm_compute. reflexivity. Qed.

Example parse_escapes :
  prints "[1, 2.5e3 ,true,null, 'a\nbé' ]"
  = Some (JSON.text "[1,2500,true,null,'a\nb" +++ utf8_encode 233 +++ JSON.text "']").
Proof. vm_compute. reflexivity. Qed.

Example numbers_print_shortest :
  map shows ["100"; "2e9"; "0.1"; "1e21"; "1e-7"; "0.000001"; "5e-324";
             "0.30000000000000004"; "9007199254740993"; "-0"; "1e400"; " 12 ";
             "0x1F"; ".5"; "5."; "abc"; ""]
  = ["100"; "2000000000"; "0.1"; "1e+21"; "1e-7"; "0.000001"; "5e-324";
     "0.30000000000000004"; "9007199254740992"; "0"; "Infinity"; "12";
     "31"; "0.5"; "5"; "NaN"; "0"].
Proof. vm_compute. reflexivity. Qed.

Example array_to_string :
  to_string (arr [num (of_Z 1); null; arr [str "a"; obj []]; undefined])
  = Normal "1,,a,[object Object],".
Proof. vm_compute. reflexivity. Qed.

Example own_toString_field_throws :
  to_string (obj [("toString", num (of_Z 1))]) = Throw cannot_convert.
Proof. reflexivity. Qed.

Example bracket_pattern_is_lazy :
  Resolver.match_bracket "see [ab(c)d)] and [e]"
  = Some {| Resolver.span := "[ab(c)d)]"; Resolver.ident := "ab";
            Resolver.args := Some "c)d" |}.
Proof. vm_compute. reflexivity. Qed.

Example bracket_pattern_skips_unclosed :
  Resolver.match_bracket "[ab(c] [d]"
  = Some {| Resolver.span := "[d]"; Resolver.ident := "d"; Resolver.args := None |}.
Proof. vm_compute. reflexivity. Qed.

Example brace_pattern_is_greedy :
  Resolver.match_braces "a {b} c {d} e" = Some "{b} c {d}".
Proof. reflexivity. Qed.

Example sniff_keeps_prose :
  Resolver.resolve 17 []
    (JSON.text "Sure: {'name':'get_weather','arguments':[{'city':'Rome'}]} done.  ") []
  = (Resolver.synthesized "call_fallback_json_17" (str "get_weather")
       (obj [("city", str "Rome")]), "Sure:  done.").
Proof. vm_compute. reflexivity. Qed.

Example bracket_arguments_as_input :
  Resolver.resolve 17 [ResolverProps.clock_tool] "a [get_current_time(tz=UTC)] b" []
  = (Resolver.synthesized "call_fallback_bracket_17" (str "get_current_time")
       (obj [("input", str "tz=UTC")]), "a  b").
Proof. vm_compute. reflexivity. Qed.

Example native_calls_are_kept :
  Resolver.resolve 17 [] "[get_current_time]" [str "native"]
  = ([str "native"], "[get_current_time]").
Proof. reflexivity. Qed.

Example tool_text_is_extracted :
  Executor.executeMcpTool ConversationProps.sunny = Normal (str "Sunny").
Proof. vm_compute. reflexivity. Qed.

Example tool_error_reply_has_no_data :
  Executor.executeMcpTool
    (Net.Response false 500 (JSON.text "{'error':{'code':-32601,'message':'Method not found'}}"))
  = Normal (str "Tool returned no data.").
Proof. vm_compute. reflexivity. Qed.

Example tool_timeout_is_text :
  Executor.executeMcpTool (Net.Rejected (Error "The operation timed out."))
  = Normal (str "Error: Tool execution failed. The operation timed out.").
Proof. reflexivity. Qed.

(** A stream of three lines in two chunks: content and tool calls
    accumulate, the returned message is the last one streamed, and the
    stats of the terminal line reach the session message. *)
Example stream_accumulates :
  let l1 := JSON.text "{'message':{'role':'assistant','content':'Hel'},'done':false}" in
  let l2 := JSON.text "{'message':{'role':'assistant','content':'lo','tool_calls':[{'function':{'name':'f','arguments':{}}}]},'done':false}" in
  let l3 := JSON.text "{'message':{'role':'assistant','content':''},'done':true,'eval_count':100,'eval_duration':2000000000}" in
  Decoder.readStream [l1 +++ Text.newline +++ l2 +++ Text.newline; l3 +++ Text.newline]
    undefined []
  = {| Decoder.assistantMessageContent := "Hello";
       Decoder.toolCalls :=
         [obj [("function", obj [("name", str "f"); ("arguments", obj [])])]];
       Decoder.fullMessage := obj [("role", str "assistant"); ("content", str "")];
       Decoder.session :=
         [obj [("role", str "assistant"); ("content", str "Hello");
               ("sources", undefined);
               ("stats", DecoderProps.stats (num (of_Z 100)) (num (of_Z 50)))]] |}.
Proof. vm_compute. reflexivity. Qed.

(** A line that does not parse is skipped; the lines around it count. *)
Example corrupt_line_is_skipped :
  let ok := JSON.text "{'message':{'content':'a'}}" in
  Decoder.assistantMessageContent
    (Decoder.readStream
       [ok +++ Text.newline +++ "{oops" +++ Text.newline +++ ok +++ Text.newline]
       undefined [])
  = "aa".
Proof. vm_compute. reflexivity. Qed.

(** The session after the turn resolved by JSON sniffing: the streamed
    message keeps the text as it was streamed; the message with the
    stripped content, the tool message and the answer follow it. *)
Example session_after_sniffed_turn :
  map (fun m => (get_own m "role", get_own m "content"))
      (Conversation.session (fst (ConversationProps.sniffing_turn [ConversationProps.weather])))
  = [(str "user", str "Weather in Rome?");
     (str "assistant", str (JSON.text "{'name':'get_weather','arguments':{'city':'Rome'}}"));
     (str "assistant", str "");
     (str "tool", str "Sunny");
     (str "assistant", str "It is sunny in Rome.")].
Proof. vm_compute. reflexivity. Qed.

(** The sources array is shared: the message of the first response was
    given the array before the tool ran, and shows the tool source pushed
    onto it afterwards, as the answer does. *)
Example first_message_shows_the_tool_source :
  map (fun m => (get_own m "role", get_own m "sources"))
      (Conversation.session
         (fst (Conversation.handleSendMessage ConversationProps.native_world true
                 [ConversationProps.weather] "You are helpful."
                 [ConversationProps.user_message] [])))
  = let tool_source :=
      arr [obj [("type", str "tool"); ("name", str "get_weather");
                ("server", str "http://localhost:8000")]] in
    [(str "user", undefined);
     (str "assistant", tool_source);
     (str "assistant", undefined);
     (str "tool", undefined);
     (str "assistant", tool_source)].
Proof. vm_compute. reflexivity. Qed.

(** The first 30 code units of a title; a cut inside a surrogate pair
    leaves the high surrogate alone. *)
Example title_is_cut_at_30_units :
  Chat.opening_title "Tell me about the history of tea in Japan, please"
  = "Tell me about the history of t..."
  /\ Chat.opening_title "Which tea?" = "Which tea?".
Proof. vm_compute. split; reflexivity. Qed.

Example slice_counts_code_units :
  let face := JS.utf8_encode 128512 in
  Text.utf16_length ("ab" +++ face) = 4%Z
  /\ Chat.slice 4 ("ab" +++ face +++ "cd") = "ab" +++ face
  /\ Chat.slice 3 ("ab" +++ face +++ "cd") = "ab" +++ JS.utf8_encode 55357.
Proof. vm_compute. repeat split. Qed.

Example split_on_a_separator :
  Display.split "," "a,b,,c" = ["a"; "b"; ""; "c"]
  /\ Display.split "ab" "xabyabab" = ["x"; "y"; ""; ""]
  /\ Display.split "aa" "aaa" = [""; "a"]
  /\ Display.split "<think>" "<think>" = [""; ""].
Proof. vm_compute. repeat split. Qed.

(** What follows a second closing tag, and a second opening tag, is not
    shown. *)
Example second_tags_are_dropped :
  Display.thought_parser "Hi <think>a</think>b</think>c<think>d" = ("a", "Hi b").
Proof. vm_compute. reflexivity. Qed.

Example steps_are_moved :
  Editor.onDrop (Some 0) 2 ["a"; "b"; "c"; "d"]
  = [Some "b"; Some "c"; Some "a"; Some "d"]
  /\ Editor.onDrop (Some 3) 1 ["a"; "b"; "c"; "d"]
     = [Some "a"; Some "d"; Some "b"; Some "c"]
  /\ Editor.onDrop (Some 7) 1 ["a"; "b"; "c"; "d"]
     = [Some "a"; None; Some "b"; Some "c"; Some "d"].
Proof. vm_compute. repeat split. Qed.

Example registration_does_not_look_at_the_status :
  map Registration.status
    (Registration.registerMcpServer "http://localhost:8000"
       (Net.Response false 500 (JSON.text "{'error':'boom'}")) [])
  = [Registry.online]
  /\ map Registration.status
       (Registration.registerMcpServer "http://localhost:8000"
          (Net.Response true 200 "<html>") [])
     = [Registry.offline].
Proof. vm_compute. split; reflexivity. Qed.

Example manifest_of_two_endpoints :
  Tools.fetchAllMcpTools true ToolsProps.both_list_weather (fun _ => 5%Z)
    [RegistryProps.down; ToolsProps.mirror]
  = ([ToolsProps.weather_of "http://localhost:8000";
      ToolsProps.weather_of "http://localhost:9000"],
     [Tools.ToolsList "http://localhost:8000" 5;
      Tools.ToolsList "http://localhost:9000" 5]).
Proof. vm_compute. reflexivity. Qed.

Example prompt_lists_the_tools :
  Prompt.finalSystemPrompt "You are helpful."
    [ToolsProps.weather_of "http://localhost:8000"; ResolverProps.clock_tool]
  = "You are helpful." +++ Workflow.nl2 +++ "--- VERIFIED TOOLS STATUS ---"
    +++ Text.newline
    +++ "ACTIVE TOOLS IN MANIFEST: [get_weather, get_current_time]"
    +++ Text.newline +++ "Ready for immediate deployment.".
Proof. vm_compute. reflexivity. Qed.

Example whole_turn_with_memory :
  let o := Turn.handleSendMessage TurnProps.tea_turn "Which tea?" false None []
             ChatProps.defaults [RegistryProps.up] in
  Turn.alert o = None
  /\ map Chat.title (Turn.sessions o) = ["Which tea?"]
  /\ option_map Conversation.content (Turn.conversation o)
     = Some "It is sunny in Rome."
  /\ List.length (Turn.recalled o) = 4
  /\ List.length (Turn.listing o) = 1.
Proof. vm_compute. repeat split. Qed.

(** The addresses of a turn are those of the application settings; the
    model, the system prompt and the sampling options are those of the
    session. *)
Example turn_reads_the_addresses :
  let o := Turn.handleSendMessage TurnProps.tea_turn "Which tea?" false (Some "s1")
             [TurnProps.tea_session] TurnProps.elsewhere [RegistryProps.up] in
  map Turn.post_address (Turn.chats o) = ["http://10.0.0.7:11434/api/chat"]
  /\ hd_error (Turn.recalled o)
     = Some (Memory.Embeddings "http://10.0.0.7:11434/api/embeddings"
               "nomic-embed-text" "Which tea?")
  /\ o <> Turn.handleSendMessage TurnProps.tea_turn "Which tea?" false (Some "s1")
            [TurnProps.tea_session] ChatProps.defaults [RegistryProps.up].
Proof. vm_compute. repeat split. discriminate. Qed.

Example turn_reads_the_options_of_the_session :
  let session :=
    {| Chat.id := "s1"; Chat.title := "Tea"; Chat.messages := [];
       Chat.config := TurnProps.terse; Chat.createdAt := 0 |} in
  let o := Turn.handleSendMessage TurnProps.tea_turn "Which tea?" false (Some "s1")
             [session] ChatProps.defaults [RegistryProps.up] in
  map (fun p => (Turn.post_temperature p, Turn.post_top_k p)) (Turn.chats o)
  = [(of_Z 0, of_Z 1)]
  /\ map (fun p => get_own (hd undefined (Turn.post_messages p)) "content")
         (Turn.chats o)
     = [str ("Answer in one word." +++ Memory.context_header
             +++ "- I like green tea" +++ Text.newline +++ "- No sugar"
             +++ Prompt.tools_notice [TurnProps.current_time])].
Proof. vm_compute. repeat split. Qed.

End ModelChecks.
